(** * covid_analysis.py: cleaning, analysis and charts of a COVID-19 table

    A shallow embedding of [src/covid_analysis.py].  The script keeps one
    pandas [DataFrame] per stage and passes it around by reference, so the
    embedding has

    - typed columns ([Series]) and frames ([DataFrame]) with the pandas
      operations the script calls, as pure functions;
    - a store of frames addressed by reference, a console and a disk, with
      a state-and-exception monad [M] in which [load_dataset],
      [clean_dataset], [perform_analysis] and [create_visualizations] are
      written line by line after the source, and the script that calls
      them in turn ([main]);
    - the properties of the four stages and of the script.

    The columns are those [pd.read_csv] makes (int64, float64, object),
    the datetime64 column the Cleaner makes of the dates and the period
    column the Visualizer adds.  float64 cells are rationals (with [None]
    for NaN) and the statistics are computed exactly, int64 cells are
    integers, object cells are text (with [None] for a missing entry),
    datetime64 cells are nanoseconds since the epoch (with [None] for NaT).
    What pandas does inside its date parser and inside its floating-point
    Pearson kernel is taken as a parameter ([PandasLib]); which calls of
    the file system and of the plotting library raise is a parameter too
    ([Env]).  So is what the Loader meets: what the server answers and
    what [pd.read_csv] makes of a text ([Net]). *)

From Stdlib Require Import ZArith QArith String Ascii List Bool Lia.
From Stdlib Require Import Sorting.Sorted Sorting.Permutation.
From stdpp Require Import base option list strings pretty.
Import ListNotations.
Local Open Scope Z_scope.

(** ** Exceptions and results of library calls *)

Inductive exn :=
| KeyError (key : string)
| TypeError
| ValueError
| AttributeError
| IndexError
| OSError
| InvalidReference.

Inductive Result (A : Type) :=
| Ok (a : A)
| Err (e : exn).
Arguments Ok {A} a.
Arguments Err {A} e.

#[global] Instance Result_ret : MRet Result := fun A a => Ok a.
#[global] Instance Result_bind : MBind Result := fun A B f r =>
  match r with
  | Ok a => f a
  | Err e => Err e
  end.

(** ** Cell values and typed columns *)

Definition Timestamp := Z.
Definition Period := (Z * Z)%type.

Inductive Value :=
| VInt (z : Z)
| VFloat (q : Q)
| VStr (s : string)
| VTime (t : Timestamp)
| VPeriod (p : Period).

Inductive Series :=
| SInt (l : list Z)
| SFloat (l : list (option Q))
| SObject (l : list (option string))
| SDatetime (l : list (option Timestamp))
| SPeriod (l : list (option Period)).

Inductive dtype := int64 | float64 | object | datetime64 | period_M.

#[global] Instance dtype_eq_dec : EqDecision dtype.
Proof. solve_decision. Defined.

Definition dtype_eqb (a b : dtype) : bool :=
  match a, b with
  | int64, int64 | float64, float64 | object, object
  | datetime64, datetime64 | period_M, period_M => true
  | _, _ => false
  end.

Definition dtype_of (s : Series) : dtype :=
  match s with
  | SInt _ => int64
  | SFloat _ => float64
  | SObject _ => object
  | SDatetime _ => datetime64
  | SPeriod _ => period_M
  end.

(** The cells of a column, an absent cell being [None]. *)
Definition cells (s : Series) : list (option Value) :=
  match s with
  | SInt l => map (fun z => Some (VInt z)) l
  | SFloat l => map (option_map VFloat) l
  | SObject l => map (option_map VStr) l
  | SDatetime l => map (option_map VTime) l
  | SPeriod l => map (option_map VPeriod) l
  end.

Definition series_length (s : Series) : nat :=
  match s with
  | SInt l => length l
  | SFloat l => length l
  | SObject l => length l
  | SDatetime l => length l
  | SPeriod l => length l
  end.

Definition present {A} (c : option A) : bool :=
  match c with Some _ => true | None => false end.

(** [Series.notna()] *)
Definition notna (s : Series) : list bool :=
  match s with
  | SInt l => map (fun _ => true) l
  | SFloat l => map present l
  | SObject l => map present l
  | SDatetime l => map present l
  | SPeriod l => map present l
  end.

(** Selection of the rows of a boolean mask, [s[mask]]. *)
Fixpoint mask_filter {A} (m : list bool) (l : list A) : list A :=
  match m, l with
  | b :: m', x :: l' =>
      if b then x :: mask_filter m' l' else mask_filter m' l'
  | _, _ => []
  end.

Definition series_filter (m : list bool) (s : Series) : Series :=
  match s with
  | SInt l => SInt (mask_filter m l)
  | SFloat l => SFloat (mask_filter m l)
  | SObject l => SObject (mask_filter m l)
  | SDatetime l => SDatetime (mask_filter m l)
  | SPeriod l => SPeriod (mask_filter m l)
  end.

(** ** What the embedding takes from pandas as a parameter

    [datetime_of_string s] is what [pd.to_datetime] (with its default
    [errors='raise']) makes of one text cell: [None] when the text cannot be
    parsed, which raises; [Some None] for the texts pandas reads as NaT;
    [Some (Some t)] for a parsed time.  [datetime_of_float] converts a
    float64 number read as nanoseconds ([None]: out of bounds, which
    raises).  [pearson] is the Pearson coefficient of a list of pairs
    ([None] is NaN). *)
Record PandasLib := {
  datetime_of_string : string -> option (option Timestamp);
  datetime_of_float : Q -> option Timestamp;
  pearson : list (Q * Q) -> option Q
}.

Definition int64_min : Z := - 2 ^ 63.

Definition Qclip (lo q : Q) : Q := if Qle_bool lo q then q else lo.

(** [Series.fillna(v)]: the missing cells of a float64 column take a
    number, those of an object column take a text; an int64 column has no
    missing cell. *)
Definition fillna (v : Value) (s : Series) : Series :=
  match s, v with
  | SFloat l, VInt z => SFloat (map (fun c => Some (default (inject_Z z) c)) l)
  | SFloat l, VFloat q => SFloat (map (fun c => Some (default q c)) l)
  | SObject l, VStr u => SObject (map (fun c => Some (default u c)) l)
  | _, _ => s
  end.

(** [Series.clip(lower=lo)]: number cells are raised to [lo] and a
    missing cell stays missing.  An object column is compared cell by
    cell, and comparing a text with a number is a TypeError; a datetime
    or period column cannot be compared with a number at all. *)
Definition clip_lower (lo : Z) (s : Series) : Result Series :=
  match s with
  | SInt l => Ok (SInt (map (Z.max lo) l))
  | SFloat l => Ok (SFloat (map (option_map (Qclip (inject_Z lo))) l))
  | SObject l => if forallb (fun c => negb (present c)) l then Ok s else Err TypeError
  | SDatetime _ => Err TypeError
  | SPeriod _ => Err TypeError
  end.

Section ToDatetime.
Variable lib : PandasLib.

Definition datetime_of_text_cell (c : option string) : Result (option Timestamp) :=
  match c with
  | None => Ok None
  | Some s =>
      match datetime_of_string lib s with
      | Some r => Ok r
      | None => Err ValueError
      end
  end.

Definition datetime_of_float_cell (c : option Q) : Result (option Timestamp) :=
  match c with
  | None => Ok None
  | Some q =>
      match datetime_of_float lib q with
      | Some t => Ok (Some t)
      | None => Err ValueError
      end
  end.

(** [pd.to_datetime(series)] with the default [errors='raise']. *)
Definition to_datetime (s : Series) : Result Series :=
  match s with
  | SDatetime l => Ok (SDatetime l)
  | SObject l => l' ← mapM datetime_of_text_cell l; Ok (SDatetime l')
  | SInt l =>
      Ok (SDatetime (map (fun z => if z =? int64_min then None else Some z) l))
  | SFloat l => l' ← mapM datetime_of_float_cell l; Ok (SDatetime l')
  | SPeriod _ => Err TypeError
  end.
End ToDatetime.

(** A cell that is a number and not negative. *)
Definition nonneg (c : option Value) : Prop :=
  match c with
  | Some (VInt z) => 0 <= z
  | Some (VFloat q) => Qle (inject_Z 0) q
  | _ => False
  end.

(** ** Frames *)

Record DataFrame := mkFrame {
  index : list Z;
  columns : list (string * Series)
}.

Fixpoint assoc {A} (k : string) (l : list (string * A)) : option A :=
  match l with
  | [] => None
  | (k', v) :: l' => if String.eqb k k' then Some v else assoc k l'
  end.

Fixpoint assoc_set {A} (k : string) (v : A) (l : list (string * A)) : list (string * A) :=
  match l with
  | [] => [(k, v)]
  | (k', v') :: l' =>
      if String.eqb k k' then (k, v) :: l' else (k', v') :: assoc_set k v l'
  end.

Definition frame_get (name : string) (T : DataFrame) : option Series :=
  assoc name (columns T).

(** [df[name] = s]: an existing column is replaced where it stands, a new
    one is added as the last column. *)
Definition frame_set (name : string) (s : Series) (T : DataFrame) : DataFrame :=
  mkFrame (index T) (assoc_set name s (columns T)).

(** [df[mask]] *)
Definition frame_filter (m : list bool) (T : DataFrame) : DataFrame :=
  mkFrame (mask_filter m (index T))
          (map (fun c => (fst c, series_filter m (snd c))) (columns T)).

(** [df.select_dtypes(include=dts).columns] *)
Definition select_dtypes (dts : list dtype) (T : DataFrame) : list string :=
  map fst (filter (fun c => existsb (dtype_eqb (dtype_of (snd c))) dts) (columns T)).

(** [df[cols] = df[cols].fillna(v)]: the right-hand side is computed from
    the frame as it is, then each column is assigned in turn. *)
Definition fillna_frame (cols : list string) (v : Value) (T : DataFrame) : DataFrame :=
  fold_left
    (fun acc name =>
       match frame_get name T with
       | Some s => frame_set name (fillna v s) acc
       | None => acc
       end)
    cols T.

(** ** The store, the console, the disk *)

Definition CorrMatrix := list (list (option Q)).

(** What the script prints, one constructor per kind of line (the blank
    line some of the prints start with is left out): a fixed text, the
    row count of the Cleaner, the lines of the Analyzer with the values
    they format, and the diagnostic of an [except] clause. *)
Inductive Line :=
| Text (s : string)
| RemainingRows (n : nat)
| CoversDays (d : option Z)
| StatLine (label : string) (v : option Value)
| CorrLines (m : CorrMatrix)
| ErrorLine (prefix : string) (e : exn).

(** A saved figure: its file and the series it shows. *)
Record Chart := mkChart {
  file : string;
  points : list (Value * option Value)
}.

(** A Python variable such as [df] holds a reference to a frame; two
    variables may hold the same reference. *)
Definition ref := nat.

(** The frames the process has created ([heap], a frame is found at its
    reference), what it has printed, the directories it has made and the
    figures it has saved. *)
Record World := mkWorld {
  heap : list DataFrame;
  console : list Line;
  dirs : list string;
  disk : list Chart
}.

(** How a call ends: it returns, it raises a Python [Exception], or the
    process is left by [sys.exit]. *)
Inductive Outcome (A : Type) :=
| Ret (a : A)
| Raise (e : exn)
| Exit (code : Z).
Arguments Ret {A} a.
Arguments Raise {A} e.
Arguments Exit {A} code.

(** A piece of the script: from a world to an outcome and the world it
    leaves; what was done before an exception stays done. *)
Definition M (A : Type) : Type := World -> Outcome A * World.

#[global] Instance M_ret : MRet M := fun A a w => (Ret a, w).
#[global] Instance M_bind : MBind M := fun A B f m w =>
  match m w with
  | (Ret a, w') => f a w'
  | (Raise e, w') => (Raise e, w')
  | (Exit c, w') => (Exit c, w')
  end.

Definition raise {A} (e : exn) : M A := fun w => (Raise e, w).
Definition sys_exit {A} (code : Z) : M A := fun w => (Exit code, w).

(** [try: body except Exception as e: handler e]; [sys.exit] is not an
    [Exception] and passes through. *)
Definition try_except {A} (body : M A) (handler : exn -> M A) : M A :=
  fun w =>
    match body w with
    | (Raise e, w') => handler e w'
    | r => r
    end.

Definition lift {A} (r : Result A) : M A :=
  match r with
  | Ok a => mret a
  | Err e => raise e
  end.

Definition print (l : Line) : M unit :=
  fun w => (Ret tt, mkWorld (heap w) (console w ++ [l]) (dirs w) (disk w)).

(** Reading, creating and assigning a frame of the store. *)
Definition get_frame (r : ref) : M DataFrame :=
  fun w =>
    match heap w !! r with
    | Some T => (Ret T, w)
    | None => (Raise InvalidReference, w)
    end.

Definition new_frame (T : DataFrame) : M ref :=
  fun w => (Ret (length (heap w)),
            mkWorld (heap w ++ [T]) (console w) (dirs w) (disk w)).

Definition put_frame (r : ref) (T : DataFrame) : M unit :=
  fun w => (Ret tt, mkWorld (<[r := T]> (heap w)) (console w) (dirs w) (disk w)).

(** *** The frame methods the script calls, on references *)

Definition df_copy (r : ref) : M ref :=
  T ← get_frame r; new_frame T.

Definition df_getitem (r : ref) (name : string) : M Series :=
  T ← get_frame r;
  match frame_get name T with
  | Some s => mret s
  | None => raise (KeyError name)
  end.

Definition df_mask (r : ref) (m : list bool) : M ref :=
  T ← get_frame r; new_frame (frame_filter m T).

Definition df_setitem (r : ref) (name : string) (s : Series) : M unit :=
  T ← get_frame r; put_frame r (frame_set name s T).

Definition df_select_dtypes (r : ref) (dts : list dtype) : M (list string) :=
  T ← get_frame r; mret (select_dtypes dts T).

Definition df_fillna_setitem (r : ref) (cols : list string) (v : Value) : M unit :=
  T ← get_frame r; put_frame r (fillna_frame cols v T).

Definition df_shape0 (r : ref) : M nat :=
  T ← get_frame r; mret (length (index T)).

(** ** 2. Clean Dataset *)

Section Cleaner.
Variable lib : PandasLib.

(** [clean_dataset(df)], lines 55 to 92: a copy, the rows with a
    continent, the dates converted, the two fills, the rows with a date,
    the two clips; any exception ends the process with status 1. *)
Definition clean_dataset (df : ref) : M ref :=
  try_except
    (print (Text "Cleaning dataset...");;
     df_clean ← df_copy df;
     continent ← df_getitem df_clean "continent";
     df_clean ← df_mask df_clean (notna continent);
     date ← df_getitem df_clean "date";
     date ← lift (to_datetime lib date);
     df_setitem df_clean "date" date;;
     numeric_columns ← df_select_dtypes df_clean [float64; int64];
     df_fillna_setitem df_clean numeric_columns (VInt 0);;
     categorical_columns ← df_select_dtypes df_clean [object];
     df_fillna_setitem df_clean categorical_columns (VStr "Unknown");;
     date ← df_getitem df_clean "date";
     df_clean ← df_mask df_clean (notna date);
     total_cases ← df_getitem df_clean "total_cases";
     total_cases ← lift (clip_lower 0 total_cases);
     df_setitem df_clean "total_cases" total_cases;;
     new_cases ← df_getitem df_clean "new_cases";
     new_cases ← lift (clip_lower 0 new_cases);
     df_setitem df_clean "new_cases" new_cases;;
     n ← df_shape0 df_clean;
     print (RemainingRows n);;
     mret df_clean)
    (fun e =>
       print (ErrorLine "Error cleaning dataset" e);;
       sys_exit 1).

(** The frame the Cleaner builds from the frame it is given, as a
    function of values; [clean_dataset_run] relates the two. *)
Definition clean_frame (T : DataFrame) : Result DataFrame :=
  match frame_get "continent" T with
  | None => Err (KeyError "continent")
  | Some continent =>
      let T1 := frame_filter (notna continent) T in
      match frame_get "date" T1 with
      | None => Err (KeyError "date")
      | Some date =>
          date ← to_datetime lib date;
          let T2 := frame_set "date" date T1 in
          let T3 := fillna_frame (select_dtypes [float64; int64] T2) (VInt 0) T2 in
          let T4 := fillna_frame (select_dtypes [object] T3) (VStr "Unknown") T3 in
          match frame_get "date" T4 with
          | None => Err (KeyError "date")
          | Some date =>
              let T5 := frame_filter (notna date) T4 in
              match frame_get "total_cases" T5 with
              | None => Err (KeyError "total_cases")
              | Some total_cases =>
                  total_cases ← clip_lower 0 total_cases;
                  let T6 := frame_set "total_cases" total_cases T5 in
                  match frame_get "new_cases" T6 with
                  | None => Err (KeyError "new_cases")
                  | Some new_cases =>
                      new_cases ← clip_lower 0 new_cases;
                      Ok (frame_set "new_cases" new_cases T6)
                  end
              end
          end
      end
  end.
End Cleaner.

(** ** Order on values, sorting, groups *)

#[global] Instance Q_eq_dec : EqDecision Q.
Proof. solve_decision. Defined.

#[global] Instance Value_eq_dec : EqDecision Value.
Proof. solve_decision. Defined.

Definition value_rank (v : Value) : Z :=
  match v with
  | VInt _ => 0
  | VFloat _ => 1
  | VStr _ => 2
  | VTime _ => 3
  | VPeriod _ => 4
  end.

(** The order pandas sorts one column by; a column holds values of one
    kind, values of different kinds are ordered by kind. *)
Definition value_leb (a b : Value) : bool :=
  match a, b with
  | VInt x, VInt y => x <=? y
  | VFloat x, VFloat y => Qle_bool x y
  | VStr x, VStr y => String.leb x y
  | VTime x, VTime y => x <=? y
  | VPeriod (y1, m1), VPeriod (y2, m2) => (y1 <? y2) || ((y1 =? y2) && (m1 <=? m2))
  | _, _ => value_rank a <? value_rank b
  end.

Fixpoint insert_sorted {A} (leb : A -> A -> bool) (x : A) (l : list A) : list A :=
  match l with
  | [] => [x]
  | y :: l' => if leb x y then x :: l else y :: insert_sorted leb x l'
  end.

Fixpoint isort {A} (leb : A -> A -> bool) (l : list A) : list A :=
  match l with
  | [] => []
  | x :: l' => insert_sorted leb x (isort leb l')
  end.

Definition vmax (a b : Value) : Value := if value_leb a b then b else a.

(** The greatest present cell, [None] (NaN) when no cell is present. *)
Fixpoint max_present (cs : list (option Value)) : option Value :=
  match cs with
  | [] => None
  | c :: cs' =>
      match c, max_present cs' with
      | Some a, Some b => Some (vmax a b)
      | Some a, None => Some a
      | None, r => r
      end
  end.

(** [Series.max()] *)
Definition series_max (s : Series) : option Value := max_present (cells s).

Definition wrap64 (z : Z) : Z := (z + 2 ^ 63) mod 2 ^ 64 - 2 ^ 63.

Definition Zsum (l : list Z) : Z := fold_right Z.add 0 l.
Definition Qsum (l : list Q) : Q := fold_right Qplus (inject_Z 0) l.
Definition Qmean (l : list Q) : option Q :=
  match l with
  | [] => None
  | _ => Some (Qdiv (Qsum l) (inject_Z (Z.of_nat (length l))))
  end.
Definition Qmedian (l : list Q) : option Q :=
  let s := isort Qle_bool l in
  let n := length s in
  if Nat.even n
  then match s !! (n / 2 - 1)%nat, s !! (n / 2)%nat with
       | Some a, Some b => Some (Qdiv (Qplus a b) (inject_Z 2))
       | _, _ => None
       end
  else s !! (n / 2)%nat.

(** The numbers of a column with the missing ones left out (the
    reductions skip NaN).  The mean and the median of text are a
    TypeError; those of times and periods are outside the model and
    reported as a TypeError as well. *)
Definition numbers (s : Series) : Result (list Q) :=
  match s with
  | SInt l => Ok (map inject_Z l)
  | SFloat l => Ok (omap id l)
  | SObject l => if forallb (fun c => negb (present c)) l then Ok [] else Err TypeError
  | SDatetime _ => Err TypeError
  | SPeriod _ => Err TypeError
  end.

(** [Series.mean()], [Series.median()], [Series.sum()] *)
Definition series_mean (s : Series) : Result (option Value) :=
  l ← numbers s; Ok (option_map VFloat (Qmean l)).

Definition series_median (s : Series) : Result (option Value) :=
  l ← numbers s; Ok (option_map VFloat (Qmedian l)).

Definition series_sum (s : Series) : Result (option Value) :=
  match s with
  | SInt l => Ok (Some (VInt (wrap64 (Zsum l))))
  | SFloat l => Ok (Some (VFloat (Qsum (omap id l))))
  | SObject l =>
      match omap id l with
      | [] => Ok (Some (VInt 0))
      | ss => Ok (Some (VStr (String.concat "" ss)))
      end
  | SDatetime _ => Err TypeError
  | SPeriod _ => Err TypeError
  end.

(** The keys of [groupby]: the present values of the key column, each
    once, in ascending order (rows with a missing key are left out). *)
Definition group_keys (key : Series) : list Value :=
  isort value_leb (remove_dups (omap id (cells key))).

Definition key_mask (k : Value) (key : Series) : list bool :=
  map (fun c => bool_decide (c = Some k)) (cells key).

(** [df.groupby(by)[val].agg()] as the list of (key, aggregate). *)
Definition groupby_agg (agg : Series -> Result (option Value))
    (key val : Series) : Result (list (Value * option Value)) :=
  mapM (fun k => v ← agg (series_filter (key_mask k key) val); Ok (k, v))
       (group_keys key).

Definition frame_groupby (by_ val : string)
    (agg : Series -> Result (option Value)) (T : DataFrame)
    : Result (list (Value * option Value)) :=
  match frame_get by_ T with
  | None => Err (KeyError by_)
  | Some key =>
      match frame_get val T with
      | None => Err (KeyError val)
      | Some v => groupby_agg agg key v
      end
  end.

(** The greatest value of column [val] over the rows whose key is [k]. *)
Definition group_max (key val : Series) (k : Value) : option Value :=
  series_max (series_filter (key_mask k key) val).

(** [sort_values(ascending=False)]: greatest first, NaN last.  (pandas
    sorts with quicksort, which fixes no order among equal values; the
    insertion sort used here keeps the group order among them.) *)
Definition desc_leb (a b : Value * option Value) : bool :=
  match snd a, snd b with
  | Some x, Some y => value_leb y x
  | Some _, None => true
  | None, Some _ => false
  | None, None => true
  end.

Definition sort_values_desc (l : list (Value * option Value)) :=
  isort desc_leb l.

(** [df.groupby('location')['total_cases'].max()
       .sort_values(ascending=False).head(10)] *)
Definition top_countries (T : DataFrame) : Result (list (Value * option Value)) :=
  g ← frame_groupby "location" "total_cases" (fun s => Ok (series_max s)) T;
  Ok (take 10 (sort_values_desc g)).

(** ** Calendar *)

Definition ns_per_day : Z := 86400 * 10 ^ 9.

Definition days_from_civil (y m d : Z) : Z :=
  let y' := if m <=? 2 then y - 1 else y in
  let era := y' / 400 in
  let yoe := y' - era * 400 in
  let mp := if 2 <? m then m - 3 else m + 9 in
  let doy := (153 * mp + 2) / 5 + d - 1 in
  let doe := yoe * 365 + yoe / 4 - yoe / 100 + doy in
  era * 146097 + doe - 719468.

Definition civil_from_days (z : Z) : Z * Z * Z :=
  let z := z + 719468 in
  let era := z / 146097 in
  let doe := z - era * 146097 in
  let yoe := (doe - doe / 1460 + doe / 36524 - doe / 146096) / 365 in
  let doy := doe - (365 * yoe + yoe / 4 - yoe / 100) in
  let mp := (5 * doy + 2) / 153 in
  let d := doy - (153 * mp + 2) / 5 + 1 in
  let m := if mp <? 10 then mp + 3 else mp - 9 in
  let y := yoe + era * 400 in
  (if m <=? 2 then y + 1 else y, m, d).

(** [Timestamp.to_period('M')] *)
Definition to_period_M (t : Timestamp) : Period :=
  let '(y, m, _) := civil_from_days (t / ns_per_day) in (y, m).

(** [series.dt.to_period('M')]: the [.dt] accessor exists on datetime
    columns only. *)
Definition dt_to_period_M (s : Series) : Result Series :=
  match s with
  | SDatetime l => Ok (SPeriod (map (option_map to_period_M) l))
  | _ => Err AttributeError
  end.

(** The greatest number of nanoseconds of a [Timedelta]. *)
Definition timedelta_max : Z := 2 ^ 63 - 1.

(** [(series.max() - series.min()).days], lines 117 and 120 of the script
    taken together (nothing is printed between them): a number of days
    for a datetime column, NaN when it has no time, and no [.days] on the
    difference of anything else.  The difference of two times is a
    [Timedelta], 64 bits of nanoseconds: when it does not fit, the
    subtraction raises OutOfBoundsDatetime, a ValueError. *)
Definition date_range_days (s : Series) : Result (option Z) :=
  match s with
  | SDatetime l =>
      match omap id l with
      | [] => Ok None
      | t :: ts =>
          let d := fold_right Z.max t ts - fold_right Z.min t ts in
          if d <=? timedelta_max then Ok (Some (d / ns_per_day))
          else Err ValueError
      end
  | _ => Err AttributeError
  end.

(** A value under a float format specification such as [:,.2f]: a text
    has no such format. *)
Definition format_float (v : option Value) : Result (option Value) :=
  match v with
  | Some (VStr _) => Err ValueError
  | Some (VPeriod _) => Err TypeError
  | _ => Ok v
  end.

(** ** 3. Basic Analysis *)

Inductive Stat :=
| Scalar (v : option Value)
| Matrix (m : CorrMatrix).

Definition AnalysisResult := list (string * Stat).

(** The rows on which both numbers are present (pairwise deletion). *)
Definition complete_pairs (xs ys : list (option Q)) : list (Q * Q) :=
  omap (fun p => match p with
                 | (Some x, Some y) => Some (x, y)
                 | _ => None
                 end) (zip xs ys).

(** A column as [DataFrame.corr] reads it: numbers, NaN for a missing
    cell; text that is no number is a ValueError. *)
Definition corr_cells (s : Series) : Result (list (option Q)) :=
  match s with
  | SInt l => Ok (map (fun z => Some (inject_Z z)) l)
  | SFloat l => Ok l
  | SObject l =>
      if forallb (fun c => negb (present c)) l
      then Ok (map (fun _ => None) l) else Err ValueError
  | SDatetime _ => Err TypeError
  | SPeriod _ => Err TypeError
  end.

(** A list of labels as Python prints it. *)
Definition py_list (l : list string) : string :=
  "[" +:+ String.concat ", " (map (fun n => "'" +:+ n +:+ "'") l) +:+ "]".

(** [df[[a, b]]]: the two columns.  When a label is no column, the
    KeyError names the labels that are missing, or says that none of the
    labels is a column. *)
Definition frame_get_pair (a b : string) (T : DataFrame) : Result (Series * Series) :=
  match frame_get a T, frame_get b T with
  | Some x, Some y => Ok (x, y)
  | Some _, None => Err (KeyError (py_list [b] +:+ " not in index"))
  | None, Some _ => Err (KeyError (py_list [a] +:+ " not in index"))
  | None, None =>
      Err (KeyError ("None of [Index(" +:+ py_list [a; b]
                     +:+ ", dtype='object')] are in the [columns]"))
  end.

Definition df_getitem_pair (r : ref) (a b : string) : M (Series * Series) :=
  T ← get_frame r; lift (frame_get_pair a b T).

Section Analyzer.
Variable lib : PandasLib.

(** [df[[a, b]].corr()] on the two columns *)
Definition corr (x y : Series) : Result CorrMatrix :=
  xs ← corr_cells x;
  ys ← corr_cells y;
  Ok [[pearson lib (complete_pairs xs xs); pearson lib (complete_pairs xs ys)];
      [pearson lib (complete_pairs ys xs); pearson lib (complete_pairs ys ys)]].

(** The body of the [try] of [perform_analysis], lines 105 to 134. *)
Definition analysis_body (df : ref) : M (option AnalysisResult) :=
  print (Text "--- Basic Analysis ---");;
  new_cases ← df_getitem df "new_cases";
  mean_cases ← lift (series_mean new_cases);
  new_cases ← df_getitem df "new_cases";
  median_cases ← lift (series_median new_cases);
  new_cases ← df_getitem df "new_cases";
  let max_cases := series_max new_cases in
  total_cases ← df_getitem df "total_cases";
  let total_cases_worldwide := series_max total_cases in
  '(new_cases, new_deaths) ← df_getitem_pair df "new_cases" "new_deaths";
  correlation ← lift (corr new_cases new_deaths);
  date ← df_getitem df "date";
  days ← lift (date_range_days date);
  print (CoversDays days);;
  v ← lift (format_float mean_cases);
  print (StatLine "Mean daily new cases" v);;
  v ← lift (format_float median_cases);
  print (StatLine "Median daily new cases" v);;
  v ← lift (format_float max_cases);
  print (StatLine "Maximum daily new cases" v);;
  v ← lift (format_float total_cases_worldwide);
  print (StatLine "Total cases worldwide" v);;
  print (Text "Correlation between new cases and deaths:");;
  print (CorrLines correlation);;
  mret (Some [("mean_cases", Scalar mean_cases);
              ("median_cases", Scalar median_cases);
              ("max_cases", Scalar max_cases);
              ("total_cases", Scalar total_cases_worldwide);
              ("correlation", Matrix correlation)]).

(** [perform_analysis(df)], lines 103 to 138: an exception is printed
    and the result is [None]. *)
Definition perform_analysis (df : ref) : M (option AnalysisResult) :=
  try_except (analysis_body df)
    (fun e =>
       print (ErrorLine "Error performing analysis" e);;
       mret None).
End Analyzer.

(** ** 4. Visualizations *)

(** The type of a column of a frame (float64 when there is none). *)
Definition column_dtype (name : string) (T : DataFrame) : dtype :=
  match frame_get name T with
  | Some s => dtype_of s
  | None => float64
  end.

(** What the file system and the plotting library do is not in the
    script: [Env] says which of their calls raise, and with what. *)
Record Env := {
  makedirs_error : string -> option exn;
  plot_error : Chart -> option exn;
  savefig_error : Chart -> option exn
}.

(** The labels above the bars: [f'{v:,.0f}'] for each value. *)
Definition bar_labels (top : list (Value * option Value)) : M (list (option Value)) :=
  mapM (fun p => lift (format_float (snd p))) top.

Section Visualizer.
Variable env : Env.

(** [os.makedirs(dir, exist_ok=True)]; drawing a figure; saving it. *)
Definition os_makedirs (dir : string) : M unit :=
  fun w =>
    match makedirs_error env dir with
    | Some e => (Raise e, w)
    | None =>
        (Ret tt,
         mkWorld (heap w) (console w)
                 (if bool_decide (dir ∈ dirs w) then dirs w else dirs w ++ [dir])
                 (disk w))
    end.

Definition plot (c : Chart) : M unit :=
  fun w =>
    match plot_error env c with
    | Some e => (Raise e, w)
    | None => (Ret tt, w)
    end.

Definition savefig (c : Chart) : M unit :=
  fun w =>
    match savefig_error env c with
    | Some e => (Raise e, w)
    | None => (Ret tt, mkWorld (heap w) (console w) (dirs w) (disk w ++ [c]))
    end.

(** [series.plot(kind='bar')], line 181.  Whether the bars of a series
    that has entries are drawn is the library's ([plot]).  The bars of a
    series without entries are never drawn: pandas raises a TypeError (no
    numeric data to plot) when the series is of type object, and an
    IndexError otherwise. *)
Definition bar_plot (d : dtype) (c : Chart) : M unit :=
  match points c with
  | [] => raise (if dtype_eqb d object then TypeError else IndexError)
  | _ :: _ => plot c
  end.

(** [df.groupby(by)[val].agg()] on a reference. *)
Definition df_groupby (df : ref) (by_ val : string)
    (agg : Series -> Result (option Value)) : M (list (Value * option Value)) :=
  T ← get_frame df; lift (frame_groupby by_ val agg T).

(** The body of the [try] of [create_visualizations], lines 151 to 217:
    the directory, then the three charts, the third after the assignment
    of the column "month" to the frame it was given. *)
Definition visualizations_body (df : ref) : M unit :=
  print (Text "Generating visualizations...");;
  let output_dir := "covid_visualizations" in
  os_makedirs output_dir;;
  print (Text "Generating global new cases trend chart...");;
  global_cases ← df_groupby df "date" "new_cases" series_sum;
  let chart := mkChart "covid_visualizations/global_new_cases.png" global_cases in
  plot chart;;
  savefig chart;;
  print (Text "Generating top 10 countries chart...");;
  T ← get_frame df;
  top ← lift (top_countries T);
  let chart := mkChart "covid_visualizations/top_10_countries_total_cases.png" top in
  bar_plot (column_dtype "total_cases" T) chart;;
  bar_labels top;;
  savefig chart;;
  print (Text "Generating monthly trend chart...");;
  date ← df_getitem df "date";
  month ← lift (dt_to_period_M date);
  df_setitem df "month" month;;
  monthly_cases ← df_groupby df "month" "new_cases" series_mean;
  let chart := mkChart "covid_visualizations/monthly_trend.png" monthly_cases in
  plot chart;;
  savefig chart;;
  print (Text "All visualizations saved successfully in 'covid_visualizations' directory.").

(** [create_visualizations(df)], lines 149 to 220: an exception is
    printed and the function returns. *)
Definition create_visualizations (df : ref) : M unit :=
  try_except (visualizations_body df)
    (fun e => print (ErrorLine "Error creating visualizations" e)).
End Visualizer.

(** What the bar chart is to show of a table [T]: at most ten entries
    and as many as there are locations if these are fewer, one per
    location, each with the greatest total_cases of its location, the
    greatest first, and no location that is left out has more. *)
Definition ranking (T : DataFrame) (r : list (Value * option Value)) : Prop :=
  exists loc tc,
    frame_get "location" T = Some loc /\
    frame_get "total_cases" T = Some tc /\
    (length r <= 10)%nat /\
    (exists distinct,
       NoDup distinct /\
       (forall k, k ∈ distinct <-> Some k ∈ cells loc) /\
       length r = Nat.min 10 (length distinct)) /\
    NoDup (map fst r) /\
    StronglySorted (fun a b => desc_leb a b = true) r /\
    (forall k v, (k, v) ∈ r ->
       exists x,
         v = Some x /\ nonneg (Some x) /\
         (exists i, cells loc !! i = Some (Some k) /\ cells tc !! i = Some (Some x)) /\
         (forall i y, cells loc !! i = Some (Some k) ->
                      cells tc !! i = Some (Some y) -> value_leb y x = true)) /\
    (forall k, Some k ∈ cells loc -> k ∉ map fst r ->
       forall e, e ∈ r -> desc_leb e (k, group_max loc tc k) = true).

(** The file of the bar chart. *)
Definition top10_file : string :=
  "covid_visualizations/top_10_countries_total_cases.png".

(** ** The script after the load: clean, analyse, draw *)

Definition script (lib : PandasLib) (env : Env) (raw : DataFrame)
    : M (ref * option AnalysisResult) :=
  df ← new_frame raw;
  df ← clean_dataset lib df;
  analysis_results ← perform_analysis lib df;
  create_visualizations env df;;
  mret (df, analysis_results).

(** ** An instance of the parameters, for running the embedding

    Dates are read in the format of the dataset, [YYYY-MM-DD]; the
    Pearson coefficient is computed to nine decimals. *)

Definition digit (c : ascii) : option Z :=
  let n := Z.of_N (N_of_ascii c) in
  if (48 <=? n) && (n <=? 57) then Some (n - 48) else None.

Definition leap_year (y : Z) : bool :=
  ((y mod 4 =? 0) && negb (y mod 100 =? 0)) || (y mod 400 =? 0).

Definition days_in_month (y m : Z) : Z :=
  if m =? 2 then (if leap_year y then 29 else 28)
  else if (m =? 4) || (m =? 6) || (m =? 9) || (m =? 11) then 30 else 31.

Definition parse_iso_date (s : string) : option Timestamp :=
  match list_ascii_of_string s with
  | [y1; y2; y3; y4; s1; m1; m2; s2; d1; d2] =>
      match digit y1, digit y2, digit y3, digit y4,
            digit m1, digit m2, digit d1, digit d2 with
      | Some a, Some b, Some c, Some d, Some e, Some f, Some g, Some h =>
          let y := 1000 * a + 100 * b + 10 * c + d in
          let m := 10 * e + f in
          let dd := 10 * g + h in
          if Ascii.eqb s1 "-" && Ascii.eqb s2 "-"
             && (1 <=? m) && (m <=? 12) && (1 <=? dd) && (dd <=? days_in_month y m)
          then Some (days_from_civil y m dd * ns_per_day)
          else None
      | _, _, _, _, _, _, _, _ => None
      end
  | _ => None
  end.

Definition Qfloor_ns (q : Q) : Z := Qnum q / Z.pos (Qden q).

Definition pearson_approx (l : list (Q * Q)) : option Q :=
  let n := inject_Z (Z.of_nat (length l)) in
  let xs := map fst l in
  let ys := map snd l in
  let sx := Qsum xs in
  let sy := Qsum ys in
  let sxx := Qsum (map (fun x => Qmult x x) xs) in
  let syy := Qsum (map (fun y => Qmult y y) ys) in
  let sxy := Qsum (map (fun p => Qmult (fst p) (snd p)) l) in
  let cov := Qred (Qminus (Qmult n sxy) (Qmult sx sy)) in
  let vx := Qred (Qminus (Qmult n sxx) (Qmult sx sx)) in
  let vy := Qred (Qminus (Qmult n syy) (Qmult sy sy)) in
  let d := Qred (Qmult vx vy) in
  if Qnum d =? 0 then None
  else
    let r2 := Qred (Qdiv (Qmult cov cov) d) in
    let root := Z.sqrt (Qfloor_ns (Qmult r2 (inject_Z (10 ^ 18)))) in
    Some (Qred (Qmake (Z.sgn (Qnum cov) * root) (Z.to_pos (10 ^ 9)))).

Definition iso_lib : PandasLib := {|
  datetime_of_string s :=
    if String.eqb s "NaT" then Some None
    else option_map Some (parse_iso_date s);
  datetime_of_float q := Some (Qfloor_ns q);
  pearson := pearson_approx
|}.

(** A file system and a plotting library in which every call succeeds. *)
Definition fine_env : Env := {|
  makedirs_error _ := None;
  plot_error _ := None;
  savefig_error _ := None
|}.

Definition run {A} (m : M A) (w : World) : Outcome A * World := m w.

(** *** Tables of the scenarios *)

(** A null-continent "World" row and a "Europe"/"France" row. *)
Definition world_france : DataFrame :=
  mkFrame [0; 1]
    [("continent", SObject [None; Some "Europe"]);
     ("location", SObject [Some "World"; Some "France"]);
     ("date", SObject [Some "2021-01-01"; Some "2021-01-01"]);
     ("total_cases", SInt [100; 50]);
     ("new_cases", SInt [10; 5])].

(** The same two rows with the four fields only. *)
Definition world_france_four_fields : DataFrame :=
  mkFrame [0; 1]
    [("continent", SObject [None; Some "Europe"]);
     ("location", SObject [Some "World"; Some "France"]);
     ("date", SObject [Some "2021-01-01"; Some "2021-01-01"]);
     ("total_cases", SInt [100; 50])].

(** One row with negative counts. *)
Definition negative_counts : DataFrame :=
  mkFrame [0]
    [("continent", SObject [Some "Europe"]);
     ("location", SObject [Some "France"]);
     ("date", SObject [Some "2021-01-01"]);
     ("total_cases", SInt [-5]);
     ("new_cases", SInt [-3])].

(** A row whose reproduction_rate is missing, next to one that has it. *)
Definition missing_rate : DataFrame :=
  mkFrame [0; 1]
    [("continent", SObject [Some "Europe"; Some "Europe"]);
     ("location", SObject [Some "France"; None]);
     ("date", SObject [Some "2021-01-01"; Some "2021-01-02"]);
     ("total_cases", SFloat [Some (50 # 1); None]);
     ("new_cases", SFloat [Some (5 # 1); Some (7 # 1)]);
     ("new_deaths", SFloat [None; Some (1 # 1)]);
     ("reproduction_rate", SFloat [None; Some (11 # 10)])].

(** A row whose date is no date, after a row whose date is one. *)
Definition bad_date : DataFrame :=
  mkFrame [0; 1]
    [("continent", SObject [Some "Europe"; Some "Europe"]);
     ("location", SObject [Some "France"; Some "Spain"]);
     ("date", SObject [Some "2021-01-01"; Some "not-a-date"]);
     ("total_cases", SInt [50; 60]);
     ("new_cases", SInt [5; 6]);
     ("new_deaths", SInt [1; 2])].

(** The France row alone, cleaned. *)
Definition france_only : DataFrame :=
  mkFrame [1]
    [("continent", SObject [Some "Europe"]);
     ("location", SObject [Some "France"]);
     ("date", SDatetime [Some 1609459200000000000]);
     ("total_cases", SInt [50]);
     ("new_cases", SInt [5])].

(** The store after the load: the raw table at reference 0. *)
Definition loaded (raw : DataFrame) : World := mkWorld [raw] [] [] [].

(** Twelve locations on two dates; the first location has two rows. *)
Definition twelve_locations : DataFrame :=
  mkFrame [0; 1; 2; 3; 4; 5; 6; 7; 8; 9; 10; 11; 12]
    [("continent",
      SObject [Some "Europe"; Some "Europe"; Some "Europe"; Some "Europe";
               Some "Asia"; Some "Asia"; Some "Asia"; Some "Africa";
               Some "Africa"; Some "Oceania"; Some "Oceania";
               Some "South America"; Some "South America"]);
     ("location",
      SObject [Some "France"; Some "France"; Some "Spain"; Some "Italy";
               Some "India"; Some "Japan"; Some "Nepal"; Some "Kenya";
               Some "Ghana"; Some "Fiji"; Some "Samoa";
               Some "Chile"; Some "Peru"]);
     ("date",
      SObject [Some "2021-01-01"; Some "2021-02-01"; Some "2021-01-01";
               Some "2021-01-01"; Some "2021-01-01"; Some "2021-01-01";
               Some "2021-01-01"; Some "2021-01-01"; Some "2021-01-01";
               Some "2021-01-01"; Some "2021-01-01"; Some "2021-01-01";
               Some "2021-01-01"]);
     ("total_cases", SInt [50; 70; 60; 65; 900; 30; 5; 20; 10; 2; 1; 40; 45]);
     ("new_cases", SInt [5; 20; 6; 7; 90; 3; 1; 2; 1; 1; 0; 4; 5]);
     ("new_deaths", SInt [1; 2; 1; 1; 9; 0; 0; 0; 0; 0; 0; 1; 1])].

(** The store after the Cleaner, then after the Analyzer, then after the
    Visualizer, for the table [world_france] and a file system and a
    plotting library that work. *)
Definition world_france_cleaned : World :=
  snd (run (clean_dataset iso_lib 0%nat) (loaded world_france)).
Definition world_france_analysed : World :=
  snd (run (perform_analysis iso_lib 3%nat) world_france_cleaned).
Definition world_france_drawn : World :=
  snd (run (create_visualizations fine_env 3%nat) world_france_analysed).

(** ** The Cleaner row by row

    What the six steps of [clean_dataset] amount to for one row and one
    cell; [clean_frame_columns] below proves that the Cleaner computes
    exactly this. *)

Definition frame_cell (T : DataFrame) (name : string) (i : nat) : option (option Value) :=
  s ← frame_get name T; cells s !! i.

(** Every column is as long as the index. *)
Definition wf_frame (T : DataFrame) : bool :=
  forallb (fun c => Nat.eqb (series_length (snd c)) (length (index T))) (columns T).

Fixpoint count_true (m : list bool) : nat :=
  match m with
  | [] => 0
  | b :: m' => (if b then 1 else 0) + count_true m'
  end.

(** The position, among the selected rows, of row [i] of a mask. *)
Definition rank (m : list bool) (i : nat) : nat := count_true (take i m).

Definition datetime_of_cell (lib : PandasLib) (c : option Value) : Result (option Value) :=
  match c with
  | None => Ok None
  | Some (VTime t) => Ok (Some (VTime t))
  | Some (VStr s) =>
      match datetime_of_string lib s with
      | Some r => Ok (option_map VTime r)
      | None => Err ValueError
      end
  | Some (VInt z) => Ok (if z =? int64_min then None else Some (VTime z))
  | Some (VFloat q) =>
      match datetime_of_float lib q with
      | Some t => Ok (Some (VTime t))
      | None => Err ValueError
      end
  | Some (VPeriod _) => Err TypeError
  end.

Definition date_cell (lib : PandasLib) (c : option Value) : option Value :=
  match datetime_of_cell lib c with
  | Ok c' => c'
  | Err _ => None
  end.

Definition fill_cell (d : dtype) (c : option Value) : option Value :=
  match c with
  | Some v => Some v
  | None =>
      match d with
      | float64 => Some (VFloat (inject_Z 0))
      | object => Some (VStr "Unknown")
      | _ => None
      end
  end.

Definition clip_value (lo : Z) (v : Value) : Value :=
  match v with
  | VInt z => VInt (Z.max lo z)
  | VFloat q => VFloat (Qclip (inject_Z lo) q)
  | _ => v
  end.

Definition is_count (name : string) : bool :=
  String.eqb name "total_cases" || String.eqb name "new_cases".

(** The cell of column [name], of raw type [d], in a row that is kept. *)
Definition spec_cell (lib : PandasLib) (name : string) (d : dtype)
    (c : option Value) : option Value :=
  if String.eqb name "date" then date_cell lib c
  else if is_count name then option_map (clip_value 0) (fill_cell d c)
  else fill_cell d c.

(** The rows that are kept: continent present, date a valid time. *)
Definition keep_mask (lib : PandasLib) (T : DataFrame) : list bool :=
  match frame_get "continent" T, frame_get "date" T with
  | Some continent, Some date =>
      zip_with andb (notna continent)
               (map (fun c => present (date_cell lib c)) (cells date))
  | _, _ => []
  end.

Definition negative (v : Value) : Prop :=
  match v with
  | VInt z => z < 0
  | VFloat q => Qlt q (inject_Z 0)
  | _ => False
  end.

(** The zero of the kind of number [v] is. *)
Definition zero_like (v : Value) : Value :=
  match v with
  | VFloat _ => VFloat (inject_Z 0)
  | _ => VInt 0
  end.

(** Steps 3 and 4 of the Cleaner on a frame. *)
Definition fill_missing (T : DataFrame) : DataFrame :=
  let T3 := fillna_frame (select_dtypes [float64; int64] T) (VInt 0) T in
  fillna_frame (select_dtypes [object] T3) (VStr "Unknown") T3.


(** ** 1. Load Dataset *)

(** What the network and the CSV parser do is not in the script: [Net]
    says what [requests.get] answers for a URL and a timeout (a response
    with its status code and its text, a [requests.RequestException], or
    another exception, each with its message) and what [pd.read_csv]
    makes of a text (a table, a [pd.errors.EmptyDataError], or another
    exception). *)
Inductive HttpResult :=
| Response (status_code : Z) (text : string)
| RequestException (msg : string)
| GetException (msg : string).

Inductive CsvResult :=
| Parsed (T : DataFrame)
| EmptyDataError
| CsvException (msg : string).

Record Net := {
  requests_get : string -> Z -> HttpResult;
  pd_read_csv : string -> CsvResult
}.

(** The exceptions of the [try] of [load_dataset], by the [except]
    clause that catches them. *)
Inductive LoadError :=
| URLError (reason : string)
| RequestError (msg : string)
| EmptyData
| Unexpected (msg : string).

(** [str(e)] *)
Definition load_error_str (e : LoadError) : string :=
  match e with
  | URLError reason => "<urlopen error " +:+ reason +:+ ">"
  | RequestError msg => msg
  | EmptyData => "No columns to parse from file"
  | Unexpected msg => msg
  end.

(** The body of the [try]: a piece of script that returns or raises one
    of the exceptions above. *)
Record LoadM (A : Type) := mkLoadM { run_load : World -> (LoadError + A) * World }.
Arguments mkLoadM {A} _.
Arguments run_load {A} _ _.

#[global] Instance LoadM_ret : MRet LoadM := fun A a => mkLoadM (fun w => (inr a, w)).
#[global] Instance LoadM_bind : MBind LoadM := fun A B f m =>
  mkLoadM (fun w =>
    match run_load m w with
    | (inr a, w') => run_load (f a) w'
    | (inl e, w') => (inl e, w')
    end).

Definition load_raise {A} (e : LoadError) : LoadM A := mkLoadM (fun w => (inl e, w)).

Definition load_print (s : string) : LoadM unit :=
  mkLoadM (fun w => (inr tt, snd (print (Text s) w))).

Definition load_new_frame (T : DataFrame) : LoadM ref :=
  mkLoadM (fun w => (inr (length (heap w)), snd (new_frame T w))).

Definition load_get (net : Net) (url : string) (timeout : Z) : LoadM (Z * string) :=
  match requests_get net url timeout with
  | Response status_code text => mret (status_code, text)
  | RequestException msg => load_raise (RequestError msg)
  | GetException msg => load_raise (Unexpected msg)
  end.

Definition load_read_csv (net : Net) (text : string) : LoadM DataFrame :=
  match pd_read_csv net text with
  | Parsed T => mret T
  | EmptyDataError => load_raise EmptyData
  | CsvException msg => load_raise (Unexpected msg)
  end.

(** [df.shape] *)
Definition shape (T : DataFrame) : nat * nat := (length (index T), length (columns T)).

Section Loader.
Variable net : Net.

(** The body of the [try] of [load_dataset], lines 23 to 33. *)
Definition load_body (url : string) : LoadM ref :=
  load_print "Loading dataset...";;
  response ← load_get net url 30;
  (if negb (fst response =? 200)
   then load_raise
          (URLError ("URL returned status code " +:+ pretty (fst response)))
   else mret tt);;
  T ← load_read_csv net (snd response);
  df ← load_new_frame T;
  load_print ("Dataset loaded: " +:+ pretty (fst (shape T)) +:+ " rows, "
              +:+ pretty (snd (shape T)) +:+ " columns");;
  mret df.

(** The three [except] clauses, lines 34 to 43. *)
Definition load_handler (e : LoadError) : M ref :=
  match e with
  | URLError _ | RequestError _ =>
      print (Text ("Error loading dataset: " +:+ load_error_str e));;
      print (Text "Please check your internet connection or try again later.");;
      sys_exit 1
  | EmptyData =>
      print (Text "Error: The dataset is empty");;
      sys_exit 1
  | Unexpected _ =>
      print (Text ("Unexpected error loading dataset: " +:+ load_error_str e));;
      sys_exit 1
  end.

(** [load_dataset(url)], lines 21 to 43. *)
Definition load_dataset (url : string) : M ref :=
  fun w =>
    match run_load (load_body url) w with
    | (inr df, w') => (Ret df, w')
    | (inl e, w') => load_handler e w'
    end.
End Loader.

(** *** The script: load, clean, analyse, draw *)

Definition url : string :=
  "https://raw.githubusercontent.com/owid/covid-19-data/master/public/data/owid-covid-data.csv".

(** Lines 48, 96, 142 and 224. *)
Definition main (net : Net) (lib : PandasLib) (env : Env)
    : M (ref * option AnalysisResult) :=
  df ← load_dataset net url;
  df ← clean_dataset lib df;
  analysis_results ← perform_analysis lib df;
  create_visualizations env df;;
  mret (df, analysis_results).

(** A world in which nothing has happened yet. *)
Definition start : World := mkWorld [] [] [] [].

(** A server that answers [status] with [text], a parser that reads
    every text as the table [T]. *)
Definition serving (status : Z) (text : string) (T : DataFrame) : Net := {|
  requests_get _ _ := Response status text;
  pd_read_csv _ := Parsed T
|}.

(** The line that tells the shape of the loaded table. *)
Definition loaded_line (T : DataFrame) : Line :=
  Text ("Dataset loaded: " +:+ pretty (length (index T)) +:+ " rows, "
        +:+ pretty (length (columns T)) +:+ " columns").

(** The lines an [except] clause of the Loader prints. *)
Definition load_diagnostic (e : LoadError) : list Line :=
  match e with
  | URLError _ | RequestError _ =>
      [Text ("Error loading dataset: " +:+ load_error_str e);
       Text "Please check your internet connection or try again later."]
  | EmptyData => [Text "Error: The dataset is empty"]
  | Unexpected _ => [Text ("Unexpected error loading dataset: " +:+ load_error_str e)]
  end.

(** What the [try] of the Loader ends in, from the answers of the
    network and of the parser. *)
Definition load_result (net : Net) (u : string) : LoadError + DataFrame :=
  match requests_get net u 30 with
  | Response status_code text =>
      if status_code =? 200
      then match pd_read_csv net text with
           | Parsed T => inr T
           | EmptyDataError => inl EmptyData
           | CsvException msg => inl (Unexpected msg)
           end
      else inl (URLError ("URL returned status code " +:+ pretty status_code))
  | RequestException msg => inl (RequestError msg)
  | GetException msg => inl (Unexpected msg)
  end.


(** ** What the properties of the stages are stated with *)

(** [df.columns]: the names of the columns, in their order. *)
Definition column_names (T : DataFrame) : list string := map fst (columns T).

(** The columns the Cleaner reads by name. *)
Definition required_columns : list string :=
  ["continent"; "date"; "total_cases"; "new_cases"].

(** The lines the Analyzer prints when every step succeeds. *)
Definition analysis_report (days : option Z) (mean median max_cases total : option Value)
    (m : CorrMatrix) : list Line :=
  [Text "--- Basic Analysis ---";
   CoversDays days;
   StatLine "Mean daily new cases" mean;
   StatLine "Median daily new cases" median;
   StatLine "Maximum daily new cases" max_cases;
   StatLine "Total cases worldwide" total;
   Text "Correlation between new cases and deaths:";
   CorrLines m].

(** The times of a column are no further apart than a [Timedelta] can
    tell (some 292 years). *)
Definition span_fits (s : Series) : Prop :=
  forall a b, Some (VTime a) ∈ cells s -> Some (VTime b) ∈ cells s ->
              b - a <= timedelta_max.

(** The files of the three charts, in the order the script saves them. *)
Definition chart_files : list string :=
  ["covid_visualizations/global_new_cases.png";
   "covid_visualizations/top_10_countries_total_cases.png";
   "covid_visualizations/monthly_trend.png"].

(** The last line of a run in which nothing raised. *)
Definition success_line : Line :=
  Text "All visualizations saved successfully in 'covid_visualizations' directory.".

(** What a chart of groups shows: one point per value of the key
    column, each value once, in ascending order, and with each the
    aggregate of the rows that have this key. *)
Definition grouped (agg : Series -> Result (option Value)) (key val : Series)
    (pts : list (Value * option Value)) : Prop :=
  NoDup (map fst pts) /\
  StronglySorted (fun a b => value_leb a b = true) (map fst pts) /\
  (forall k, k ∈ map fst pts <-> Some k ∈ cells key) /\
  (forall k v, (k, v) ∈ pts -> agg (series_filter (key_mask k key) val) = Ok v).

(** The table the Cleaner makes of a table it accepts. *)
Definition cleaned_of (lib : PandasLib) (T : DataFrame) : DataFrame :=
  match clean_frame lib T with
  | Ok T' => T'
  | Err _ => T
  end.

(** Two dates further apart than a [Timedelta] can tell. *)
Definition wide_dates : DataFrame :=
  mkFrame [0; 1]
    [("continent", SObject [Some "Europe"; Some "Europe"]);
     ("location", SObject [Some "France"; Some "France"]);
     ("date", SObject [Some "1700-01-01"; Some "2200-01-01"]);
     ("total_cases", SInt [50; 60]);
     ("new_cases", SInt [5; 6]);
     ("new_deaths", SInt [1; 2])].

(** A raw table none of whose rows has a continent. *)
Definition aggregates_only : DataFrame :=
  mkFrame [0; 1]
    [("continent", SObject [None; None]);
     ("location", SObject [Some "World"; Some "Europe"]);
     ("date", SObject [Some "2021-01-01"; Some "2021-01-01"]);
     ("total_cases", SInt [100; 50]);
     ("new_cases", SInt [10; 5]);
     ("new_deaths", SInt [1; 0])].

(** One dated row per day, without the name of a location. *)
Definition two_days_no_location : DataFrame :=
  mkFrame [0; 1]
    [("continent", SObject [Some "Europe"; Some "Europe"]);
     ("date", SObject [Some "2021-01-01"; Some "2021-01-02"]);
     ("total_cases", SFloat [Some (50 # 1); None]);
     ("new_cases", SFloat [Some (5 # 1); Some (7 # 1)])].



(** * Properties *)

(** ** Lists under a mask *)

Section MaskFilter.
Context {A : Type}.
Implicit Types (m : list bool) (l : list A).

Lemma mask_filter_nil_r m : mask_filter m (@nil A) = [].
Proof. destruct m as [|[] m]; reflexivity. Qed.

Lemma mask_filter_all_true m l :
  Forall (fun b => b = true) m -> (length l <= length m)%nat ->
  mask_filter m l = l.
Proof.
  intros Hm. revert l.
  induction Hm as [|b m Hb _ IH]; intros [|x l] Hlen; simpl in *; try lia; auto.
  subst b. f_equal. apply IH. lia.
Qed.

Lemma mask_filter_Forall (P : A -> Prop) m l :
  Forall P l -> Forall P (mask_filter m l).
Proof.
  intros Hl. revert m.
  induction Hl as [|x l Hx _ IH]; intros [|[] m]; simpl; auto.
Qed.

Lemma mask_filter_map {B} (f : A -> B) m l :
  mask_filter m (map f l) = map f (mask_filter m l).
Proof.
  revert l. induction m as [|b m IH]; intros [|x l]; simpl; auto.
  destruct b; simpl; rewrite IH; reflexivity.
Qed.

(** A selected row [i] is found at position [rank m i]. *)
Lemma mask_filter_lookup m l i :
  m !! i = Some true -> mask_filter m l !! rank m i = l !! i.
Proof.
  unfold rank. revert l i.
  induction m as [|b m IH]; intros l i Hi; [destruct i; discriminate|].
  destruct l as [|x l].
  - rewrite mask_filter_nil_r. destruct (count_true _); reflexivity.
  - destruct i as [|i]; simpl in *.
    + injection Hi as ->. reflexivity.
    + destruct b; simpl; apply IH; assumption.
Qed.

(** Every row of the selection is a selected row. *)
Lemma mask_filter_lookup_inv m l j x :
  mask_filter m l !! j = Some x ->
  exists i, m !! i = Some true /\ rank m i = j /\ l !! i = Some x.
Proof.
  unfold rank. revert l j.
  induction m as [|b m IH]; intros [|y l] j Hj; simpl in Hj; try discriminate.
  destruct b.
  - destruct j as [|j]; simpl in Hj.
    + exists 0%nat. injection Hj as ->. auto.
    + destruct (IH _ _ Hj) as (i & Hm & Hr & Hl).
      exists (S i). simpl. rewrite Hr. auto.
  - destruct (IH _ _ Hj) as (i & Hm & Hr & Hl).
    exists (S i). simpl. auto.
Qed.

(** Two selections in a row are one selection. *)
Lemma mask_filter_twice m1 m0 l :
  mask_filter (mask_filter m1 m0) (mask_filter m1 l)
  = mask_filter (zip_with andb m1 m0) l.
Proof.
  revert m0 l.
  induction m1 as [|b m1 IH]; intros m0 l; [reflexivity|].
  destruct l as [|x l]; [rewrite !mask_filter_nil_r; reflexivity|].
  destruct m0 as [|c m0].
  - destruct b; simpl; rewrite ?mask_filter_nil_r; reflexivity.
  - destruct b; simpl; [destruct c|]; rewrite IH; reflexivity.
Qed.
End MaskFilter.

(** ** Library calls that may raise *)

Section ResultMonad.
Context {A B : Type}.

Lemma Result_bind_Ok (r : Result A) (f : A -> Result B) b :
  r ≫= f = Ok b -> exists a, r = Ok a /\ f a = Ok b.
Proof. destruct r as [a|e]; [eauto | discriminate]. Qed.

Lemma mapM_Result_cons (f : A -> Result B) x l :
  mapM f (x :: l) =
  match f x with
  | Ok y => match mapM f l with Ok k => Ok (y :: k) | Err e => Err e end
  | Err e => Err e
  end.
Proof. simpl. destruct (f x); simpl; [destruct (mapM f l)|]; reflexivity. Qed.

(** When every call returns, the results are those of a plain map. *)
Lemma mapM_Result_map (f : A -> Result B) (g : A -> B) l l' :
  (forall x y, f x = Ok y -> g x = y) ->
  mapM f l = Ok l' -> l' = map g l.
Proof.
  intros Hfg. revert l'.
  induction l as [|x l IH]; intros l' H.
  - injection H as <-. reflexivity.
  - rewrite mapM_Result_cons in H.
    destruct (f x) as [y|] eqn:Hx; [|discriminate].
    destruct (mapM f l) as [k|]; [|discriminate].
    injection H as <-. simpl. rewrite (Hfg _ _ Hx), <- (IH k eq_refl).
    reflexivity.
Qed.

(** One call that raises makes the whole conversion raise. *)
Lemma mapM_Result_Err (f : A -> Result B) l x e :
  x ∈ l -> f x = Err e -> exists e', mapM f l = Err e'.
Proof.
  intros Hin Hx.
  induction Hin as [x l|x y l _ IH]; rewrite mapM_Result_cons.
  - rewrite Hx. eauto.
  - destruct (f y); [|eauto].
    destruct (IH Hx) as [e' ->]. eauto.
Qed.
End ResultMonad.

(** ** Columns *)

Lemma cells_length s : length (cells s) = series_length s.
Proof. destruct s; simpl; apply length_map. Qed.

Lemma cells_series_filter m s :
  cells (series_filter m s) = mask_filter m (cells s).
Proof. destruct s; simpl; rewrite mask_filter_map; reflexivity. Qed.

Lemma dtype_series_filter m s : dtype_of (series_filter m s) = dtype_of s.
Proof. destruct s; reflexivity. Qed.

Lemma notna_cells s : notna s = map present (cells s).
Proof.
  destruct s; simpl; rewrite map_map; apply map_ext; intros []; reflexivity.
Qed.

Lemma dtype_fillna v s : dtype_of (fillna v s) = dtype_of s.
Proof. destruct s, v; reflexivity. Qed.

(** The two fills of the Cleaner, cell by cell. *)
Lemma cells_fill_both s :
  cells (fillna (VStr "Unknown") (fillna (VInt 0) s))
  = map (fill_cell (dtype_of s)) (cells s).
Proof.
  destruct s; simpl; rewrite !map_map; apply map_ext; intros []; reflexivity.
Qed.

(** A column without a missing cell is left as it is by [fillna]. *)
Lemma fillna_no_missing v s :
  Forall (fun c => present c = true) (cells s) -> fillna v s = s.
Proof.
  assert (Hmap : forall {X} (d : X) (l : list (option X)),
             Forall (fun c => present c = true) l ->
             map (fun c => Some (default d c)) l = l).
  { intros X d l Hl. induction Hl as [|[x|] l Hx _ IH]; simpl; try discriminate.
    - reflexivity.
    - rewrite IH. reflexivity. }
  destruct s, v; simpl; intros H; try reflexivity; f_equal; apply Hmap;
    rewrite Forall_map in H; eapply Forall_impl; try exact H;
    intros []; simpl; auto.
Qed.

Lemma Qclip_idem lo q : Qclip lo (Qclip lo q) = Qclip lo q.
Proof.
  unfold Qclip. destruct (Qle_bool lo q) eqn:E; [rewrite E; reflexivity|].
  assert (Qle_bool lo lo = true) as -> by (apply Qle_bool_iff, Qle_refl).
  reflexivity.
Qed.

Lemma Qclip_nonneg q : Qle (inject_Z 0) (Qclip (inject_Z 0) q).
Proof.
  unfold Qclip. destruct (Qle_bool (inject_Z 0) q) eqn:E.
  - apply Qle_bool_iff, E.
  - apply Qle_refl.
Qed.

Lemma cells_clip_lower lo s s' :
  clip_lower lo s = Ok s' ->
  cells s' = map (option_map (clip_value lo)) (cells s) /\ dtype_of s' = dtype_of s.
Proof.
  assert (Hnone : forall {X} (f : X -> Value) (l : list (option X)),
             forallb (fun c => negb (present c)) l = true ->
             map (option_map f) l
             = map (option_map (clip_value lo)) (map (option_map f) l)).
  { intros X f l H. induction l as [|[x|] l IH]; simpl in *; try discriminate.
    - reflexivity.
    - rewrite <- IH by assumption. reflexivity. }
  destruct s; simpl; intros H.
  - injection H as <-. simpl. rewrite !map_map. auto.
  - injection H as <-. simpl. rewrite !map_map. split; [|reflexivity].
    apply map_ext. intros []; reflexivity.
  - destruct (forallb _ l) eqn:E; [|discriminate]. injection H as <-. simpl. auto.
  - discriminate.
  - discriminate.
Qed.

(** Clipping what has been clipped changes nothing. *)
Lemma clip_lower_idem lo s s' :
  clip_lower lo s = Ok s' -> clip_lower lo s' = Ok s'.
Proof.
  destruct s; simpl; intros H.
  - injection H as <-. simpl. rewrite map_map. do 2 f_equal.
    apply map_ext. intros z. lia.
  - injection H as <-. simpl. rewrite map_map. do 2 f_equal.
    apply map_ext. intros [q|]; simpl; [rewrite Qclip_idem|]; reflexivity.
  - destruct (forallb _ l) eqn:E; [|discriminate]. injection H as <-. simpl.
    rewrite E. reflexivity.
  - discriminate.
  - discriminate.
Qed.

(** After a clip at 0 of a column without a missing cell, every cell is
    a number that is not negative. *)
Lemma clip_lower_nonneg s s' :
  clip_lower 0 s = Ok s' ->
  Forall (fun c => present c = true) (cells s) ->
  Forall nonneg (cells s').
Proof.
  destruct s; unfold clip_lower; intros H Hp; try discriminate.
  - injection H as <-. cbn [cells]. rewrite !Forall_map. apply Forall_forall.
    intros z _. cbn [nonneg]. apply Z.le_max_l.
  - injection H as <-. cbn [cells] in *. rewrite !Forall_map in *.
    eapply Forall_impl; [exact Hp|]. intros [q|]; simpl; [|discriminate].
    intros _. apply Qclip_nonneg.
  - destruct (forallb _ l) eqn:E; [|discriminate]. injection H as <-.
    destruct l as [|[t|] l]; simpl in *; try discriminate; [constructor|].
    inversion Hp; discriminate.
Qed.


Section ToDatetimeFacts.
Variable lib : PandasLib.

Lemma to_datetime_cells s s' :
  to_datetime lib s = Ok s' ->
  cells s' = map (date_cell lib) (cells s) /\ dtype_of s' = datetime64.
Proof.
  destruct s; simpl; intros H.
  - injection H as <-. simpl. rewrite !map_map. split; [|reflexivity].
    apply map_ext. intros z. unfold date_cell. simpl.
    destruct (z =? int64_min); reflexivity.
  - apply Result_bind_Ok in H as (l' & Hl & H). injection H as <-.
    split; [|reflexivity]. simpl.
    apply (mapM_Result_map _
             (fun c => match datetime_of_float_cell lib c with
                       | Ok y => y
                       | Err _ => None
                       end)) in Hl; [|intros x y ->; reflexivity].
    subst l'. rewrite !map_map. apply map_ext. intros [q|]; [|reflexivity].
    unfold date_cell. simpl. destruct (datetime_of_float lib q); reflexivity.
  - apply Result_bind_Ok in H as (l' & Hl & H). injection H as <-.
    split; [|reflexivity]. simpl.
    apply (mapM_Result_map _
             (fun c => match datetime_of_text_cell lib c with
                       | Ok y => y
                       | Err _ => None
                       end)) in Hl; [|intros x y ->; reflexivity].
    subst l'. rewrite !map_map. apply map_ext. intros [t|]; [|reflexivity].
    unfold date_cell. simpl. destruct (datetime_of_string lib t); reflexivity.
  - injection H as <-. simpl. split; [|reflexivity].
    rewrite map_map. apply map_ext. intros []; reflexivity.
  - discriminate.
Qed.

(** A text that is no date makes the conversion raise. *)
Lemma to_datetime_unparseable l t :
  Some t ∈ l -> datetime_of_string lib t = None ->
  exists e, to_datetime lib (SObject l) = Err e.
Proof.
  intros Hin Ht. simpl.
  destruct (mapM_Result_Err (datetime_of_text_cell lib) l (Some t) ValueError Hin)
    as [e He].
  - simpl. rewrite Ht. reflexivity.
  - rewrite He. simpl. eauto.
Qed.

End ToDatetimeFacts.

(** ** Frames *)

Section Assoc.
Context {A : Type}.
Implicit Types (l : list (string * A)).

Lemma assoc_set_same k v l : assoc k (assoc_set k v l) = Some v.
Proof.
  induction l as [|[k' v'] l IH]; simpl.
  - rewrite String.eqb_refl. reflexivity.
  - destruct (String.eqb k k') eqn:E; simpl.
    + rewrite String.eqb_refl. reflexivity.
    + rewrite E. exact IH.
Qed.

Lemma assoc_set_other k k' v l :
  k <> k' -> assoc k' (assoc_set k v l) = assoc k' l.
Proof.
  intros Hne. induction l as [|[k0 v0] l IH]; simpl.
  - apply String.eqb_neq in Hne. rewrite String.eqb_sym, Hne. reflexivity.
  - destruct (String.eqb k k0) eqn:E; simpl.
    + apply String.eqb_eq in E. subst k0.
      apply String.eqb_neq in Hne. rewrite String.eqb_sym, Hne. reflexivity.
    + rewrite IH. reflexivity.
Qed.

Lemma assoc_set_id k v l : assoc k l = Some v -> assoc_set k v l = l.
Proof.
  induction l as [|[k' v'] l IH]; simpl; [discriminate|].
  destruct (String.eqb k k') eqn:E.
  - apply String.eqb_eq in E. intros [= ->]. subst. reflexivity.
  - intros H. rewrite IH by assumption. reflexivity.
Qed.

Lemma assoc_map {B} (f : A -> B) k l :
  assoc k (map (fun c => (fst c, f (snd c))) l) = f <$> assoc k l.
Proof.
  induction l as [|[k' v'] l IH]; simpl; [reflexivity|].
  destruct (String.eqb k k'); [reflexivity | exact IH].
Qed.

Lemma assoc_elem_of k v l : assoc k l = Some v -> (k, v) ∈ l.
Proof.
  induction l as [|[k' v'] l IH]; simpl; [discriminate|].
  destruct (String.eqb k k') eqn:E.
  - apply String.eqb_eq in E. intros [= ->]. subst. left.
  - intros H. right. auto.
Qed.
End Assoc.

Lemma frame_get_set_same n s T : frame_get n (frame_set n s T) = Some s.
Proof. apply assoc_set_same. Qed.

Lemma frame_get_set_other n n' s T :
  n <> n' -> frame_get n' (frame_set n s T) = frame_get n' T.
Proof. apply assoc_set_other. Qed.

Lemma frame_set_id n s T : frame_get n T = Some s -> frame_set n s T = T.
Proof.
  intros H. destruct T as [idx cols]. unfold frame_set. simpl.
  f_equal. apply assoc_set_id. exact H.
Qed.

Lemma frame_get_filter m n T :
  frame_get n (frame_filter m T) = series_filter m <$> frame_get n T.
Proof. apply (assoc_map (series_filter m)). Qed.

(** A mask of trues as long as the frame selects the whole frame. *)
Lemma frame_filter_all m T :
  wf_frame T = true -> Forall (fun b => b = true) m ->
  length m = length (index T) -> frame_filter m T = T.
Proof.
  intros Hwf Hm Hlen. destruct T as [idx cols]. unfold frame_filter. simpl in *.
  f_equal.
  - apply mask_filter_all_true; [assumption | lia].
  - unfold wf_frame in Hwf. simpl in Hwf. rewrite forallb_forall in Hwf.
    rewrite <- (map_id cols) at 2. apply map_ext_in.
    intros [n s] Hin. specialize (Hwf _ Hin). simpl in *.
    apply Nat.eqb_eq in Hwf. f_equal.
    destruct s; simpl in *; f_equal; apply mask_filter_all_true; auto; lia.
Qed.

Lemma index_fillna_frame cols v T : index (fillna_frame cols v T) = index T.
Proof.
  unfold fillna_frame. generalize T at 2 3. intros acc.
  revert acc. induction cols as [|c cols IH]; intros acc; simpl; [reflexivity|].
  rewrite IH. destruct (frame_get c T); reflexivity.
Qed.

Lemma frame_get_fillna_frame cols v T n :
  frame_get n (fillna_frame cols v T)
  = if bool_decide (n ∈ cols) then fillna v <$> frame_get n T else frame_get n T.
Proof.
  unfold fillna_frame.
  enough (forall acc,
    frame_get n
      (fold_left (fun acc name =>
                    match frame_get name T with
                    | Some s => frame_set name (fillna v s) acc
                    | None => acc
                    end) cols acc)
    = if bool_decide (n ∈ cols)
      then match frame_get n T with
           | Some s => Some (fillna v s)
           | None => frame_get n acc
           end
      else frame_get n acc) as H.
  { rewrite H. destruct (bool_decide _), (frame_get n T); reflexivity. }
  induction cols as [|c cols IH]; intros acc; simpl fold_left.
  - reflexivity.
  - rewrite IH.
    destruct (decide (n = c)) as [->|Hne].
    + rewrite (bool_decide_eq_true_2 (c ∈ c :: cols)) by left.
      destruct (frame_get c T) as [s|] eqn:E.
      * destruct (bool_decide _); [reflexivity | apply frame_get_set_same].
      * destruct (bool_decide _); reflexivity.
    + assert (frame_get n
                match frame_get c T with
                | Some s => frame_set c (fillna v s) acc
                | None => acc
                end = frame_get n acc) as ->.
      { destruct (frame_get c T); [apply frame_get_set_other; auto | reflexivity]. }
      destruct (decide (n ∈ cols)) as [Hin|Hnin].
      * rewrite !bool_decide_eq_true_2; [reflexivity | right; assumption | assumption].
      * rewrite !bool_decide_eq_false_2; [reflexivity | | assumption].
        intros [?|?]%elem_of_cons; contradiction.
Qed.

Lemma select_dtypes_elem_of dts n s T :
  frame_get n T = Some s ->
  existsb (dtype_eqb (dtype_of s)) dts = true ->
  n ∈ select_dtypes dts T.
Proof.
  intros Hget Hd. apply assoc_elem_of in Hget.
  unfold select_dtypes. apply list_elem_of_In.
  apply (in_map fst _ (n, s)). apply list_elem_of_In.
  apply list_elem_of_filter. split; [|assumption]. simpl. rewrite Hd. exact I.
Qed.

(** The numeric fill of the Cleaner, column by column. *)
Lemma frame_get_fill_numeric T n :
  frame_get n (fillna_frame (select_dtypes [float64; int64] T) (VInt 0) T)
  = fillna (VInt 0) <$> frame_get n T.
Proof.
  rewrite frame_get_fillna_frame.
  destruct (frame_get n T) as [s|] eqn:E; [|destruct (bool_decide _); reflexivity].
  destruct (bool_decide _) eqn:B; [reflexivity|].
  apply bool_decide_eq_false in B. simpl. f_equal.
  destruct s; try reflexivity; exfalso; apply B;
    eapply select_dtypes_elem_of; eauto.
Qed.

(** The text fill of the Cleaner, column by column. *)
Lemma frame_get_fill_text T n :
  frame_get n (fillna_frame (select_dtypes [object] T) (VStr "Unknown") T)
  = fillna (VStr "Unknown") <$> frame_get n T.
Proof.
  rewrite frame_get_fillna_frame.
  destruct (frame_get n T) as [s|] eqn:E; [|destruct (bool_decide _); reflexivity].
  destruct (bool_decide _) eqn:B; [reflexivity|].
  apply bool_decide_eq_false in B. simpl. f_equal.
  destruct s; try reflexivity; exfalso; apply B;
    eapply select_dtypes_elem_of; eauto.
Qed.

(** Filling a frame in which no selected column misses a cell. *)
Lemma fillna_frame_id cols v T :
  (forall n s, frame_get n T = Some s -> fillna v s = s) ->
  fillna_frame cols v T = T.
Proof.
  intros H. unfold fillna_frame.
  induction cols as [|c cols IH]; simpl; [reflexivity|].
  destruct (frame_get c T) as [s|] eqn:E; [|exact IH].
  rewrite (H _ _ E), (frame_set_id _ _ _ E). exact IH.
Qed.

Lemma frame_get_fill_missing T n :
  frame_get n (fill_missing T)
  = (fun s => fillna (VStr "Unknown") (fillna (VInt 0) s)) <$> frame_get n T.
Proof.
  unfold fill_missing. rewrite frame_get_fill_text, frame_get_fill_numeric.
  destruct (frame_get n T); reflexivity.
Qed.

Lemma index_fill_missing T : index (fill_missing T) = index T.
Proof. unfold fill_missing. rewrite !index_fillna_frame. reflexivity. Qed.

(** ** The Cleaner on values *)

Section CleanFrame.
Variable lib : PandasLib.

(** The steps of a run that returns. *)
Lemma clean_frame_Ok T T' :
clean_frame lib T = Ok T' ->
exists continent date date2 tc tc2 nc nc2,
  frame_get "continent" T = Some continent /\
  frame_get "date" T = Some date /\
  to_datetime lib (series_filter (notna continent) date) = Ok date2 /\
  let T5 := frame_filter (notna date2)
              (fill_missing (frame_set "date" date2
                               (frame_filter (notna continent) T))) in
  frame_get "total_cases" T5 = Some tc /\
  clip_lower 0 tc = Ok tc2 /\
  frame_get "new_cases" T5 = Some nc /\
  clip_lower 0 nc = Ok nc2 /\
  T' = frame_set "new_cases" nc2 (frame_set "total_cases" tc2 T5).
Proof.
unfold clean_frame. intros H.
destruct (frame_get "continent" T) as [continent|] eqn:Hc; [|discriminate].
rewrite frame_get_filter in H.
destruct (frame_get "date" T) as [date|] eqn:Hd; [|discriminate].
simpl fmap in H.
apply Result_bind_Ok in H as (date2 & Hdt & H).
change (fillna_frame _ (VStr "Unknown") _)
  with (fill_missing (frame_set "date" date2 (frame_filter (notna continent) T)))
  in H.
rewrite frame_get_fill_missing, frame_get_set_same in H. simpl fmap in H.
destruct (to_datetime_cells _ _ _ Hdt) as [_ Hty].
assert (fillna (VStr "Unknown") (fillna (VInt 0) date2) = date2) as Hfill
  by (destruct date2; try discriminate; reflexivity).
rewrite Hfill in H.
destruct (frame_get "total_cases" _) as [tc|] eqn:Htc; [|discriminate].
apply Result_bind_Ok in H as (tc2 & Hclip1 & H).
rewrite frame_get_set_other in H by discriminate.
destruct (frame_get "new_cases" _) as [nc|] eqn:Hnc; [|discriminate].
apply Result_bind_Ok in H as (nc2 & Hclip2 & H).
injection H as <-.
exists continent, date, date2, tc, tc2, nc, nc2. repeat split; auto.
Qed.
(** The second mask is the date test of the raw column, on the rows
  the first mask kept. *)
Lemma notna_converted m1 date date2 :
to_datetime lib (series_filter m1 date) = Ok date2 ->
notna date2
= mask_filter m1 (map (fun c => present (date_cell lib c)) (cells date)).
Proof.
intros H. apply to_datetime_cells in H as [Hcells _].
rewrite notna_cells, Hcells, cells_series_filter, map_map.
rewrite <- (mask_filter_map (fun c => present (date_cell lib c))).
reflexivity.
Qed.

(** The Cleaner computes the row-wise description: the rows of
  [keep_mask], each cell as [spec_cell] says. *)
Lemma clean_frame_columns T T' :
clean_frame lib T = Ok T' ->
index T' = mask_filter (keep_mask lib T) (index T) /\
forall n,
  match frame_get n T with
  | Some s =>
      exists s',
        frame_get n T' = Some s' /\
        cells s' = map (spec_cell lib n (dtype_of s))
                       (mask_filter (keep_mask lib T) (cells s)) /\
        dtype_of s' = if String.eqb n "date" then datetime64 else dtype_of s
  | None => frame_get n T' = None
  end.
Proof.
intros H.
destruct (clean_frame_Ok _ _ H)
  as (continent & date & date2 & tc & tc2 & nc & nc2 &
      Hc & Hd & Hdt & Htc & Hclip1 & Hnc & Hclip2 & ->).
clear H. unfold keep_mask. rewrite Hc, Hd.
pose proof (notna_converted _ _ _ Hdt) as Hm2.
set (m1 := notna continent) in *.
set (m0 := map (fun c => present (date_cell lib c)) (cells date)) in *.
split.
{ simpl. rewrite index_fill_missing. simpl.
  rewrite Hm2. apply mask_filter_twice. }
(* the column [n] before the two clips *)
assert (Hcol : forall n,
  match frame_get n T with
  | Some s =>
      exists s5,
        frame_get n (frame_filter (notna date2)
                       (fill_missing (frame_set "date" date2 (frame_filter m1 T))))
        = Some s5 /\
        cells s5 = map (if String.eqb n "date" then date_cell lib
                        else fill_cell (dtype_of s))
                       (mask_filter (zip_with andb m1 m0) (cells s)) /\
        dtype_of s5 = if String.eqb n "date" then datetime64 else dtype_of s
  | None =>
      frame_get n (frame_filter (notna date2)
                     (fill_missing (frame_set "date" date2 (frame_filter m1 T))))
      = None
  end).
{ intros n. rewrite frame_get_filter, frame_get_fill_missing.
  destruct (String.eqb n "date") eqn:En.
  - apply String.eqb_eq in En. subst n.
    rewrite frame_get_set_same, Hd. simpl fmap.
    destruct (to_datetime_cells _ _ _ Hdt) as [Hcells Hty].
    eexists. split; [reflexivity|].
    rewrite cells_series_filter, dtype_series_filter, cells_fill_both, !dtype_fillna.
    rewrite Hty. split; [|reflexivity].
    assert (map (fill_cell datetime64) (cells date2) = cells date2) as ->.
    { rewrite <- (map_id (cells date2)) at 2. apply map_ext_in.
      intros [v|] _; reflexivity. }
    rewrite Hcells, cells_series_filter, mask_filter_map, Hm2, mask_filter_twice.
    reflexivity.
  - apply String.eqb_neq in En.
    rewrite frame_get_set_other by congruence.
    rewrite frame_get_filter.
    destruct (frame_get n T) as [s|]; [|reflexivity]. simpl fmap.
    eexists. split; [reflexivity|].
    rewrite cells_series_filter, dtype_series_filter, cells_fill_both, !dtype_fillna.
    rewrite !dtype_series_filter. split; [|reflexivity].
    rewrite cells_series_filter, mask_filter_map, Hm2, mask_filter_twice.
    reflexivity. }
destruct (cells_clip_lower _ _ _ Hclip1) as [Hcells1 Hty1].
destruct (cells_clip_lower _ _ _ Hclip2) as [Hcells2 Hty2].
intros n. unfold spec_cell, is_count. specialize (Hcol n).
destruct (String.eqb n "new_cases") eqn:E2.
{ apply String.eqb_eq in E2. subst n. rewrite frame_get_set_same.
  rewrite Hnc in Hcol. simpl String.eqb in *.
  destruct (frame_get "new_cases" T) as [s|]; [|discriminate].
  destruct Hcol as (s5 & [= <-] & Hcells & Hty).
  exists nc2. split; [reflexivity|].
  rewrite Hcells2, Hcells, map_map, Hty2, Hty. auto. }
apply String.eqb_neq in E2. rewrite frame_get_set_other by congruence.
destruct (String.eqb n "total_cases") eqn:E1.
{ apply String.eqb_eq in E1. subst n. rewrite frame_get_set_same.
  rewrite Htc in Hcol. simpl String.eqb in *.
  destruct (frame_get "total_cases" T) as [s|]; [|discriminate].
  destruct Hcol as (s5 & [= <-] & Hcells & Hty).
  exists tc2. split; [reflexivity|].
  rewrite Hcells1, Hcells, map_map, Hty1, Hty. auto. }
apply String.eqb_neq in E1. rewrite frame_get_set_other by congruence.
simpl orb.
destruct (frame_get n T) as [s|]; [|exact Hcol].
destruct Hcol as (s5 & Hget & Hcells & Hty).
exists s5. destruct (String.eqb n "date"); auto.
Qed.
End CleanFrame.

(** ** Well-formed frames *)

Lemma wf_frame_spec T :
  wf_frame T = true <->
  forall n s, (n, s) ∈ columns T -> length (cells s) = length (index T).
Proof.
  unfold wf_frame. rewrite forallb_forall. split.
  - intros H n s Hin. apply list_elem_of_In, H in Hin. simpl in Hin.
    apply Nat.eqb_eq in Hin. rewrite cells_length. exact Hin.
  - intros H [n s] Hin. simpl. apply Nat.eqb_eq. rewrite <- cells_length.
    apply (H n). apply list_elem_of_In. exact Hin.
Qed.

Lemma wf_frame_get T n s :
  wf_frame T = true -> frame_get n T = Some s ->
  length (cells s) = length (index T).
Proof.
  intros Hwf Hget. eapply wf_frame_spec; eauto. apply assoc_elem_of. exact Hget.
Qed.

Lemma mask_filter_same_length {A B} m (l1 : list A) (l2 : list B) :
  length l1 = length l2 ->
  length (mask_filter m l1) = length (mask_filter m l2).
Proof.
  revert l1 l2.
  induction m as [|b m IH]; intros [|x l1] [|y l2] H; simpl in *; try lia.
  destruct b; simpl; rewrite (IH l1 l2) by lia; reflexivity.
Qed.

Lemma wf_frame_filter m T :
  wf_frame T = true -> wf_frame (frame_filter m T) = true.
Proof.
  rewrite !wf_frame_spec. intros H n s' Hin. simpl in *.
  apply list_elem_of_In, in_map_iff in Hin as ([n0 s] & [= <- <-] & Hin).
  simpl. rewrite cells_series_filter. apply mask_filter_same_length.
  apply (H n0). apply list_elem_of_In. exact Hin.
Qed.

Lemma assoc_set_elem_of {A} k (v : A) l p :
  p ∈ assoc_set k v l -> p = (k, v) \/ p ∈ l.
Proof.
  induction l as [|[k' v'] l IH]; simpl.
  - intros ->%list_elem_of_singleton. auto.
  - destruct (String.eqb k k').
    + intros [->|?]%elem_of_cons; [auto | right; right; assumption].
    + intros [->|?]%elem_of_cons; [right; left|].
      destruct (IH H); [auto | right; right; assumption].
Qed.

Lemma wf_frame_set n s T :
  wf_frame T = true -> length (cells s) = length (index T) ->
  wf_frame (frame_set n s T) = true.
Proof.
  rewrite !wf_frame_spec. intros H Hs n' s' Hin. simpl in *.
  apply assoc_set_elem_of in Hin as [[= -> ->]|Hin]; [assumption | eauto].
Qed.

Lemma cells_length_fillna v s : length (cells (fillna v s)) = length (cells s).
Proof. destruct s, v; simpl; rewrite ?length_map; reflexivity. Qed.

Lemma wf_fillna_frame cols v T :
  wf_frame T = true -> wf_frame (fillna_frame cols v T) = true.
Proof.
  intros Hwf. unfold fillna_frame.
  enough (forall acc, wf_frame acc = true -> index acc = index T ->
            wf_frame (fold_left (fun acc name =>
                                   match frame_get name T with
                                   | Some s => frame_set name (fillna v s) acc
                                   | None => acc
                                   end) cols acc) = true) by auto.
  induction cols as [|c cols IH]; intros acc Hacc Hidx; simpl; [assumption|].
  apply IH.
  - destruct (frame_get c T) as [s|] eqn:E; [|assumption].
    apply wf_frame_set; [assumption|].
    rewrite cells_length_fillna, Hidx. eapply wf_frame_get; eauto.
  - destruct (frame_get c T); [simpl|]; assumption.
Qed.

Lemma wf_fill_missing T : wf_frame T = true -> wf_frame (fill_missing T) = true.
Proof. intros H. unfold fill_missing. apply wf_fillna_frame, wf_fillna_frame, H. Qed.

(** ** What holds of every cleaned frame *)

(** The frame has the columns the Cleaner needs, no cell is missing in
    them nor in any numeric or text column, the dates are times, and a
    second clip would change nothing. *)
Record cleaned (T : DataFrame) : Prop := {
  cleaned_continent :
    exists c, frame_get "continent" T = Some c /\
              Forall (fun x => present x = true) (cells c);
  cleaned_date :
    exists l, frame_get "date" T = Some (SDatetime l) /\
              Forall (fun x => present x = true) l;
  cleaned_filled :
    forall n s, frame_get n T = Some s ->
                dtype_of s <> datetime64 -> dtype_of s <> period_M ->
                Forall (fun x => present x = true) (cells s);
  cleaned_total_cases :
    exists s, frame_get "total_cases" T = Some s /\ clip_lower 0 s = Ok s /\
              Forall nonneg (cells s);
  cleaned_new_cases :
    exists s, frame_get "new_cases" T = Some s /\ clip_lower 0 s = Ok s /\
              Forall nonneg (cells s)
}.

Lemma zip_with_andb_lookup (m1 m0 : list bool) i :
  zip_with andb m1 m0 !! i = Some true ->
  m1 !! i = Some true /\ m0 !! i = Some true.
Proof.
  rewrite lookup_zip_with_Some. intros (a & b & Hab & -> & ->).
  symmetry in Hab. apply andb_true_iff in Hab as [-> ->]. auto.
Qed.

(** What is true of the selected rows is true of the selection. *)
Lemma mask_filter_Forall_selected {A} (P : A -> Prop) m (l : list A) :
  (forall i x, m !! i = Some true -> l !! i = Some x -> P x) ->
  Forall P (mask_filter m l).
Proof.
  intros H. apply Forall_lookup. intros j x Hj.
  apply mask_filter_lookup_inv in Hj as (i & Hm & _ & Hl). eauto.
Qed.

Lemma cells_int_present s :
  dtype_of s = int64 -> Forall (fun x => present x = true) (cells s).
Proof.
  destruct s; try discriminate. intros _. simpl. rewrite Forall_map.
  apply Forall_forall. reflexivity.
Qed.

Lemma present_fill_cell d c :
  d <> datetime64 -> d <> period_M -> d <> int64 ->
  present (fill_cell d c) = true.
Proof. destruct c, d; simpl; congruence. Qed.

Lemma present_fill_cell_present d c :
  present c = true -> fill_cell d c = c.
Proof. destruct c; [reflexivity | discriminate]. Qed.

Section Cleaned.
Variable lib : PandasLib.

Lemma clean_frame_wf T T' :
  wf_frame T = true -> clean_frame lib T = Ok T' -> wf_frame T' = true.
Proof.
  intros Hwf H.
  destruct (clean_frame_Ok _ _ _ H)
    as (continent & date & date2 & tc & tc2 & nc & nc2 &
        Hc & Hd & Hdt & Htc & Hclip1 & Hnc & Hclip2 & ->).
  set (T1 := frame_filter (notna continent) T) in *.
  assert (Hwf1 : wf_frame T1 = true) by apply wf_frame_filter, Hwf.
  assert (Hwf2 : wf_frame (frame_set "date" date2 T1) = true).
  { apply wf_frame_set; [assumption|].
    destruct (to_datetime_cells _ _ _ Hdt) as [-> _]. rewrite length_map.
    apply (wf_frame_get T1 "date"); [assumption|].
    unfold T1. rewrite frame_get_filter, Hd. reflexivity. }
  set (T5 := frame_filter (notna date2) _) in *.
  assert (Hwf5 : wf_frame T5 = true) by apply wf_frame_filter, wf_fill_missing, Hwf2.
  apply wf_frame_set; [apply wf_frame_set; [assumption|]|].
  - destruct (cells_clip_lower _ _ _ Hclip1) as [-> _]. rewrite length_map.
    eapply wf_frame_get; eauto.
  - destruct (cells_clip_lower _ _ _ Hclip2) as [-> _]. rewrite length_map.
    change (index (frame_set "total_cases" tc2 T5)) with (index T5).
    eapply wf_frame_get; eauto.
Qed.

(** No numeric and no text cell is missing after the Cleaner. *)
Lemma clean_frame_filled T T' n s' :
  clean_frame lib T = Ok T' -> frame_get n T' = Some s' ->
  dtype_of s' <> datetime64 -> dtype_of s' <> period_M ->
  Forall (fun x => present x = true) (cells s').
Proof.
  intros H Hget Hnd Hnp.
  destruct (clean_frame_columns _ _ _ H) as [_ Hcols]. specialize (Hcols n).
  destruct (frame_get n T) as [s|]; [|congruence].
  destruct Hcols as (s0 & Hget0 & Hcells & Hty).
  rewrite Hget in Hget0. injection Hget0 as <-.
  destruct (String.eqb n "date") eqn:En; [congruence|].
  rewrite Hcells, Forall_map. unfold spec_cell. rewrite En.
  assert (Hfill : Forall (fun c => present (fill_cell (dtype_of s) c) = true)
                         (mask_filter (keep_mask lib T) (cells s))).
  { destruct (decide (dtype_of s = int64)) as [Hi|Hi].
    - apply mask_filter_Forall. eapply Forall_impl; [apply cells_int_present, Hi|].
      intros c Hc. rewrite present_fill_cell_present; assumption.
    - apply Forall_forall. intros c _. apply present_fill_cell; congruence. }
  eapply Forall_impl; [exact Hfill|]. intros c Hc. simpl in Hc.
  destruct (is_count n); [|assumption].
  destruct (fill_cell (dtype_of s) c); [reflexivity | discriminate].
Qed.

Lemma clean_frame_cleaned T T' :
  clean_frame lib T = Ok T' -> cleaned T'.
Proof.
  intros H.
  pose proof (clean_frame_columns _ _ _ H) as [_ Hcols].
  pose proof (fun n s' => clean_frame_filled _ _ n s' H) as Hfilled.
  destruct (clean_frame_Ok _ _ _ H)
    as (continent & date & date2 & tc & tc2 & nc & nc2 &
        Hc & Hd & Hdt & Htc & Hclip1 & Hnc & Hclip2 & HT').
  assert (Hkeep : keep_mask lib T
                  = zip_with andb (notna continent)
                      (map (fun c => present (date_cell lib c)) (cells date)))
    by (unfold keep_mask; rewrite Hc, Hd; reflexivity).
  split.
  - specialize (Hcols "continent"). rewrite Hc in Hcols.
    destruct Hcols as (s' & Hget & Hcells & _). exists s'. split; [assumption|].
    rewrite Hcells, Forall_map, Hkeep.
    apply mask_filter_Forall_selected. intros i x Hi Hx.
    apply zip_with_andb_lookup in Hi as [Hi _].
    rewrite notna_cells, list_lookup_fmap, Hx in Hi. injection Hi as Hi.
    unfold spec_cell. simpl. rewrite present_fill_cell_present; assumption.
  - specialize (Hcols "date"). rewrite Hd in Hcols.
    destruct Hcols as (s' & Hget & Hcells & Hty). simpl in Hty.
    destruct s' as [| | |l|]; try discriminate. exists l. split; [assumption|].
    assert (Hall : Forall (fun x => present x = true) (cells (SDatetime l))).
    { rewrite Hcells, Forall_map, Hkeep.
      apply mask_filter_Forall_selected. intros i x Hi Hx.
      apply zip_with_andb_lookup in Hi as [_ Hi].
      rewrite list_lookup_fmap, Hx in Hi. injection Hi as Hi. exact Hi. }
    simpl in Hall. rewrite Forall_map in Hall.
    eapply Forall_impl; [exact Hall|]. intros [t|]; simpl; auto.
  - exact Hfilled.
  - exists tc2. subst T'.
    rewrite frame_get_set_other, frame_get_set_same by discriminate.
    split; [reflexivity|]. split; [eapply clip_lower_idem; eauto|].
    apply (clip_lower_nonneg tc); [assumption|].
    destruct (cells_clip_lower _ _ _ Hclip1) as [Hcells Hty].
    assert (Hp : Forall (fun x => present x = true) (cells tc2)).
    { apply (Hfilled "total_cases").
      - rewrite frame_get_set_other, frame_get_set_same by discriminate. reflexivity.
      - rewrite Hty. destruct tc; simpl in *; congruence.
      - rewrite Hty. destruct tc; simpl in *; congruence. }
    rewrite Hcells, Forall_map in Hp.
    eapply Forall_impl; [exact Hp|]. intros [v|]; simpl; auto.
  - exists nc2. subst T'. rewrite frame_get_set_same.
    split; [reflexivity|]. split; [eapply clip_lower_idem; eauto|].
    apply (clip_lower_nonneg nc); [assumption|].
    destruct (cells_clip_lower _ _ _ Hclip2) as [Hcells Hty].
    assert (Hp : Forall (fun x => present x = true) (cells nc2)).
    { apply (Hfilled "new_cases").
      - rewrite frame_get_set_same. reflexivity.
      - rewrite Hty. destruct nc; simpl in *; congruence.
      - rewrite Hty. destruct nc; simpl in *; congruence. }
    rewrite Hcells, Forall_map in Hp.
    eapply Forall_impl; [exact Hp|]. intros [v|]; simpl; auto.
Qed.

(** The Cleaner leaves a cleaned frame as it is. *)
Lemma cleaned_fixed T :
  wf_frame T = true -> cleaned T -> clean_frame lib T = Ok T.
Proof.
  intros Hwf [(c & Hc & Hcp) (l & Hd & Hdp) Hfilled
          (tc & Htc & Hclip1 & _) (nc & Hnc & Hclip2 & _)].
  assert (Hfill : forall v n s, frame_get n T = Some s -> fillna v s = s).
  { intros v n s Hget.
    destruct (decide (dtype_of s = datetime64)) as [E|E];
      [destruct s, v; try discriminate; reflexivity|].
    destruct (decide (dtype_of s = period_M)) as [E'|E'];
      [destruct s, v; try discriminate; reflexivity|].
    apply fillna_no_missing. eauto. }
  assert (Hall : forall n s, frame_get n T = Some s ->
                   Forall (fun x => present x = true) (cells s) ->
                   frame_filter (notna s) T = T).
  { intros n s Hget Hp. apply frame_filter_all; [assumption| |].
    - rewrite notna_cells, Forall_map. exact Hp.
    - rewrite notna_cells, length_map. eapply wf_frame_get; eauto. }
  unfold clean_frame. rewrite Hc, (Hall _ _ Hc Hcp), Hd.
  simpl to_datetime. simpl mbind.
  rewrite (frame_set_id _ _ _ Hd).
  rewrite !(fillna_frame_id _ _ T) by (intros n s; apply Hfill).
  rewrite Hd, (Hall _ _ Hd).
  2:{ simpl. rewrite Forall_map. eapply Forall_impl; [exact Hdp|].
      intros [t|]; simpl; auto. }
  rewrite Htc, Hclip1. simpl mbind. rewrite (frame_set_id _ _ _ Htc).
  rewrite Hnc, Hclip2. simpl mbind. rewrite (frame_set_id _ _ _ Hnc).
  reflexivity.
Qed.
End Cleaned.

(** ** The Cleaner on the store *)

Lemma lookup_last {A} (h : list A) x : (h ++ [x]) !! length h = Some x.
Proof. apply list_lookup_middle. reflexivity. Qed.

Lemma insert_last {A} (h : list A) x y : <[length h := y]> (h ++ [x]) = h ++ [y].
Proof.
  rewrite insert_app_r_alt by lia. rewrite Nat.sub_diag. reflexivity.
Qed.

Ltac run_step :=
  cbv beta iota zeta delta
    [mbind M_bind mret M_ret try_except df_copy df_getitem df_getitem_pair
     frame_get_pair df_mask df_setitem
     df_select_dtypes df_fillna_setitem df_shape0 get_frame new_frame put_frame
     print lift raise sys_exit heap console dirs disk];
  rewrite ?lookup_last, ?insert_last.

Ltac run_steps := repeat progress run_step.

Ltac result_step :=
  cbv beta iota zeta delta [mbind Result_bind].

Lemma clean_dataset_run lib w df T :
  heap w !! df = Some T ->
  match clean_frame lib T with
  | Ok T' =>
      exists Tm,
        clean_dataset lib df w
        = (Ret (length (heap w) + 2)%nat,
           mkWorld (heap w ++ [T; Tm; T'])
                   (console w ++ [Text "Cleaning dataset..."; RemainingRows (length (index T'))])
                   (dirs w) (disk w))
  | Err e =>
      exists junk,
        clean_dataset lib df w
        = (Exit 1,
           mkWorld (heap w ++ junk)
                   (console w ++ [Text "Cleaning dataset..."; ErrorLine "Error cleaning dataset" e])
                   (dirs w) (disk w))
  end.
Proof.
  destruct w as [h c d k]. cbn [heap console dirs disk]. intros H.
  remember (clean_frame lib T) as R eqn:HR.
  unfold clean_dataset. run_steps. rewrite H. run_steps.
  unfold clean_frame in HR.
  destruct (frame_get "continent" T) as [continent|] eqn:Hc.
  2:{ subst R. exists [T]. rewrite <- !app_assoc. reflexivity. }
  run_steps.
  destruct (frame_get "date" (frame_filter (notna continent) T)) as [date|] eqn:Hd.
  2:{ subst R. eexists. rewrite <- !app_assoc. reflexivity. }
  run_steps.
  destruct (to_datetime lib date) as [date2|e] eqn:Hdt.
  2:{ subst R. eexists. result_step. rewrite <- !app_assoc. reflexivity. }
  run_steps. cbv beta iota zeta delta [mbind Result_bind] in HR.
  set (T4 := fillna_frame (select_dtypes [object] _) _ _) in *.
  destruct (frame_get "date" T4) as [date4|] eqn:Hd4.
  2:{ subst R. eexists. rewrite <- !app_assoc. reflexivity. }
  run_steps.
  set (T5 := frame_filter (notna date4) T4) in *.
  destruct (frame_get "total_cases" T5) as [tc|] eqn:Htc.
  2:{ subst R. eexists. rewrite <- !app_assoc. reflexivity. }
  run_steps.
  destruct (clip_lower 0 tc) as [tc2|e] eqn:Hclip1.
  2:{ subst R. eexists. rewrite <- !app_assoc. reflexivity. }
  run_steps.
  destruct (frame_get "new_cases" (frame_set "total_cases" tc2 T5)) as [nc|] eqn:Hnc.
  2:{ subst R. eexists. rewrite <- !app_assoc. reflexivity. }
  run_steps.
  destruct (clip_lower 0 nc) as [nc2|e] eqn:Hclip2.
  2:{ subst R. eexists. rewrite <- !app_assoc. reflexivity. }
  run_steps. subst R. eexists.
  rewrite <- !app_assoc, !length_app. reflexivity.
Qed.

Section CleanerOnStore.
Variable lib : PandasLib.

(** A run of the Cleaner that returns: the new frame is [clean_frame] of
    the given one, at a fresh reference, and the store only grew. *)
Lemma clean_dataset_returns w df T df' w' :
  heap w !! df = Some T ->
  run (clean_dataset lib df) w = (Ret df', w') ->
  exists T' Tm,
    clean_frame lib T = Ok T' /\
    df' = (length (heap w) + 2)%nat /\
    heap w' = heap w ++ [T; Tm; T'] /\
    heap w' !! df' = Some T'.
Proof.
  intros H Hrun. pose proof (clean_dataset_run lib w df T H) as Hspec.
  unfold run in Hrun.
  destruct (clean_frame lib T) as [T'|e].
  - destruct Hspec as [Tm Hspec]. rewrite Hspec in Hrun.
    injection Hrun as <- <-. exists T', Tm. cbn [heap].
    repeat split; auto.
    rewrite lookup_app_r by lia.
    replace (length (heap w) + 2 - length (heap w))%nat with 2%nat by lia.
    reflexivity.
  - destruct Hspec as [junk Hspec]. rewrite Hspec in Hrun. discriminate.
Qed.

(** Whatever the run does, the store is extended, never rewritten. *)
Lemma clean_dataset_extends w df T :
  heap w !! df = Some T ->
  exists junk, heap (snd (run (clean_dataset lib df) w)) = heap w ++ junk.
Proof.
  intros H. pose proof (clean_dataset_run lib w df T H) as Hspec.
  unfold run. destruct (clean_frame lib T) as [T'|e].
  - destruct Hspec as [Tm ->]. eexists. reflexivity.
  - destruct Hspec as [junk ->]. eexists. reflexivity.
Qed.

(** The row of the cleaned frame that a kept row becomes. *)
Lemma clean_frame_row T T' i :
  clean_frame lib T = Ok T' ->
  keep_mask lib T !! i = Some true ->
  index T' !! rank (keep_mask lib T) i = index T !! i /\
  forall n s, frame_get n T = Some s ->
    frame_cell T' n (rank (keep_mask lib T) i)
    = spec_cell lib n (dtype_of s) <$> cells s !! i.
Proof.
  intros H Hi. destruct (clean_frame_columns _ _ _ H) as [Hidx Hcols]. split.
  - rewrite Hidx. apply mask_filter_lookup, Hi.
  - intros n s Hget. specialize (Hcols n). rewrite Hget in Hcols.
    destruct Hcols as (s' & Hget' & Hcells & _).
    unfold frame_cell. rewrite Hget'. simpl.
    rewrite Hcells, list_lookup_fmap, mask_filter_lookup by assumption.
    reflexivity.
Qed.

(** Every row of the cleaned frame was a kept row. *)
Lemma clean_frame_row_inv T T' j l :
  clean_frame lib T = Ok T' -> index T' !! j = Some l ->
  exists i, keep_mask lib T !! i = Some true /\
            rank (keep_mask lib T) i = j /\ index T !! i = Some l.
Proof.
  intros H Hj. destruct (clean_frame_columns _ _ _ H) as [Hidx _].
  rewrite Hidx in Hj. apply mask_filter_lookup_inv in Hj. exact Hj.
Qed.

(** The kept rows are those with a continent and a valid date. *)
Lemma keep_mask_lookup T c d i :
  frame_get "continent" T = Some c -> frame_get "date" T = Some d ->
  keep_mask lib T !! i = Some true <->
  exists x y, cells c !! i = Some (Some x) /\ cells d !! i = Some y /\
              present (date_cell lib y) = true.
Proof.
  intros Hc Hd. unfold keep_mask. rewrite Hc, Hd, notna_cells.
  rewrite lookup_zip_with_Some. setoid_rewrite list_lookup_fmap. split.
  - intros (a & b & Hab & Ha & Hb). symmetry in Hab.
    apply andb_true_iff in Hab as [-> ->].
    destruct (cells c !! i) as [[x|]|]; try discriminate.
    destruct (cells d !! i) as [y|]; try discriminate.
    injection Hb as Hb. eauto.
  - intros (x & y & -> & -> & Hy). exists true, true. simpl. rewrite Hy. auto.
Qed.
End CleanerOnStore.

(** A run that returns [a] is the pair of [a] and the world it leaves. *)
Lemma run_returns {A} (m : M A) w a :
  fst (run m w) = Ret a -> run m w = (Ret a, snd (run m w)).
Proof. destruct (run m w) as [o w']. simpl. intros ->. reflexivity. Qed.

(** * The Cleaner: frame, idempotence, invariants *)

(** C7. The Cleaner does not modify its input: whatever way the run ends,
    the raw table is in the store as it was, as is every other table, and
    a table the Cleaner returns is a new one, at a reference that was not
    in use. *)
Theorem clean_dataset_input_unchanged lib w df T o w' :
  heap w !! df = Some T ->
  run (clean_dataset lib df) w = (o, w') ->
  heap w' !! df = Some T /\
  (forall r X, heap w !! r = Some X -> heap w' !! r = Some X) /\
  (forall df', o = Ret df' -> heap w !! df' = None /\ df' <> df).
Proof.
  intros H Hrun.
  destruct (clean_dataset_extends lib w df T H) as [junk Hjunk].
  rewrite Hrun in Hjunk. simpl in Hjunk.
  assert (Hkeep : forall r X, heap w !! r = Some X -> heap w' !! r = Some X).
  { intros r X Hr. rewrite Hjunk. apply lookup_app_l_Some, Hr. }
  split; [auto|]. split; [exact Hkeep|].
  intros df' ->.
  destruct (clean_dataset_returns lib w df T df' w' H Hrun)
    as (T' & Tm & _ & -> & _ & _).
  split.
  - apply lookup_ge_None. lia.
  - apply lookup_lt_Some in H. lia.
Qed.

Lemma clean_dataset_input_unchanged_witness :
  heap (snd (run (clean_dataset iso_lib 0%nat) (loaded world_france))) !! 0%nat
  = Some world_france /\
  (forall r X, heap (loaded world_france) !! r = Some X ->
               heap (snd (run (clean_dataset iso_lib 0%nat) (loaded world_france))) !! r
               = Some X) /\
  (forall df', fst (run (clean_dataset iso_lib 0%nat) (loaded world_france)) = Ret df' ->
               heap (loaded world_france) !! df' = None /\ df' <> 0%nat).
Proof.
  exact (clean_dataset_input_unchanged iso_lib (loaded world_france) 0%nat
           world_france _ _ eq_refl
           (surjective_pairing (run (clean_dataset iso_lib 0%nat) (loaded world_france)))).
Defined.

(** C3. The Cleaner is idempotent: on a table on which it succeeds, a
    second run on its own output succeeds too and returns a table equal to
    that output. *)
Theorem clean_dataset_idempotent lib w df T df1 w1 :
  heap w !! df = Some T ->
  wf_frame T = true ->
  run (clean_dataset lib df) w = (Ret df1, w1) ->
  exists df2 w2 T1,
    run (clean_dataset lib df1) w1 = (Ret df2, w2) /\
    heap w1 !! df1 = Some T1 /\
    heap w2 !! df2 = Some T1.
Proof.
  intros H Hwf Hrun.
  destruct (clean_dataset_returns lib w df T df1 w1 H Hrun)
    as (T1 & Tm & Hclean & _ & _ & H1).
  assert (Hfix : clean_frame lib T1 = Ok T1).
  { apply cleaned_fixed.
    - eapply clean_frame_wf; eauto.
    - eapply clean_frame_cleaned; eauto. }
  pose proof (clean_dataset_run lib w1 df1 T1 H1) as Hspec.
  rewrite Hfix in Hspec. destruct Hspec as [Tm' Hspec].
  eexists _, _, T1. split; [exact Hspec|]. split; [exact H1|].
  cbn [heap]. rewrite lookup_app_r by lia.
  replace (length (heap w1) + 2 - length (heap w1))%nat with 2%nat by lia.
  reflexivity.
Qed.

Lemma clean_dataset_idempotent_witness :
  exists df2 w2 T1,
    run (clean_dataset iso_lib 3%nat)
        (snd (run (clean_dataset iso_lib 0%nat) (loaded missing_rate)))
    = (Ret df2, w2) /\
    heap (snd (run (clean_dataset iso_lib 0%nat) (loaded missing_rate))) !! 3%nat
    = Some T1 /\
    heap w2 !! df2 = Some T1.
Proof.
  exact (clean_dataset_idempotent iso_lib (loaded missing_rate) 0%nat
           missing_rate 3%nat _ eq_refl eq_refl
           (run_returns (clean_dataset iso_lib 0%nat) (loaded missing_rate)
                        3%nat eq_refl)).
Defined.

Lemma clip_value_negative v : negative v -> clip_value 0 v = zero_like v.
Proof.
  destruct v as [z|q| | |]; simpl; try contradiction.
  - intros Hz. f_equal. lia.
  - intros Hq. f_equal. unfold Qclip.
    destruct (Qle_bool (inject_Z 0) q) eqn:E; [|reflexivity].
    apply Qle_bool_iff in E. exfalso. eapply Qlt_not_le; eauto.
Qed.

Lemma spec_cell_total_cases lib d a :
  spec_cell lib "total_cases" d (Some a) = Some (clip_value 0 a).
Proof. reflexivity. Qed.

Lemma spec_cell_new_cases lib d a :
  spec_cell lib "new_cases" d (Some a) = Some (clip_value 0 a).
Proof. reflexivity. Qed.

Lemma frame_cell_Some T n i x :
  frame_cell T n i = Some x <->
  exists s, frame_get n T = Some s /\ cells s !! i = Some x.
Proof.
  unfold frame_cell. destruct (frame_get n T) as [s|]; simpl.
  - split; [eauto | intros (s' & [= <-] & H); exact H].
  - split; [discriminate | intros (s' & [=] & _)].
Qed.

(** C4. On every table on which the Cleaner succeeds, every total_cases
    and every new_cases of the cleaned table is a number that is not
    negative; and a row with a continent, a valid date and negative counts
    (such as -5 and -3) is kept, under its label, with both counts 0. *)
Theorem cleaned_counts_nonnegative lib w df T df' w' :
  heap w !! df = Some T ->
  run (clean_dataset lib df) w = (Ret df', w') ->
  exists T' tc nc,
    heap w' !! df' = Some T' /\
    frame_get "total_cases" T' = Some tc /\
    frame_get "new_cases" T' = Some nc /\
    Forall nonneg (cells tc) /\
    Forall nonneg (cells nc) /\
    forall i l x y a b,
      index T !! i = Some l ->
      frame_cell T "continent" i = Some (Some x) ->
      frame_cell T "date" i = Some y ->
      present (date_cell lib y) = true ->
      frame_cell T "total_cases" i = Some (Some a) ->
      frame_cell T "new_cases" i = Some (Some b) ->
      negative a -> negative b ->
      exists j,
        index T' !! j = Some l /\
        frame_cell T' "total_cases" j = Some (Some (zero_like a)) /\
        frame_cell T' "new_cases" j = Some (Some (zero_like b)).
Proof.
  intros H Hrun.
  destruct (clean_dataset_returns lib w df T df' w' H Hrun)
    as (T' & Tm & Hclean & _ & _ & H').
  destruct (clean_frame_cleaned lib T T' Hclean)
    as [_ _ _ (tc & Htc & _ & Hnn1) (nc & Hnc & _ & Hnn2)].
  exists T', tc, nc. repeat (split; [assumption|]).
  intros i l x y a b Hi Hx Hy Hvalid Ha Hb Hnega Hnegb.
  apply frame_cell_Some in Hx as (c & Hc & Hx).
  apply frame_cell_Some in Hy as (d & Hd & Hy).
  apply frame_cell_Some in Ha as (s1 & Hs1 & Ha).
  apply frame_cell_Some in Hb as (s2 & Hs2 & Hb).
  assert (Hk : keep_mask lib T !! i = Some true)
    by (apply (keep_mask_lookup lib T c d); eauto).
  destruct (clean_frame_row lib T T' i Hclean Hk) as [Hidx Hrow].
  exists (rank (keep_mask lib T) i). split; [congruence|].
  rewrite (Hrow _ _ Hs1), (Hrow _ _ Hs2), Ha, Hb.
  cbn [fmap option_fmap option_map].
  rewrite spec_cell_total_cases, spec_cell_new_cases.
  rewrite !clip_value_negative by assumption. auto.
Qed.

Lemma cleaned_counts_nonnegative_witness :
  exists T' tc nc,
    heap (snd (run (clean_dataset iso_lib 0%nat) (loaded negative_counts))) !! 3%nat
    = Some T' /\
    frame_get "total_cases" T' = Some tc /\
    frame_get "new_cases" T' = Some nc /\
    Forall nonneg (cells tc) /\
    Forall nonneg (cells nc) /\
    forall i l x y a b,
      index negative_counts !! i = Some l ->
      frame_cell negative_counts "continent" i = Some (Some x) ->
      frame_cell negative_counts "date" i = Some y ->
      present (date_cell iso_lib y) = true ->
      frame_cell negative_counts "total_cases" i = Some (Some a) ->
      frame_cell negative_counts "new_cases" i = Some (Some b) ->
      negative a -> negative b ->
      exists j,
        index T' !! j = Some l /\
        frame_cell T' "total_cases" j = Some (Some (zero_like a)) /\
        frame_cell T' "new_cases" j = Some (Some (zero_like b)).
Proof.
  exact (cleaned_counts_nonnegative iso_lib (loaded negative_counts) 0%nat
           negative_counts 3%nat _ eq_refl
           (run_returns (clean_dataset iso_lib 0%nat) (loaded negative_counts)
                        3%nat eq_refl)).
Defined.

(** The scenario of C4 run: the row with -5 and -3 is kept, with 0 and 0. *)
Example clean_negative_counts :
  exists w',
    run (clean_dataset iso_lib 0%nat) (loaded negative_counts) = (Ret 3%nat, w') /\
    heap w' !! 3%nat
    = Some (mkFrame [0]
              [("continent", SObject [Some "Europe"]);
               ("location", SObject [Some "France"]);
               ("date", SDatetime [Some 1609459200000000000]);
               ("total_cases", SInt [0]);
               ("new_cases", SInt [0])]).
Proof. eexists. split; [apply run_returns|]; vm_compute; reflexivity. Qed.

Lemma length_two {A} (l : list A) :
  length l = 2%nat -> exists a b, l = [a; b].
Proof. destruct l as [|a [|b [|? ?]]]; try discriminate. eauto. Qed.

(** C5. On every table on which the Cleaner succeeds, every row of the
    cleaned table has a continent and a date that is a time, and came from
    a row with a continent and a valid date; in particular, of two rows,
    the first without a continent ("World") and the second with one and a
    valid date ("Europe"/"France"), the second alone is returned. *)
Theorem cleaned_rows_have_continent_and_date lib w df T df' w' :
  heap w !! df = Some T ->
  run (clean_dataset lib df) w = (Ret df', w') ->
  exists T' c d,
    heap w' !! df' = Some T' /\
    frame_get "continent" T' = Some c /\
    frame_get "date" T' = Some (SDatetime d) /\
    Forall (fun x => present x = true) (cells c) /\
    Forall (fun x => present x = true) d /\
    (forall j l, index T' !! j = Some l ->
       exists i x y,
         index T !! i = Some l /\
         frame_cell T "continent" i = Some (Some x) /\
         frame_cell T "date" i = Some y /\
         present (date_cell lib y) = true) /\
    (forall l0 l1 x y,
       wf_frame T = true ->
       index T = [l0; l1] ->
       frame_cell T "continent" 0 = Some None ->
       frame_cell T "continent" 1 = Some (Some x) ->
       frame_cell T "date" 1 = Some y ->
       present (date_cell lib y) = true ->
       index T' = [l1] /\
       forall n s, frame_get n T = Some s ->
         exists s' v,
           frame_get n T' = Some s' /\
           cells s !! 1%nat = Some v /\
           cells s' = [spec_cell lib n (dtype_of s) v]).
Proof.
  intros H Hrun.
  destruct (clean_dataset_returns lib w df T df' w' H Hrun)
    as (T' & Tm & Hclean & _ & _ & H').
  destruct (clean_frame_cleaned lib T T' Hclean)
    as [(c & Hc & Hcp) (d & Hd & Hdp) _ _ _].
  exists T', c, d. repeat (split; [assumption|]).
  destruct (clean_frame_Ok lib T T' Hclean)
    as (c0 & d0 & _ & _ & _ & _ & _ & Hc0 & Hd0 & _).
  split.
  - intros j l Hj.
    destruct (clean_frame_row_inv lib T T' j l Hclean Hj) as (i & Hk & _ & Hi).
    apply (keep_mask_lookup lib T c0 d0 i Hc0 Hd0) in Hk as (x & y & Hx & Hy & Hv).
    exists i, x, y. rewrite !frame_cell_Some. eauto 10.
  - intros l0 l1 x y Hwf Hidx Hx0 Hx1 Hy1 Hvalid.
    apply frame_cell_Some in Hx0 as (? & Hc0' & Hx0).
    apply frame_cell_Some in Hx1 as (? & Hc0'' & Hx1).
    apply frame_cell_Some in Hy1 as (? & Hd0' & Hy1).
    rewrite Hc0 in Hc0', Hc0''. rewrite Hd0 in Hd0'.
    injection Hc0' as <-. injection Hc0'' as <-. injection Hd0' as <-.
    assert (Hlen : forall n s, frame_get n T = Some s -> length (cells s) = 2%nat).
    { intros n s Hs. rewrite (wf_frame_get T n s Hwf Hs), Hidx. reflexivity. }
    destruct (length_two _ (Hlen _ _ Hc0)) as (a0 & a1 & Ec).
    destruct (length_two _ (Hlen _ _ Hd0)) as (b0 & b1 & Ed).
    rewrite Ec in Hx0, Hx1. rewrite Ed in Hy1. simpl in Hx0, Hx1, Hy1.
    injection Hx0 as ->. injection Hx1 as ->. injection Hy1 as ->.
    assert (Hk : keep_mask lib T = [false; true]).
    { unfold keep_mask. rewrite Hc0, Hd0, notna_cells, Ec, Ed. simpl.
      rewrite Hvalid. reflexivity. }
    destruct (clean_frame_columns lib T T' Hclean) as [Hidx' Hcols].
    rewrite Hk, Hidx in Hidx'. split; [exact Hidx'|].
    intros n s Hs. specialize (Hcols n). rewrite Hs, Hk in Hcols.
    destruct Hcols as (s' & Hs' & Hcells & _).
    destruct (length_two _ (Hlen _ _ Hs)) as (v0 & v1 & Es).
    exists s', v1. rewrite Hcells, Es. auto.
Qed.

Lemma cleaned_rows_have_continent_and_date_witness :
  exists T' c d,
    heap (snd (run (clean_dataset iso_lib 0%nat) (loaded world_france))) !! 3%nat
    = Some T' /\
    frame_get "continent" T' = Some c /\
    frame_get "date" T' = Some (SDatetime d) /\
    Forall (fun x => present x = true) (cells c) /\
    Forall (fun x => present x = true) d /\
    (forall j l, index T' !! j = Some l ->
       exists i x y,
         index world_france !! i = Some l /\
         frame_cell world_france "continent" i = Some (Some x) /\
         frame_cell world_france "date" i = Some y /\
         present (date_cell iso_lib y) = true) /\
    (forall l0 l1 x y,
       wf_frame world_france = true ->
       index world_france = [l0; l1] ->
       frame_cell world_france "continent" 0 = Some None ->
       frame_cell world_france "continent" 1 = Some (Some x) ->
       frame_cell world_france "date" 1 = Some y ->
       present (date_cell iso_lib y) = true ->
       index T' = [l1] /\
       forall n s, frame_get n world_france = Some s ->
         exists s' v,
           frame_get n T' = Some s' /\
           cells s !! 1%nat = Some v /\
           cells s' = [spec_cell iso_lib n (dtype_of s) v]).
Proof.
  exact (cleaned_rows_have_continent_and_date iso_lib (loaded world_france) 0%nat
           world_france 3%nat _ eq_refl
           (run_returns (clean_dataset iso_lib 0%nat) (loaded world_france)
                        3%nat eq_refl)).
Defined.

(** The scenario of C5 run: the France row alone is returned. *)
Example clean_world_france :
  exists w',
    run (clean_dataset iso_lib 0%nat) (loaded world_france) = (Ret 3%nat, w') /\
    heap w' !! 3%nat = Some france_only.
Proof. eexists. split; [apply run_returns|]; vm_compute; reflexivity. Qed.

(** The same two rows with the four fields of the scenario only: without
    a new_cases column the Cleaner leaves the process. *)
Example clean_world_france_four_fields :
  fst (run (clean_dataset iso_lib 0%nat) (loaded world_france_four_fields)) = Exit 1 /\
  console (snd (run (clean_dataset iso_lib 0%nat) (loaded world_france_four_fields)))
  = [Text "Cleaning dataset...";
     ErrorLine "Error cleaning dataset" (KeyError "new_cases")].
Proof. split; vm_compute; reflexivity. Qed.

(** C6. In the cleaned table no cell of an integer, floating or text
    column is missing; a cell that was missing in a kept row is 0 in a
    floating column and "Unknown" in a text column, and a cell that was
    there is kept (clipped, in total_cases and new_cases).  In particular a
    missing reproduction_rate becomes 0. *)
Theorem cleaned_missing_values_filled lib w df T df' w' :
  heap w !! df = Some T ->
  run (clean_dataset lib df) w = (Ret df', w') ->
  exists T',
    heap w' !! df' = Some T' /\
    (forall n s', frame_get n T' = Some s' ->
       dtype_of s' = int64 \/ dtype_of s' = float64 \/ dtype_of s' = object ->
       Forall (fun x => present x = true) (cells s')) /\
    (forall i n s,
       keep_mask lib T !! i = Some true ->
       frame_get n T = Some s ->
       cells s !! i = Some None ->
       (dtype_of s = float64 ->
        frame_cell T' n (rank (keep_mask lib T) i) = Some (Some (VFloat (inject_Z 0)))) /\
       (dtype_of s = object ->
        frame_cell T' n (rank (keep_mask lib T) i) = Some (Some (VStr "Unknown")))) /\
    (forall i n s v,
       keep_mask lib T !! i = Some true ->
       frame_get n T = Some s ->
       n <> "date" ->
       cells s !! i = Some (Some v) ->
       frame_cell T' n (rank (keep_mask lib T) i)
       = Some (Some (if is_count n then clip_value 0 v else v))) /\
    (forall i s,
       keep_mask lib T !! i = Some true ->
       frame_get "reproduction_rate" T = Some s ->
       dtype_of s = float64 ->
       cells s !! i = Some None ->
       frame_cell T' "reproduction_rate" (rank (keep_mask lib T) i)
       = Some (Some (VFloat (inject_Z 0)))).
Proof.
  intros H Hrun.
  destruct (clean_dataset_returns lib w df T df' w' H Hrun)
    as (T' & Tm & Hclean & _ & _ & H').
  exists T'. split; [assumption|].
  destruct (clean_frame_Ok lib T T' Hclean)
    as (c0 & d0 & _ & _ & _ & _ & _ & Hc0 & Hd0 & _).
  assert (Hmissing : forall i n s,
    keep_mask lib T !! i = Some true ->
    frame_get n T = Some s ->
    cells s !! i = Some None ->
    (dtype_of s = float64 ->
     frame_cell T' n (rank (keep_mask lib T) i) = Some (Some (VFloat (inject_Z 0)))) /\
    (dtype_of s = object ->
     frame_cell T' n (rank (keep_mask lib T) i) = Some (Some (VStr "Unknown")))).
  { intros i n s Hk Hs Hi.
    destruct (clean_frame_row lib T T' i Hclean Hk) as [_ Hrow].
    rewrite (Hrow _ _ Hs), Hi. cbn [fmap option_fmap option_map].
    unfold spec_cell. destruct (String.eqb n "date") eqn:En.
    - apply String.eqb_eq in En. subst n.
      apply (keep_mask_lookup lib T c0 d0 i Hc0 Hd0) in Hk as (x & y & _ & Hy & Hv).
      rewrite Hd0 in Hs. injection Hs as <-. rewrite Hi in Hy.
      injection Hy as <-. discriminate.
    - split; intros ->; destruct (is_count n); reflexivity. }
  split; [|split; [exact Hmissing|split]].
  - intros n s' Hs' Hty. eapply clean_frame_filled; eauto.
    + destruct Hty as [E|[E|E]]; rewrite E; discriminate.
    + destruct Hty as [E|[E|E]]; rewrite E; discriminate.
  - intros i n s v Hk Hs Hn Hi.
    destruct (clean_frame_row lib T T' i Hclean Hk) as [_ Hrow].
    rewrite (Hrow _ _ Hs), Hi. cbn [fmap option_fmap option_map].
    unfold spec_cell. apply String.eqb_neq in Hn. rewrite Hn.
    destruct (is_count n); reflexivity.
  - intros i s Hk Hs Hty Hi. apply (Hmissing i _ s); assumption.
Qed.

Lemma cleaned_missing_values_filled_witness :
  exists T',
    heap (snd (run (clean_dataset iso_lib 0%nat) (loaded missing_rate))) !! 3%nat
    = Some T' /\
    (forall n s', frame_get n T' = Some s' ->
       dtype_of s' = int64 \/ dtype_of s' = float64 \/ dtype_of s' = object ->
       Forall (fun x => present x = true) (cells s')) /\
    (forall i n s,
       keep_mask iso_lib missing_rate !! i = Some true ->
       frame_get n missing_rate = Some s ->
       cells s !! i = Some None ->
       (dtype_of s = float64 ->
        frame_cell T' n (rank (keep_mask iso_lib missing_rate) i)
        = Some (Some (VFloat (inject_Z 0)))) /\
       (dtype_of s = object ->
        frame_cell T' n (rank (keep_mask iso_lib missing_rate) i)
        = Some (Some (VStr "Unknown")))) /\
    (forall i n s v,
       keep_mask iso_lib missing_rate !! i = Some true ->
       frame_get n missing_rate = Some s ->
       n <> "date" ->
       cells s !! i = Some (Some v) ->
       frame_cell T' n (rank (keep_mask iso_lib missing_rate) i)
       = Some (Some (if is_count n then clip_value 0 v else v))) /\
    (forall i s,
       keep_mask iso_lib missing_rate !! i = Some true ->
       frame_get "reproduction_rate" missing_rate = Some s ->
       dtype_of s = float64 ->
       cells s !! i = Some None ->
       frame_cell T' "reproduction_rate" (rank (keep_mask iso_lib missing_rate) i)
       = Some (Some (VFloat (inject_Z 0)))).
Proof.
  exact (cleaned_missing_values_filled iso_lib (loaded missing_rate) 0%nat
           missing_rate 3%nat _ eq_refl
           (run_returns (clean_dataset iso_lib 0%nat) (loaded missing_rate)
                        3%nat eq_refl)).
Defined.

(** The scenario of C6 run: the missing reproduction_rate and new_deaths
    are 0, the missing location is "Unknown". *)
Example clean_missing_rate :
  exists w' T',
    run (clean_dataset iso_lib 0%nat) (loaded missing_rate) = (Ret 3%nat, w') /\
    heap w' !! 3%nat = Some T' /\
    frame_get "reproduction_rate" T' = Some (SFloat [Some (0 # 1); Some (11 # 10)]) /\
    frame_get "new_deaths" T' = Some (SFloat [Some (0 # 1); Some (1 # 1)]) /\
    frame_get "location" T' = Some (SObject [Some "France"; Some "Unknown"]).
Proof.
  eexists _, _. split; [apply run_returns; vm_compute; reflexivity|].
  split; [vm_compute; reflexivity|]. repeat split.
Qed.

(** C10. In the cleaned table no numeric column has a missing cell, and
    new_deaths (numeric, or text) has none, so the correlation of new_cases
    and new_deaths reads no missing value and leaves no row out. *)
Theorem cleaned_new_deaths_present lib w df T df' w' :
  heap w !! df = Some T ->
  run (clean_dataset lib df) w = (Ret df', w') ->
  exists T',
    heap w' !! df' = Some T' /\
    (forall n s, frame_get n T' = Some s ->
       dtype_of s = int64 \/ dtype_of s = float64 ->
       Forall (fun x => present x = true) (cells s)) /\
    (forall nd, frame_get "new_deaths" T' = Some nd ->
       dtype_of nd = int64 \/ dtype_of nd = float64 \/ dtype_of nd = object ->
       Forall (fun x => present x = true) (cells nd)) /\
    (forall nc nd xs ys,
       frame_get "new_cases" T' = Some nc ->
       frame_get "new_deaths" T' = Some nd ->
       corr_cells nc = Ok xs -> corr_cells nd = Ok ys ->
       Forall (fun x => present x = true) xs /\
       Forall (fun y => present y = true) ys /\
       zip xs ys
       = map (fun p => (Some (fst p), Some (snd p))) (complete_pairs xs ys)).
Proof.
  intros H Hrun.
  destruct (clean_dataset_returns lib w df T df' w' H Hrun)
    as (T' & Tm & Hclean & _ & _ & H').
  exists T'. split; [assumption|].
  assert (Hnum : forall n s, frame_get n T' = Some s ->
            dtype_of s = int64 \/ dtype_of s = float64 ->
            Forall (fun x => present x = true) (cells s)).
  { intros n s Hs Hty. eapply clean_frame_filled; eauto.
    - destruct Hty as [E|E]; rewrite E; discriminate.
    - destruct Hty as [E|E]; rewrite E; discriminate. }
  split; [exact Hnum|]. split.
  { intros nd Hnd Hty. eapply clean_frame_filled; eauto.
    - destruct Hty as [E|[E|E]]; rewrite E; discriminate.
    - destruct Hty as [E|[E|E]]; rewrite E; discriminate. }
  assert (Hcorr : forall n s xs, frame_get n T' = Some s -> corr_cells s = Ok xs ->
            Forall (fun x => present x = true) xs).
  { intros n s xs Hs Hxs. destruct s as [l|l|l| |]; simpl in Hxs; try discriminate.
    - injection Hxs as <-. rewrite Forall_map. apply Forall_forall. reflexivity.
    - injection Hxs as <-.
      specialize (Hnum n _ Hs (or_intror eq_refl)). simpl in Hnum.
      rewrite Forall_map in Hnum. eapply Forall_impl; [exact Hnum|].
      intros [q|]; simpl; auto.
    - destruct (forallb _ l) eqn:E; [|discriminate]. injection Hxs as <-.
      assert (Hp : Forall (fun x => present x = true) (cells (SObject l))).
      { eapply clean_frame_filled; eauto; discriminate. }
      destruct l as [|[t|] l]; simpl in *; try discriminate; [constructor|].
      inversion Hp; discriminate. }
  intros nc nd xs ys Hnc Hnd Hxs Hys.
  pose proof (Hcorr _ _ _ Hnc Hxs) as Hpx.
  pose proof (Hcorr _ _ _ Hnd Hys) as Hpy.
  repeat split; try assumption.
  clear -Hpx Hpy. revert ys Hpy.
  induction Hpx as [|[x|] xs Hx _ IH]; intros ys Hpy; try discriminate.
  - reflexivity.
  - destruct Hpy as [|[y|] ys Hy Hpy]; try discriminate; [reflexivity|].
    unfold complete_pairs in *. simpl. rewrite <- IH by assumption. reflexivity.
Qed.

Lemma cleaned_new_deaths_present_witness :
  exists T',
    heap (snd (run (clean_dataset iso_lib 0%nat) (loaded missing_rate))) !! 3%nat
    = Some T' /\
    (forall n s, frame_get n T' = Some s ->
       dtype_of s = int64 \/ dtype_of s = float64 ->
       Forall (fun x => present x = true) (cells s)) /\
    (forall nd, frame_get "new_deaths" T' = Some nd ->
       dtype_of nd = int64 \/ dtype_of nd = float64 \/ dtype_of nd = object ->
       Forall (fun x => present x = true) (cells nd)) /\
    (forall nc nd xs ys,
       frame_get "new_cases" T' = Some nc ->
       frame_get "new_deaths" T' = Some nd ->
       corr_cells nc = Ok xs -> corr_cells nd = Ok ys ->
       Forall (fun x => present x = true) xs /\
       Forall (fun y => present y = true) ys /\
       zip xs ys
       = map (fun p => (Some (fst p), Some (snd p))) (complete_pairs xs ys)).
Proof.
  exact (cleaned_new_deaths_present iso_lib (loaded missing_rate) 0%nat
           missing_rate 3%nat _ eq_refl
           (run_returns (clean_dataset iso_lib 0%nat) (loaded missing_rate)
                        3%nat eq_refl)).
Defined.

(** * A date that cannot be parsed *)

(** [pd.to_datetime] is called with its default [errors='raise']: a text
    that is no date, in a row that has a continent, raises inside the
    Cleaner's [try], and the handler leaves the process with status 1.
    The row is not turned into a missing date and dropped. *)
Lemma clean_dataset_unparseable lib w df T c l i x t :
  heap w !! df = Some T ->
  frame_get "continent" T = Some c ->
  frame_get "date" T = Some (SObject l) ->
  cells c !! i = Some (Some x) ->
  l !! i = Some (Some t) ->
  datetime_of_string lib t = None ->
  fst (run (clean_dataset lib df) w) = Exit 1.
Proof.
  intros H Hc Hd Hx Ht Hparse.
  assert (Hm : notna c !! i = Some true)
    by (rewrite notna_cells, list_lookup_fmap, Hx; reflexivity).
  assert (Hin : Some t ∈ mask_filter (notna c) l).
  { apply list_elem_of_lookup. exists (rank (notna c) i).
    rewrite mask_filter_lookup; assumption. }
  destruct (to_datetime_unparseable lib _ _ Hin Hparse) as [e He].
  pose proof (clean_dataset_run lib w df T H) as Hspec.
  assert (Hclean : clean_frame lib T = Err e).
  { unfold clean_frame. rewrite Hc, frame_get_filter, Hd. simpl fmap.
    cbn [series_filter]. rewrite He. reflexivity. }
  rewrite Hclean in Hspec. destruct Hspec as [junk Hspec].
  unfold run. rewrite Hspec. reflexivity.
Qed.

(** C1. The table [bad_date] has a row dated "2021-01-01" and a row dated
    "not-a-date", both with a continent.  The Cleaner does not return the
    first row: the conversion raises a ValueError and the process is left
    with status 1. *)
Theorem clean_dataset_bad_date_exits :
  datetime_of_string iso_lib "not-a-date" = None /\
  fst (run (clean_dataset iso_lib 0%nat) (loaded bad_date)) = Exit 1 /\
  console (snd (run (clean_dataset iso_lib 0%nat) (loaded bad_date)))
  = [Text "Cleaning dataset...";
     ErrorLine "Error cleaning dataset" ValueError].
Proof. repeat split; vm_compute; reflexivity. Qed.

(** * The order on values and the insertion sort *)

Lemma string_compare_trans_not_gt s1 s2 s3 :
  String.compare s1 s2 <> Gt -> String.compare s2 s3 <> Gt ->
  String.compare s1 s3 <> Gt.
Proof.
  revert s2 s3.
  induction s1 as [|c1 s1 IH]; intros [|c2 s2] [|c3 s3]; simpl; try congruence.
  unfold Ascii.compare.
  destruct (N.compare_spec (N_of_ascii c1) (N_of_ascii c2)) as [E12|L12|G12];
    [| |congruence];
    (destruct (N.compare_spec (N_of_ascii c2) (N_of_ascii c3)) as [E23|L23|G23];
     [| |congruence]); intros H12 H23.
  - rewrite E12, E23, N.compare_refl. eauto.
  - rewrite E12. apply N.compare_lt_iff in L23. rewrite L23. congruence.
  - rewrite <- E23. apply N.compare_lt_iff in L12. rewrite L12. congruence.
  - assert (N_of_ascii c1 < N_of_ascii c3)%N as L13 by lia.
    apply N.compare_lt_iff in L13. rewrite L13. congruence.
Qed.

Lemma string_leb_trans s1 s2 s3 :
  String.leb s1 s2 = true -> String.leb s2 s3 = true -> String.leb s1 s3 = true.
Proof.
  unfold String.leb. intros H12 H23.
  pose proof (string_compare_trans_not_gt s1 s2 s3) as H.
  destruct (String.compare s1 s2), (String.compare s2 s3),
    (String.compare s1 s3); try reflexivity; try discriminate;
    exfalso; apply H; congruence.
Qed.

Lemma value_leb_total a b : value_leb a b = true \/ value_leb b a = true.
Proof.
  destruct a as [x|x|x|x|[x1 x2]], b as [y|y|y|y|[y1 y2]]; simpl; auto.
  - lia.
  - destruct (Qlt_le_dec y x) as [H|H].
    + right. apply Qle_bool_iff, Qlt_le_weak, H.
    + left. apply Qle_bool_iff, H.
  - apply String.leb_total.
  - lia.
  - lia.
Qed.

Lemma value_leb_trans a b c :
  value_leb a b = true -> value_leb b c = true -> value_leb a c = true.
Proof.
  destruct a as [x|x|x|x|[x1 x2]], b as [y|y|y|y|[y1 y2]],
    c as [z|z|z|z|[z1 z2]]; simpl; try discriminate; try reflexivity.
  - lia.
  - rewrite !Qle_bool_iff. apply Qle_trans.
  - apply string_leb_trans.
  - lia.
  - lia.
Qed.

Lemma value_leb_refl a : value_leb a a = true.
Proof. destruct (value_leb_total a a); assumption. Qed.

Lemma desc_leb_total a b : desc_leb a b = true \/ desc_leb b a = true.
Proof.
  unfold desc_leb. destruct (snd a), (snd b); auto. apply value_leb_total.
Qed.

Lemma desc_leb_trans a b c :
  desc_leb a b = true -> desc_leb b c = true -> desc_leb a c = true.
Proof.
  unfold desc_leb. destruct (snd a), (snd b), (snd c); try discriminate; auto.
  intros H1 H2. eapply value_leb_trans; eauto.
Qed.

Section InsertionSort.
Context {A : Type} (leb : A -> A -> bool).
Hypothesis leb_total : forall a b, leb a b = true \/ leb b a = true.
Hypothesis leb_trans : forall a b c, leb a b = true -> leb b c = true -> leb a c = true.

Lemma insert_sorted_perm x l : Permutation (insert_sorted leb x l) (x :: l).
Proof.
  induction l as [|y l IH]; simpl; [reflexivity|].
  destruct (leb x y); [reflexivity|].
  rewrite IH. apply perm_swap.
Qed.

Lemma isort_perm l : Permutation (isort leb l) l.
Proof.
  induction l as [|x l IH]; simpl; [reflexivity|].
  rewrite insert_sorted_perm, IH. reflexivity.
Qed.

Lemma insert_sorted_sorted x l :
  StronglySorted (fun a b => leb a b = true) l ->
  StronglySorted (fun a b => leb a b = true) (insert_sorted leb x l).
Proof.
  induction 1 as [|y l Hs IH Hy]; simpl.
  - repeat constructor.
  - destruct (leb x y) eqn:E.
    + constructor; [constructor; assumption|].
      constructor; [assumption|].
      eapply Forall_impl; [exact Hy|]. intros z Hz. eapply leb_trans; eauto.
    + constructor; [assumption|].
      rewrite insert_sorted_perm. constructor; [|assumption].
      destruct (leb_total x y); congruence.
Qed.

Lemma isort_sorted l : StronglySorted (fun a b => leb a b = true) (isort leb l).
Proof.
  induction l as [|x l IH]; simpl; [constructor|].
  apply insert_sorted_sorted, IH.
Qed.
End InsertionSort.

(** * The ten locations with the most cases *)

Lemma mapM_Result_total {A B} (f : A -> Result B) (g : A -> B) l :
  (forall x, f x = Ok (g x)) -> mapM f l = Ok (map g l).
Proof.
  intros H. induction l as [|x l IH]; [reflexivity|].
  rewrite mapM_Result_cons, H, IH. reflexivity.
Qed.

Lemma group_keys_NoDup key : NoDup (group_keys key).
Proof.
  unfold group_keys. rewrite (isort_perm value_leb). apply NoDup_remove_dups.
Qed.

(** The keys are the values of the key column. *)
Lemma group_keys_elem_of key k :
  k ∈ group_keys key <-> Some k ∈ cells key.
Proof.
  unfold group_keys. rewrite (isort_perm value_leb), elem_of_remove_dups.
  rewrite list_elem_of_omap. split.
  - intros ([x|] & Hin & Hx); simpl in Hx; [|discriminate].
    injection Hx as ->. exact Hin.
  - intros Hin. exists (Some k). auto.
Qed.

Lemma key_mask_lookup k key i :
  key_mask k key !! i = Some true <-> cells key !! i = Some (Some k).
Proof.
  unfold key_mask. rewrite list_lookup_fmap.
  destruct (cells key !! i) as [c|]; simpl; [|split; discriminate].
  split.
  - intros [= Hc]. apply bool_decide_eq_true in Hc. congruence.
  - intros [= ->]. rewrite bool_decide_eq_true_2; reflexivity.
Qed.

(** The greatest present cell is one of the cells and bounds them all. *)
Lemma max_present_Some cs m :
  max_present cs = Some m ->
  Some m ∈ cs /\ forall x, Some x ∈ cs -> value_leb x m = true.
Proof.
  revert m. induction cs as [|c cs IH]; intros m; simpl; [discriminate|].
  destruct c as [a|].
  - destruct (max_present cs) as [b|] eqn:E.
    + intros [= <-]. destruct (IH b eq_refl) as [Hin Hmax].
      unfold vmax. destruct (value_leb a b) eqn:Hab.
      * split; [right; assumption|].
        intros x [[= ->]|Hx]%elem_of_cons; auto.
      * assert (value_leb b a = true) as Hba
          by (destruct (value_leb_total a b); congruence).
        split; [left|].
        intros x [[= ->]|Hx]%elem_of_cons.
        -- apply value_leb_refl.
        -- eapply value_leb_trans; eauto.
    + intros [= <-]. split; [left|].
      intros x [[= ->]|Hx]%elem_of_cons.
      * apply value_leb_refl.
      * exfalso. clear -E Hx.
        induction cs as [|[b|] cs IH]; simpl in *.
        -- inversion Hx.
        -- destruct (max_present cs); discriminate.
        -- apply elem_of_cons in Hx as [[=]|Hx]; auto.
  - intros Hm. destruct (IH m Hm) as [Hin Hmax].
    split; [right; assumption|].
    intros x [[=]|Hx]%elem_of_cons. auto.
Qed.

Lemma max_present_None cs :
  max_present cs = None -> Forall (fun c => c = None) cs.
Proof.
  induction cs as [|[a|] cs IH]; simpl; intros H.
  - constructor.
  - destruct (max_present cs); discriminate.
  - constructor; auto.
Qed.

(** The maximum of a group, in terms of the rows of the frame. *)
Lemma group_max_Some key val k x :
  group_max key val k = Some x ->
  (exists i, cells key !! i = Some (Some k) /\ cells val !! i = Some (Some x)) /\
  (forall i y, cells key !! i = Some (Some k) -> cells val !! i = Some (Some y) ->
               value_leb y x = true).
Proof.
  unfold group_max, series_max. rewrite cells_series_filter.
  intros H. apply max_present_Some in H as [Hin Hmax]. split.
  - apply list_elem_of_lookup in Hin as [j Hj].
    apply mask_filter_lookup_inv in Hj as (i & Hm & _ & Hv).
    exists i. rewrite <- key_mask_lookup. auto.
  - intros i y Hk Hv. apply Hmax. apply list_elem_of_lookup.
    exists (rank (key_mask k key) i).
    rewrite mask_filter_lookup by (apply key_mask_lookup; assumption).
    exact Hv.
Qed.

(** What [top_countries] computes: the groups by location with their
    maxima, sorted, the first ten. *)
Lemma top_countries_Ok T r :
  top_countries T = Ok r ->
  exists loc tc,
    frame_get "location" T = Some loc /\
    frame_get "total_cases" T = Some tc /\
    r = take 10 (sort_values_desc
                   (map (fun k => (k, group_max loc tc k)) (group_keys loc))).
Proof.
  unfold top_countries, frame_groupby. intros H.
  destruct (frame_get "location" T) as [loc|]; [|discriminate].
  destruct (frame_get "total_cases" T) as [tc|]; [|discriminate].
  exists loc, tc. split; [reflexivity|]. split; [reflexivity|].
  unfold groupby_agg in H.
  rewrite (mapM_Result_total _ (fun k => (k, group_max loc tc k))) in H
    by reflexivity.
  simpl in H. injection H as <-. reflexivity.
Qed.

Lemma StronglySorted_take {A} (R : A -> A -> Prop) n l :
  StronglySorted R l -> StronglySorted R (take n l).
Proof.
  intros H. revert n. induction H as [|x l Hs IH Hx]; intros [|n]; simpl;
    try constructor; auto.
  eapply Forall_forall. intros y Hy. rewrite Forall_forall in Hx.
  apply Hx. apply elem_of_take in Hy as (i & Hi & _).
  apply list_elem_of_lookup. eauto.
Qed.

Lemma StronglySorted_lookup {A} (R : A -> A -> Prop) l i j x y :
  StronglySorted R l -> (i < j)%nat ->
  l !! i = Some x -> l !! j = Some y -> R x y.
Proof.
  intros H. revert i j.
  induction H as [|z l Hs IH Hz]; intros i j Hij Hi Hj; [destruct i; discriminate|].
  destruct j as [|j]; [lia|]. destruct i as [|i]; simpl in *.
  - injection Hi as ->. rewrite Forall_forall in Hz. apply Hz.
    apply list_elem_of_lookup. eauto.
  - apply (IH i j); auto. lia.
Qed.

(** The properties of the ranking, on a cleaned frame: at most ten
    entries, one per location, each with the greatest total_cases of the
    location, greatest first, and no location left out has more. *)
Lemma top_countries_spec lib T0 T r :
  wf_frame T0 = true ->
  clean_frame lib T0 = Ok T ->
  top_countries T = Ok r ->
  ranking T r.
Proof.
  intros Hwf0 Hclean Htop.
  pose proof (clean_frame_wf lib T0 T Hwf0 Hclean) as Hwf.
  destruct (clean_frame_cleaned lib T0 T Hclean)
    as [_ _ Hfilled (tc' & Htc' & _ & Hnn) _].
  destruct (top_countries_Ok T r Htop) as (loc & tc & Hloc & Htc & ->).
  rewrite Htc in Htc'. injection Htc' as <-.
  exists loc, tc. split; [assumption|]. split; [assumption|].
  set (groups := map (fun k => (k, group_max loc tc k)) (group_keys loc)).
  set (full := sort_values_desc groups).
  assert (Hperm : Permutation full groups) by apply isort_perm.
  assert (Hsorted : StronglySorted (fun a b => desc_leb a b = true) full)
    by (apply isort_sorted; [apply desc_leb_total | apply desc_leb_trans]).
  assert (Hfst : Permutation (map fst full) (group_keys loc)).
  { rewrite Hperm. unfold groups. rewrite map_map. simpl. rewrite map_id.
    reflexivity. }
  assert (Hentry : forall e, e ∈ full ->
            fst e ∈ group_keys loc /\ snd e = group_max loc tc (fst e)).
  { intros e He. rewrite Hperm in He. unfold groups in He.
    apply list_elem_of_In, in_map_iff in He as (k & <- & Hk).
    apply list_elem_of_In in Hk. auto. }
  split; [rewrite length_take; lia|].
  split.
  { exists (group_keys loc). split; [apply group_keys_NoDup|].
    split; [apply group_keys_elem_of|].
    rewrite length_take. f_equal.
    rewrite (Permutation_length Hperm). unfold groups. apply length_map. }
  split.
  { apply (sublist_NoDup _ (map fst full)).
    - rewrite Hfst. apply group_keys_NoDup.
    - rewrite <- firstn_map. apply sublist_take. }
  split; [apply StronglySorted_take, Hsorted|].
  split.
  { intros k v Hin. apply elem_of_take in Hin as (i0 & Hi0 & _).
    assert (Hin : (k, v) ∈ full) by (apply list_elem_of_lookup; eauto).
    apply Hentry in Hin as [Hk Hv]. simpl in *.
    apply group_keys_elem_of, list_elem_of_lookup in Hk as [i Hi].
    (* the row [i] has a total_cases, and it is present *)
    assert (Hlen : length (cells tc) = length (cells loc))
      by (rewrite (wf_frame_get T _ _ Hwf Htc), (wf_frame_get T _ _ Hwf Hloc);
          reflexivity).
    destruct (cells tc !! i) as [c|] eqn:Hc.
    2:{ apply lookup_ge_None in Hc. apply lookup_lt_Some in Hi. lia. }
    pose proof (proj1 (Forall_forall _ _) Hnn) as Hnn'.
    assert (Hnnc : nonneg c) by (apply Hnn', list_elem_of_lookup; eauto).
    destruct c as [y|]; [|contradiction].
    destruct (group_max loc tc k) as [x|] eqn:Hmax.
    - exists x. split; [assumption|].
      destruct (group_max_Some _ _ _ _ Hmax) as [(i1 & Hk1 & Hx1) Hbound].
      split; [|split; [eauto | exact Hbound]].
      apply (Hnn' (Some x)), list_elem_of_lookup. eauto.
    - exfalso. unfold group_max, series_max in Hmax.
      rewrite cells_series_filter in Hmax. apply max_present_None in Hmax.
      rewrite Forall_forall in Hmax.
      assert (Hin : Some y ∈ mask_filter (key_mask k loc) (cells tc)).
      { apply list_elem_of_lookup. exists (rank (key_mask k loc) i).
        rewrite mask_filter_lookup by (apply key_mask_lookup; assumption).
        exact Hc. }
      apply Hmax in Hin. discriminate. }
  intros k Hk Hnot e He.
  apply elem_of_take in He as (i & Hi & Hlt).
  assert (Hin : (k, group_max loc tc k) ∈ full).
  { rewrite Hperm. unfold groups. apply list_elem_of_In, in_map_iff.
    exists k. split; [reflexivity|]. apply list_elem_of_In, group_keys_elem_of, Hk. }
  apply list_elem_of_lookup in Hin as [j Hj].
  destruct (decide (j < 10)%nat) as [Hj10|Hj10].
  - exfalso. apply Hnot. apply list_elem_of_In, in_map_iff.
    exists (k, group_max loc tc k). split; [reflexivity|].
    apply list_elem_of_In, elem_of_take. eauto.
  - apply (StronglySorted_lookup (fun a b => desc_leb a b = true) full i j);
      auto; lia.
Qed.


(** * The Analyzer *)

Ltac run_known :=
  repeat match goal with
    | H : ?l !! ?i = Some _ |- context [?l !! ?i] => rewrite H
    | H : frame_get ?n ?T = Some _ |- context [frame_get ?n ?T] => rewrite H
    end.

Ltac run_all := repeat progress (run_step; run_known).

Ltac leaf := solve [repeat split; reflexivity].

Lemma analysis_body_run lib w df :
  match analysis_body lib df w with
  | (Ret res, w') =>
      heap w' = heap w /\ dirs w' = dirs w /\ disk w' = disk w /\
      exists T nc tcs nd mean median m,
        heap w !! df = Some T /\
        frame_get "new_cases" T = Some nc /\
        frame_get "total_cases" T = Some tcs /\
        frame_get "new_deaths" T = Some nd /\
        series_mean nc = Ok mean /\
        series_median nc = Ok median /\
        corr lib nc nd = Ok m /\
        res = Some [("mean_cases", Scalar mean);
                    ("median_cases", Scalar median);
                    ("max_cases", Scalar (series_max nc));
                    ("total_cases", Scalar (series_max tcs));
                    ("correlation", Matrix m)]
  | (Raise e, w') => heap w' = heap w /\ dirs w' = dirs w /\ disk w' = disk w
  | (Exit c, w') => False
  end.
Proof.
  destruct w as [h c d k]. unfold analysis_body. run_all.
  destruct (h !! df) as [T|] eqn:H; run_all; [|leaf].
  destruct (frame_get "new_cases" T) as [nc|] eqn:Hnc; run_all; [|leaf].
  destruct (series_mean nc) as [mean|] eqn:Hmean; run_all; [|leaf].
  destruct (series_median nc) as [median|] eqn:Hmedian; run_all; [|leaf].
  destruct (frame_get "total_cases" T) as [tcs|] eqn:Htcs; run_all; [|leaf].
  destruct (frame_get "new_deaths" T) as [nd|] eqn:Hnd; run_all; [|leaf].
  destruct (corr lib nc nd) as [m|] eqn:Hcorr; run_all; [|leaf].
  destruct (frame_get "date" T) as [date|] eqn:Hdate; run_all; [|leaf].
  destruct (date_range_days date) as [days|] eqn:Hdays; run_all; [|leaf].
  destruct (format_float mean) as [v1|] eqn:Hv1; run_all; [|leaf].
  destruct (format_float median) as [v2|] eqn:Hv2; run_all; [|leaf].
  destruct (format_float (series_max nc)) as [v3|] eqn:Hv3; run_all; [|leaf].
  destruct (format_float (series_max tcs)) as [v4|] eqn:Hv4; run_all; [|leaf].
  repeat (split; [reflexivity|]).
  exists T, nc, tcs, nd, mean, median, m. repeat split; auto.
Qed.

(** * The Visualizer *)

Lemma bar_labels_run top w :
  bar_labels top w
  = (match mapM (fun p => format_float (snd p)) top with
     | Ok l => Ret l
     | Err e => Raise e
     end, w).
Proof.
  unfold bar_labels. revert w. induction top as [|p top IH]; intros w; [reflexivity|].
  rewrite mapM_Result_cons.
  change (mapM (fun p => lift (format_float (snd p))) (p :: top) w)
    with (match lift (format_float (snd p)) w with
          | (Ret y, w') =>
              match mapM (fun p => lift (format_float (snd p))) top w' with
              | (Ret k, w'') => (Ret (y :: k), w'')
              | (Raise e, w'') => (Raise e, w'')
              | (Exit c, w'') => (Exit c, w'')
              end
          | (Raise e, w') => (Raise e, w')
          | (Exit c, w') => (Exit c, w')
          end).
  destruct (format_float (snd p)) as [v|e]; [|reflexivity].
  cbn [lift]. unfold mret, M_ret. rewrite IH.
  destruct (mapM _ top); reflexivity.
Qed.

Lemma bar_plot_run env d f top :
  bar_plot env d (mkChart f top)
  = match top with
    | [] => raise (if dtype_eqb d object then TypeError else IndexError)
    | _ :: _ => plot env (mkChart f top)
    end.
Proof. reflexivity. Qed.

Ltac viz_step :=
  cbv beta iota zeta delta
    [mbind M_bind mret M_ret try_except df_getitem df_setitem df_groupby
     get_frame put_frame print lift raise os_makedirs plot savefig
     heap console dirs disk];
  rewrite ?bar_labels_run.

Ltac viz_all := repeat progress (viz_step; run_known).

Ltac viz_disk :=
  first [ exists []; split; [rewrite app_nil_r; reflexivity|]
        | eexists; split; [rewrite <- ?app_assoc; reflexivity|] ];
  intros ch Hch Hfile; simpl in Hch;
  repeat (apply elem_of_cons in Hch as [->|Hch]);
  simpl in Hfile |- *;
  first [ discriminate Hfile | reflexivity | inversion Hch ].

Ltac viz_leaf :=
  split; [intros ?; discriminate|];
  split; [left; reflexivity|]; viz_disk.

Ltac viz_leaf_month :=
  split; [intros ?; discriminate|];
  split; [right; eexists _, _; repeat split; first [reflexivity | eassumption]|];
  viz_disk.

Lemma visualizations_body_run env w df T :
  heap w !! df = Some T ->
  match visualizations_body env df w with
  | (o, w') =>
      (forall c, o <> Exit c) /\
      (heap w' = heap w \/
       exists date month,
         frame_get "date" T = Some date /\
         dt_to_period_M date = Ok month /\
         heap w' = <[df := frame_set "month" month T]> (heap w)) /\
      exists new,
        disk w' = disk w ++ new /\
        forall ch, ch ∈ new -> file ch = top10_file ->
                   top_countries T = Ok (points ch)
  end.
Proof.
  destruct w as [h c d k]. cbn [heap console dirs disk]. intros H.
  assert (Hlt : (df < length h)%nat) by (eapply lookup_lt_Some; eauto).
  unfold visualizations_body, top10_file. viz_all.
  destruct (makedirs_error env "covid_visualizations") as [e|]; viz_all; [viz_leaf|].
  destruct (frame_groupby "date" "new_cases" series_sum T) as [g1|e] eqn:Hg1;
    viz_all; [|viz_leaf].
  destruct (plot_error env (mkChart _ g1)) as [e|]; viz_all; [viz_leaf|].
  destruct (savefig_error env (mkChart _ g1)) as [e|]; viz_all; [viz_leaf|].
  destruct (top_countries T) as [top|e] eqn:Htop; viz_all; [|viz_leaf].
  rewrite bar_plot_run. destruct top as [|p0 top]; viz_all; [viz_leaf|].
  destruct (plot_error env (mkChart _ (p0 :: top))) as [e|]; viz_all; [viz_leaf|].
  destruct (mapM (fun p => format_float (snd p)) (p0 :: top)) as [labels|e];
    viz_all; [|viz_leaf].
  destruct (savefig_error env (mkChart _ (p0 :: top))) as [e|]; viz_all; [viz_leaf|].
  destruct (frame_get "date" T) as [date|] eqn:Hdate; viz_all; [|viz_leaf].
  destruct (dt_to_period_M date) as [month|e] eqn:Hmonth; viz_all; [|viz_leaf].
  rewrite (list_lookup_insert_eq h df _ Hlt). viz_all.
  destruct (frame_groupby "month" "new_cases" series_mean _) as [g3|e];
    viz_all; [|viz_leaf_month].
  destruct (plot_error env (mkChart _ g3)) as [e|]; viz_all; [viz_leaf_month|].
  destruct (savefig_error env (mkChart _ g3)) as [e|]; viz_all; viz_leaf_month.
Qed.

(** The Visualizer returns, and what it does to the store and the disk. *)
Lemma create_visualizations_run env w df T :
  heap w !! df = Some T ->
  exists w',
    run (create_visualizations env df) w = (Ret tt, w') /\
    (heap w' = heap w \/
     exists date month,
       frame_get "date" T = Some date /\
       dt_to_period_M date = Ok month /\
       heap w' = <[df := frame_set "month" month T]> (heap w)) /\
    exists new,
      disk w' = disk w ++ new /\
      forall ch, ch ∈ new -> file ch = top10_file ->
                 top_countries T = Ok (points ch).
Proof.
  intros H. pose proof (visualizations_body_run env w df T H) as Hbody.
  unfold run, create_visualizations, try_except.
  destruct (visualizations_body env df w) as [[[]|e|c] w1].
  - destruct Hbody as (_ & Hheap & Hdisk). eauto.
  - destruct Hbody as (_ & Hheap & Hdisk).
    eexists. split; [reflexivity|]. destruct w1; simpl in *. eauto.
  - destruct Hbody as (Hexit & _). exfalso. eapply Hexit. reflexivity.
Qed.

(** * The Analyzer never raises *)

(** The Analyzer leaves the store as it is. *)
Lemma perform_analysis_heap lib w df :
  heap (snd (run (perform_analysis lib df) w)) = heap w.
Proof.
  pose proof (analysis_body_run lib w df) as Hbody.
  unfold run, perform_analysis, try_except.
  destruct (analysis_body lib df w) as [[res|e|c] w1].
  - destruct Hbody as (Hh & _). exact Hh.
  - destruct Hbody as (Hh & _). destruct w1. exact Hh.
  - contradiction.
Qed.

(** C8. The Analyzer never raises and never leaves the process: it
    returns, and leaves the store and the disk as they were.  When a step
    of the statistics raises, the error is printed and the result is
    absent; otherwise the result maps mean_cases, median_cases and
    max_cases to the mean, the median and the maximum of new_cases,
    total_cases to the maximum of total_cases, and correlation to the
    correlation matrix of new_cases and new_deaths. *)
Theorem perform_analysis_never_raises lib w df :
  exists res w',
    run (perform_analysis lib df) w = (Ret res, w') /\
    heap w' = heap w /\ dirs w' = dirs w /\ disk w' = disk w /\
    match res with
    | None =>
        exists e w1,
          run (analysis_body lib df) w = (Raise e, w1) /\
          console w' = console w1 ++ [ErrorLine "Error performing analysis" e]
    | Some r =>
        run (analysis_body lib df) w = (Ret (Some r), w') /\
        exists T nc tcs nd mean median m,
          heap w !! df = Some T /\
          frame_get "new_cases" T = Some nc /\
          frame_get "total_cases" T = Some tcs /\
          frame_get "new_deaths" T = Some nd /\
          series_mean nc = Ok mean /\
          series_median nc = Ok median /\
          corr lib nc nd = Ok m /\
          r = [("mean_cases", Scalar mean);
               ("median_cases", Scalar median);
               ("max_cases", Scalar (series_max nc));
               ("total_cases", Scalar (series_max tcs));
               ("correlation", Matrix m)]
    end.
Proof.
  pose proof (analysis_body_run lib w df) as Hbody.
  unfold run, perform_analysis, try_except.
  destruct (analysis_body lib df w) as [[res|e|c] w1].
  - destruct Hbody as (Hh & Hd & Hk & T & nc & tcs & nd & mean & median & m &
                       HT & Hnc & Htcs & Hnd & Hmean & Hmedian & Hcorr & ->).
    eexists _, w1. repeat (split; [reflexivity || assumption|]).
    exists T, nc, tcs, nd, mean, median, m. auto 10.
  - destruct Hbody as (Hh & Hd & Hk).
    exists None. eexists. split; [reflexivity|]. destruct w1; simpl in *.
    repeat (split; [assumption|]). eauto.
  - contradiction.
Qed.

(** The Analyzer on the cleaned table of [missing_rate]. *)
Example analysis_missing_rate :
  fst (run (perform_analysis iso_lib 3%nat)
           (snd (run (clean_dataset iso_lib 0%nat) (loaded missing_rate))))
  = Ret (Some [("mean_cases", Scalar (Some (VFloat (12 # 2))));
               ("median_cases", Scalar (Some (VFloat (12 # 2))));
               ("max_cases", Scalar (Some (VFloat (7 # 1))));
               ("total_cases", Scalar (Some (VFloat (50 # 1))));
               ("correlation",
                Matrix [[Some (1 # 1); Some (1 # 1)]; [Some (1 # 1); Some (1 # 1)]])]).
Proof. vm_compute. reflexivity. Qed.

(** Without a new_deaths column the Analyzer prints the error and
    returns nothing. *)
Example analysis_without_new_deaths :
  exists w',
    run (perform_analysis iso_lib 3%nat)
        (snd (run (clean_dataset iso_lib 0%nat) (loaded world_france)))
    = (Ret None, w') /\
    last (console w')
    = Some (ErrorLine "Error performing analysis"
              (KeyError "['new_deaths'] not in index")).
Proof. eexists. split; [apply run_returns|]; vm_compute; reflexivity. Qed.

(** * The cleaned table after the Cleaner *)

(** The claim that the cleaned table is never modified again fails: on
    the table [world_france] the Cleaner returns the France row at
    reference 3, the Analyzer leaves it, and the Visualizer, at
    [df['month'] = ...], adds a column to that very table. *)
Lemma visualizer_modifies_cleaned_table :
  fst (run (clean_dataset iso_lib 0%nat) (loaded world_france)) = Ret 3%nat /\
  heap world_france_cleaned !! 3%nat = Some france_only /\
  heap world_france_analysed !! 3%nat = Some france_only /\
  heap world_france_drawn !! 3%nat
  = Some (frame_set "month" (SPeriod [Some (2021, 1)]) france_only) /\
  heap world_france_drawn !! 3%nat <> heap world_france_cleaned !! 3%nat.
Proof.
  repeat split; try (vm_compute; reflexivity).
  intros H. vm_compute in H. discriminate H.
Qed.

(** C2, as the code has it.  The Analyzer leaves every table of the
    store as it is.  The Visualizer modifies no table but the one it is
    given, and of that one it leaves the index and every column other than
    "month" as the Cleaner produced them: the table is either unchanged
    (when the run stops before the third chart) or has the column "month",
    the months of its dates, added or replaced. *)
Theorem analyzer_and_visualizer_frame lib env w df T res w2 o w3 :
  heap w !! df = Some T ->
  run (perform_analysis lib df) w = (res, w2) ->
  run (create_visualizations env df) w2 = (o, w3) ->
  heap w2 = heap w /\
  exists T3,
    heap w3 = <[df := T3]> (heap w) /\
    index T3 = index T /\
    (forall n, n <> "month" -> frame_get n T3 = frame_get n T) /\
    (T3 = T \/
     exists date month,
       frame_get "date" T = Some date /\
       dt_to_period_M date = Ok month /\
       T3 = frame_set "month" month T).
Proof.
  intros H Hana Hviz.
  assert (H2 : heap w2 = heap w).
  { pose proof (perform_analysis_heap lib w df) as Hh.
    rewrite Hana in Hh. exact Hh. }
  split; [exact H2|].
  assert (H' : heap w2 !! df = Some T) by (rewrite H2; exact H).
  destruct (create_visualizations_run env w2 df T H')
    as (w3' & Hrun & Hheap & _).
  rewrite Hviz in Hrun. injection Hrun as _ <-.
  destruct Hheap as [Hsame|(date & month & Hdate & Hmonth & Hset)].
  - exists T. rewrite Hsame, H2, list_insert_id by assumption. auto.
  - exists (frame_set "month" month T). rewrite Hset, H2.
    split; [reflexivity|]. split; [reflexivity|].
    split; [|right; eauto].
    intros n Hn. apply frame_get_set_other. congruence.
Qed.

Lemma analyzer_and_visualizer_frame_witness :
  heap world_france_analysed = heap world_france_cleaned /\
  exists T3,
    heap world_france_drawn = <[3%nat := T3]> (heap world_france_cleaned) /\
    index T3 = index france_only /\
    (forall n, n <> "month" -> frame_get n T3 = frame_get n france_only) /\
    (T3 = france_only \/
     exists date month,
       frame_get "date" france_only = Some date /\
       dt_to_period_M date = Ok month /\
       T3 = frame_set "month" month france_only).
Proof.
  exact (analyzer_and_visualizer_frame iso_lib fine_env world_france_cleaned
           3%nat france_only _ _ _ _ eq_refl
           (surjective_pairing (run (perform_analysis iso_lib 3%nat) world_france_cleaned))
           (surjective_pairing
              (run (create_visualizations fine_env 3%nat) world_france_analysed))).
Defined.

(** * The bar chart of the Visualizer *)

(** On a frame with the two columns the ranking is always computed. *)
Lemma top_countries_total T loc tc :
  frame_get "location" T = Some loc ->
  frame_get "total_cases" T = Some tc ->
  exists r, top_countries T = Ok r.
Proof.
  intros Hloc Htc. unfold top_countries, frame_groupby, groupby_agg.
  rewrite Hloc, Htc.
  rewrite (mapM_Result_total _ (fun k => (k, group_max loc tc k))) by reflexivity.
  eexists. reflexivity.
Qed.

(** The ranking of [twelve_locations], as the Visualizer saves it: ten of
    the twelve locations, France with the greater of its two counts. *)
Example top10_of_twelve_locations :
  disk (snd (run (create_visualizations fine_env 3%nat)
                 (snd (run (clean_dataset iso_lib 0%nat) (loaded twelve_locations)))))
  !! 1%nat
  = Some (mkChart top10_file
            [(VStr "India", Some (VInt 900)); (VStr "France", Some (VInt 70));
             (VStr "Italy", Some (VInt 65)); (VStr "Spain", Some (VInt 60));
             (VStr "Peru", Some (VInt 45)); (VStr "Chile", Some (VInt 40));
             (VStr "Japan", Some (VInt 30)); (VStr "Kenya", Some (VInt 20));
             (VStr "Ghana", Some (VInt 10)); (VStr "Nepal", Some (VInt 5))]).
Proof. vm_compute. reflexivity. Qed.

(** * More of the Cleaner: rows, columns, missing columns *)

Lemma mask_filter_sublist {A} m (l : list A) : sublist (mask_filter m l) l.
Proof.
  revert l. induction m as [|b m IH]; intros [|x l]; simpl;
    try apply sublist_nil_l.
  destruct b; [apply sublist_skip | apply sublist_cons]; apply IH.
Qed.

Lemma assoc_set_fst {A} k (v x : A) l :
  assoc k l = Some x -> map fst (assoc_set k v l) = map fst l.
Proof.
  induction l as [|[k' v'] l IH]; simpl; [discriminate|].
  destruct (String.eqb k k') eqn:E.
  - apply String.eqb_eq in E. subst k'. reflexivity.
  - intros H. simpl. rewrite IH by assumption. reflexivity.
Qed.

Lemma assoc_fst_Some {A B} k (l : list (string * A)) (l' : list (string * B)) :
  map fst l = map fst l' -> is_Some (assoc k l) -> is_Some (assoc k l').
Proof.
  revert l'. induction l as [|[k1 v1] l IH]; intros [|[k2 v2] l']; simpl;
    try discriminate.
  - intros _ [x Hx]. discriminate.
  - intros [= <- Hl]. destruct (String.eqb k k1); eauto.
Qed.

Lemma column_names_filter m T : column_names (frame_filter m T) = column_names T.
Proof. unfold column_names. simpl. rewrite map_map. reflexivity. Qed.

Lemma column_names_set n s T :
  is_Some (frame_get n T) -> column_names (frame_set n s T) = column_names T.
Proof. intros [x Hx]. unfold column_names. simpl. eapply assoc_set_fst, Hx. Qed.

Lemma column_names_fillna_frame cols v T :
  column_names (fillna_frame cols v T) = column_names T.
Proof.
  unfold fillna_frame.
  assert (forall acc, column_names acc = column_names T ->
            column_names
              (fold_left
                 (fun acc name =>
                    match frame_get name T with
                    | Some s => frame_set name (fillna v s) acc
                    | None => acc
                    end) cols acc)
            = column_names T) as H; [|apply H; reflexivity].
  induction cols as [|name cols IH]; intros acc Hacc; simpl; [assumption|].
  apply IH. destruct (frame_get name T) as [s|] eqn:Hs; [|assumption].
  rewrite column_names_set; [assumption|].
  unfold frame_get. eapply assoc_fst_Some; [symmetry; exact Hacc|].
  exists s. exact Hs.
Qed.

Lemma column_names_clean_frame lib T T' :
  clean_frame lib T = Ok T' -> column_names T' = column_names T.
Proof.
  intros H.
  destruct (clean_frame_Ok _ _ _ H)
    as (continent & date & date2 & tc & tc2 & nc & nc2 &
        Hc & Hd & Hdt & Htc & Hclip1 & Hnc & Hclip2 & ->).
  rewrite !column_names_set.
  - rewrite column_names_filter. unfold fill_missing.
    rewrite !column_names_fillna_frame, column_names_set, column_names_filter;
      [reflexivity|].
    rewrite frame_get_filter, Hd. eexists. reflexivity.
  - rewrite Htc. eauto.
  - rewrite frame_get_set_other by discriminate. rewrite Hnc. eauto.
Qed.

Lemma clean_frame_required lib T T' c :
  clean_frame lib T = Ok T' -> c ∈ required_columns -> is_Some (frame_get c T).
Proof.
  intros H Hc.
  destruct (clean_frame_Ok _ _ _ H)
    as (continent & date & date2 & tc & tc2 & nc & nc2 &
        Hcont & Hd & Hdt & Htc & Hclip1 & Hnc & Hclip2 & _).
  rewrite frame_get_filter, frame_get_fill_missing in Htc, Hnc.
  rewrite frame_get_set_other, frame_get_filter in Htc, Hnc by discriminate.
  unfold required_columns in Hc.
  repeat (apply elem_of_cons in Hc as [->|Hc]); eauto.
  - destruct (frame_get "total_cases" T); [eauto | discriminate].
  - destruct (frame_get "new_cases" T); [eauto | discriminate].
  - inversion Hc.
Qed.

(** X1. The Cleaner only removes rows: the row labels of the table it
    returns are a sub-sequence of the labels of the table it was given, in
    the same order, so there are never more rows than before; the row
    count it prints is the row count of the table it returns; and it
    creates no directory and saves no figure. *)
Theorem clean_dataset_only_removes_rows lib w df T df' w' :
  heap w !! df = Some T ->
  run (clean_dataset lib df) w = (Ret df', w') ->
  exists T',
    heap w' !! df' = Some T' /\
    sublist (index T') (index T) /\
    (length (index T') <= length (index T))%nat /\
    console w'
    = console w ++ [Text "Cleaning dataset..."; RemainingRows (length (index T'))] /\
    dirs w' = dirs w /\ disk w' = disk w.
Proof.
  intros H Hrun.
  destruct (clean_dataset_returns lib w df T df' w' H Hrun)
    as (T' & Tm & HT & _ & _ & Hget).
  exists T'. split; [exact Hget|].
  destruct (clean_frame_columns _ _ _ HT) as [Hidx _].
  assert (Hsub : sublist (index T') (index T))
    by (rewrite Hidx; apply mask_filter_sublist).
  split; [exact Hsub|]. split; [apply sublist_length, Hsub|].
  pose proof (clean_dataset_run lib w df T H) as Hspec.
  rewrite HT in Hspec. destruct Hspec as [Tm' Hspec].
  unfold run in Hrun. rewrite Hspec in Hrun. injection Hrun as _ <-.
  auto.
Qed.

Lemma clean_dataset_only_removes_rows_witness :
  exists T',
    heap (snd (run (clean_dataset iso_lib 0%nat) (loaded world_france))) !! 3%nat
    = Some T' /\
    sublist (index T') (index world_france) /\
    (length (index T') <= length (index world_france))%nat /\
    console (snd (run (clean_dataset iso_lib 0%nat) (loaded world_france)))
    = console (loaded world_france)
      ++ [Text "Cleaning dataset..."; RemainingRows (length (index T'))] /\
    dirs (snd (run (clean_dataset iso_lib 0%nat) (loaded world_france)))
    = dirs (loaded world_france) /\
    disk (snd (run (clean_dataset iso_lib 0%nat) (loaded world_france)))
    = disk (loaded world_france).
Proof.
  exact (clean_dataset_only_removes_rows iso_lib (loaded world_france) 0%nat
           world_france 3%nat _ eq_refl
           (run_returns (clean_dataset iso_lib 0%nat) (loaded world_france)
                        3%nat eq_refl)).
Defined.

(** X2. The Cleaner keeps the columns: the table it returns has the
    columns of the table it was given, under the same names and in the
    same order; the column "date" has become a datetime64 column and
    every other column has the type it had; and if every column of the
    given table was as long as its index, so is every column of the
    returned one. *)
Theorem clean_dataset_keeps_columns lib w df T df' w' :
  heap w !! df = Some T ->
  run (clean_dataset lib df) w = (Ret df', w') ->
  exists T',
    heap w' !! df' = Some T' /\
    column_names T' = column_names T /\
    (forall n s, frame_get n T = Some s ->
       exists s', frame_get n T' = Some s' /\
                  dtype_of s' = if String.eqb n "date" then datetime64 else dtype_of s) /\
    (wf_frame T = true -> wf_frame T' = true).
Proof.
  intros H Hrun.
  destruct (clean_dataset_returns lib w df T df' w' H Hrun)
    as (T' & Tm & HT & _ & _ & Hget).
  exists T'. split; [exact Hget|].
  split; [eapply column_names_clean_frame, HT|]. split.
  - intros n s Hs. destruct (clean_frame_columns _ _ _ HT) as [_ Hcols].
    specialize (Hcols n). rewrite Hs in Hcols.
    destruct Hcols as (s' & Hs' & _ & Hty). eauto.
  - intros Hwf. eapply clean_frame_wf; eauto.
Qed.

Lemma clean_dataset_keeps_columns_witness :
  exists T',
    heap (snd (run (clean_dataset iso_lib 0%nat) (loaded missing_rate))) !! 3%nat
    = Some T' /\
    column_names T' = column_names missing_rate /\
    (forall n s, frame_get n missing_rate = Some s ->
       exists s', frame_get n T' = Some s' /\
                  dtype_of s' = if String.eqb n "date" then datetime64 else dtype_of s) /\
    (wf_frame missing_rate = true -> wf_frame T' = true).
Proof.
  exact (clean_dataset_keeps_columns iso_lib (loaded missing_rate) 0%nat
           missing_rate 3%nat _ eq_refl
           (run_returns (clean_dataset iso_lib 0%nat) (loaded missing_rate)
                        3%nat eq_refl)).
Defined.

(** X3. A table that lacks one of the columns continent, date,
    total_cases, new_cases is never cleaned: the Cleaner prints one
    diagnostic after its first line and leaves the process with status 1,
    without creating a directory or saving a figure.  When the column
    that lacks is continent, the diagnostic is the KeyError of that
    name. *)
Theorem clean_dataset_missing_column lib w df T c :
  heap w !! df = Some T ->
  c ∈ required_columns ->
  frame_get c T = None ->
  fst (run (clean_dataset lib df) w) = Exit 1 /\
  (exists e,
     console (snd (run (clean_dataset lib df) w))
     = console w ++ [Text "Cleaning dataset..."; ErrorLine "Error cleaning dataset" e] /\
     (c = "continent" -> e = KeyError "continent")) /\
  dirs (snd (run (clean_dataset lib df) w)) = dirs w /\
  disk (snd (run (clean_dataset lib df) w)) = disk w.
Proof.
  intros H Hc Hnone.
  pose proof (clean_dataset_run lib w df T H) as Hspec.
  destruct (clean_frame lib T) as [T'|e] eqn:HT.
  - destruct (clean_frame_required lib T T' c HT Hc) as [s Hs]. congruence.
  - destruct Hspec as [junk Hspec]. unfold run. rewrite Hspec. simpl.
    split; [reflexivity|]. split; [|auto].
    exists e. split; [reflexivity|].
    intros ->. unfold clean_frame in HT. rewrite Hnone in HT. congruence.
Qed.

Lemma clean_dataset_missing_column_witness :
  fst (run (clean_dataset iso_lib 0%nat) (loaded world_france_four_fields)) = Exit 1 /\
  (exists e,
     console (snd (run (clean_dataset iso_lib 0%nat) (loaded world_france_four_fields)))
     = console (loaded world_france_four_fields)
       ++ [Text "Cleaning dataset..."; ErrorLine "Error cleaning dataset" e] /\
     ("new_cases" = "continent" -> e = KeyError "continent")) /\
  dirs (snd (run (clean_dataset iso_lib 0%nat) (loaded world_france_four_fields)))
  = dirs (loaded world_france_four_fields) /\
  disk (snd (run (clean_dataset iso_lib 0%nat) (loaded world_france_four_fields)))
  = disk (loaded world_france_four_fields).
Proof.
  apply (clean_dataset_missing_column iso_lib (loaded world_france_four_fields)
           0%nat world_france_four_fields "new_cases").
  - reflexivity.
  - unfold required_columns. repeat constructor.
  - reflexivity.
Defined.

(** * More of the Analyzer: the statistics of a cleaned table *)

Lemma Qsum_nonneg l : Forall (Qle 0) l -> Qle 0 (Qsum l).
Proof.
  induction 1 as [|q l Hq _ IH]; simpl; [apply Qle_refl|].
  rewrite <- (Qplus_0_l 0). apply Qplus_le_compat; assumption.
Qed.

Lemma Qmean_nonneg l q : Forall (Qle 0) l -> Qmean l = Some q -> Qle 0 q.
Proof.
  intros Hl. unfold Qmean. destruct l as [|x l]; [discriminate|].
  intros [= <-]. unfold Qdiv. apply Qmult_le_0_compat.
  - apply (Qsum_nonneg (x :: l)), Hl.
  - apply Qinv_le_0_compat. unfold Qle. simpl. lia.
Qed.

Lemma Qmedian_nonneg l q : Forall (Qle 0) l -> Qmedian l = Some q -> Qle 0 q.
Proof.
  intros Hl. unfold Qmedian.
  assert (Hs : forall i x, isort Qle_bool l !! i = Some x -> Qle 0 x).
  { intros i x Hx. rewrite Forall_forall in Hl. apply Hl.
    rewrite <- (isort_perm Qle_bool l). apply list_elem_of_lookup. eauto. }
  destruct (Nat.even _).
  - destruct (_ !! _) as [a|] eqn:Ha; [|discriminate].
    destruct (_ !! (_ / 2)%nat) as [b|] eqn:Hb; [|discriminate].
    intros [= <-]. unfold Qdiv. apply Qmult_le_0_compat.
    + rewrite <- (Qplus_0_l 0). apply Qplus_le_compat; eauto.
    + apply Qinv_le_0_compat. unfold Qle. simpl. lia.
  - apply Hs.
Qed.

(** A column of counts as the Cleaner leaves it holds numbers only. *)
Lemma count_numbers s :
  clip_lower 0 s = Ok s -> Forall nonneg (cells s) ->
  exists l, numbers s = Ok l /\ Forall (Qle 0) l.
Proof.
  destruct s as [l|l|l|l|l]; simpl; intros Hclip Hnn; try discriminate.
  - eexists. split; [reflexivity|]. rewrite Forall_map in Hnn |- *.
    eapply Forall_impl; [exact Hnn|]. intros z Hz. simpl in Hz.
    unfold Qle. simpl. lia.
  - eexists. split; [reflexivity|]. rewrite Forall_map in Hnn.
    apply Forall_forall. intros q Hq.
    apply list_elem_of_omap in Hq as ([x|] & Hin & Hx); simpl in Hx; [|discriminate].
    injection Hx as ->. rewrite Forall_forall in Hnn. apply (Hnn _ Hin).
  - destruct l as [|c l]; [eexists; split; [reflexivity | constructor]|].
    inversion Hnn as [|? ? Hc _]. destruct c; contradiction.
Qed.

Lemma count_corr_cells s :
  clip_lower 0 s = Ok s -> exists l, corr_cells s = Ok l.
Proof.
  destruct s as [l|l|l|l|l]; simpl; intros Hclip; try discriminate; eauto.
  destruct (forallb _ l); [eauto | discriminate].
Qed.

Lemma count_max s :
  Forall nonneg (cells s) -> series_max s = None \/ nonneg (series_max s).
Proof.
  intros Hnn. unfold series_max.
  destruct (max_present (cells s)) as [m|] eqn:Hm; [right|left; reflexivity].
  apply max_present_Some in Hm as [Hin _].
  rewrite Forall_forall in Hnn. apply Hnn, Hin.
Qed.

Lemma format_float_number v : v = None \/ nonneg v -> format_float v = Ok v.
Proof. intros [->|H]; [reflexivity|]. destruct v as [[]|]; simpl in *; tauto. Qed.

Lemma format_float_VFloat (q : option Q) :
  format_float (option_map VFloat q) = Ok (option_map VFloat q).
Proof. destruct q; reflexivity. Qed.

(** The steps of the Analyzer on a table the Cleaner returned. *)
Lemma cleaned_statistics T :
  cleaned T ->
  exists nc tcs date mean median ncs,
    frame_get "new_cases" T = Some nc /\
    frame_get "total_cases" T = Some tcs /\
    frame_get "date" T = Some (SDatetime date) /\
    series_mean nc = Ok (option_map VFloat mean) /\
    series_median nc = Ok (option_map VFloat median) /\
    corr_cells nc = Ok ncs /\
    (forall q, mean = Some q -> Qle 0 q) /\
    (forall q, median = Some q -> Qle 0 q) /\
    (series_max nc = None \/ nonneg (series_max nc)) /\
    (series_max tcs = None \/ nonneg (series_max tcs)).
Proof.
  intros [_ (date & Hdate & _) _ (tcs & Htcs & _ & Hnn1) (nc & Hnc & Hclip & Hnn2)].
  destruct (count_numbers nc Hclip Hnn2) as (l & Hl & Hpos).
  destruct (count_corr_cells nc Hclip) as (ncs & Hncs).
  exists nc, tcs, date, (Qmean l), (Qmedian l), ncs.
  unfold series_mean, series_median. rewrite Hl.
  repeat split; auto using count_max.
  - intros q. apply Qmean_nonneg, Hpos.
  - intros q. apply Qmedian_nonneg, Hpos.
Qed.

Lemma numeric_corr_cells s :
  dtype_of s = int64 \/ dtype_of s = float64 -> exists l, corr_cells s = Ok l.
Proof. destruct s; intros [H|H]; try discriminate; simpl; eauto. Qed.

Lemma fold_min_max t ts : fold_right Z.min t ts <= fold_right Z.max t ts.
Proof.
  assert (fold_right Z.min t ts <= t <= fold_right Z.max t ts) as H; [|lia].
  induction ts as [|x ts IH]; simpl; lia.
Qed.

Lemma fold_max_in t ts : fold_right Z.max t ts ∈ t :: ts.
Proof.
  induction ts as [|x ts IH]; simpl; [left|].
  destruct (Z.max_spec x (fold_right Z.max t ts)) as [[_ ->]|[_ ->]].
  - apply elem_of_cons in IH as [->|IH]; [left | right; right; exact IH].
  - right. left.
Qed.

Lemma fold_min_in t ts : fold_right Z.min t ts ∈ t :: ts.
Proof.
  induction ts as [|x ts IH]; simpl; [left|].
  destruct (Z.min_spec x (fold_right Z.min t ts)) as [[_ ->]|[_ ->]].
  - right. left.
  - apply elem_of_cons in IH as [->|IH]; [left | right; right; exact IH].
Qed.

(** The days covered are never negative. *)
Lemma date_range_days_nonneg s d : date_range_days s = Ok (Some d) -> 0 <= d.
Proof.
  destruct s as [l|l|l|l|l]; try discriminate.
  unfold date_range_days. cbv beta iota.
  match goal with
  | |- context [omap ?f l] => destruct (omap f l) as [|t ts]; [discriminate|]
  end.
  cbv zeta. destruct (_ - _ <=? timedelta_max); [|discriminate]. intros [= <-].
  apply Z.div_pos; [|unfold ns_per_day; lia].
  pose proof (fold_min_max t ts). lia.
Qed.

(** The days covered are computed when the times are not too far
    apart. *)
Lemma date_range_days_fits l :
  span_fits (SDatetime l) -> exists d, date_range_days (SDatetime l) = Ok d.
Proof.
  intros Hfits. unfold date_range_days. cbv beta iota.
  match goal with
  | |- context [omap ?f l] => destruct (omap f l) as [|t ts] eqn:Hl; [eauto|]
  end.
  cbv zeta.
  assert (Hin : forall x, x ∈ t :: ts -> Some (VTime x) ∈ cells (SDatetime l)).
  { intros x Hx. rewrite <- Hl in Hx.
    apply list_elem_of_omap in Hx as ([y|] & Hy & Hxy); simpl in Hxy; [|discriminate].
    injection Hxy as ->. simpl. apply list_elem_of_In, in_map_iff.
    exists (Some x). split; [reflexivity|]. apply list_elem_of_In, Hy. }
  pose proof (Hfits _ _ (Hin _ (fold_min_in t ts)) (Hin _ (fold_max_in t ts))) as Hd.
  apply Z.leb_le in Hd. rewrite Hd. eauto.
Qed.

(** Times between two bounds that are close enough. *)
Lemma span_fits_within l lo hi :
  forallb (fun c => match c with
                    | Some t => (lo <=? t) && (t <=? hi)
                    | None => true
                    end) l = true ->
  hi - lo <= timedelta_max ->
  span_fits (SDatetime l).
Proof.
  intros Hall Hspan a b Ha Hb. rewrite forallb_forall in Hall.
  assert (Hin : forall t, Some (VTime t) ∈ cells (SDatetime l) -> lo <= t <= hi).
  { intros t Ht. simpl in Ht. apply list_elem_of_In, in_map_iff in Ht as ([x|] & Hx & Hl);
      simpl in Hx; [|discriminate].
    injection Hx as ->. apply Hall in Hl. apply andb_true_iff in Hl as [H1 H2].
    apply Z.leb_le in H1, H2. lia. }
  apply Hin in Ha, Hb. lia.
Qed.

Lemma analysis_body_complete lib w df T nc tcs nd date mean median m days :
  heap w !! df = Some T ->
  frame_get "new_cases" T = Some nc ->
  frame_get "total_cases" T = Some tcs ->
  frame_get "new_deaths" T = Some nd ->
  frame_get "date" T = Some date ->
  series_mean nc = Ok mean ->
  series_median nc = Ok median ->
  corr lib nc nd = Ok m ->
  date_range_days date = Ok days ->
  format_float mean = Ok mean ->
  format_float median = Ok median ->
  format_float (series_max nc) = Ok (series_max nc) ->
  format_float (series_max tcs) = Ok (series_max tcs) ->
  analysis_body lib df w
  = (Ret (Some [("mean_cases", Scalar mean);
                ("median_cases", Scalar median);
                ("max_cases", Scalar (series_max nc));
                ("total_cases", Scalar (series_max tcs));
                ("correlation", Matrix m)]),
     mkWorld (heap w)
             (console w
              ++ analysis_report days mean median (series_max nc) (series_max tcs) m)
             (dirs w) (disk w)).
Proof.
  destruct w as [h c d k]. cbn [heap console dirs disk].
  intros H Hnc Htcs Hnd Hdate Hmean Hmedian Hcorr Hdays Hf1 Hf2 Hf3 Hf4.
  unfold analysis_body, analysis_report. run_all.
  rewrite Hmean. run_all. rewrite Hmedian. run_all. rewrite Hcorr. run_all.
  rewrite Hdays. run_all. rewrite Hf1. run_all. rewrite Hf2. run_all.
  rewrite Hf3. run_all. rewrite Hf4. run_all.
  rewrite <- !app_assoc. reflexivity.
Qed.

(** The Analyzer on a cleaned frame with a numeric new_deaths column. *)
Lemma perform_analysis_cleaned lib w df T nd date :
  heap w !! df = Some T ->
  cleaned T ->
  frame_get "new_deaths" T = Some nd ->
  dtype_of nd = int64 \/ dtype_of nd = float64 ->
  frame_get "date" T = Some date ->
  span_fits date ->
  exists days mean median max_cases total m,
    perform_analysis lib df w
    = (Ret (Some [("mean_cases", Scalar mean);
                  ("median_cases", Scalar median);
                  ("max_cases", Scalar max_cases);
                  ("total_cases", Scalar total);
                  ("correlation", Matrix m)]),
       mkWorld (heap w)
               (console w ++ analysis_report days mean median max_cases total m)
               (dirs w) (disk w)) /\
    forall d, days = Some d -> 0 <= d.
Proof.
  intros Hget Hclean Hnd Hty Hdate0 Hfits.
  destruct (cleaned_statistics T Hclean)
    as (nc & tcs & date' & mean & median & ncs &
        Hnc & Htcs & Hdate & Hmean & Hmedian & Hncs & _ & _ & Hmax1 & Hmax2).
  assert (date = SDatetime date') as -> by congruence.
  rename date' into date.
  destruct (numeric_corr_cells nd Hty) as [nds Hnds].
  destruct (date_range_days_fits date Hfits) as [days Hdays].
  assert (Hcorr : corr lib nc nd
                  = Ok [[pearson lib (complete_pairs ncs ncs);
                         pearson lib (complete_pairs ncs nds)];
                        [pearson lib (complete_pairs nds ncs);
                         pearson lib (complete_pairs nds nds)]])
    by (unfold corr; rewrite Hncs, Hnds; reflexivity).
  eexists days, _, _, _, _, _. unfold perform_analysis, try_except.
  rewrite (analysis_body_complete lib w df T nc tcs nd (SDatetime date)
             _ _ _ days Hget Hnc Htcs Hnd Hdate Hmean Hmedian Hcorr Hdays
             (format_float_VFloat mean) (format_float_VFloat median)
             (format_float_number _ Hmax1) (format_float_number _ Hmax2)).
  split; [reflexivity|].
  intros d ->. eapply date_range_days_nonneg, Hdays.
Qed.

(** X4. The Analyzer succeeds on every table the Cleaner returns, if the
    raw table has a numeric new_deaths column and the dates of the
    cleaned table are no further apart than a [Timedelta] can tell (the
    subtraction of line 117 raises otherwise): it returns the five
    statistics, and what it prints is the header, the days covered (NaN,
    or a number that is not negative), the four numbers it returns and
    the correlation matrix it returns, with no diagnostic. *)
Theorem analysis_of_cleaned_table lib w df T df' w' nd T' date :
  heap w !! df = Some T ->
  run (clean_dataset lib df) w = (Ret df', w') ->
  frame_get "new_deaths" T = Some nd ->
  dtype_of nd = int64 \/ dtype_of nd = float64 ->
  heap w' !! df' = Some T' ->
  frame_get "date" T' = Some date ->
  span_fits date ->
  exists days mean median max_cases total m w'',
    run (perform_analysis lib df') w'
    = (Ret (Some [("mean_cases", Scalar mean);
                  ("median_cases", Scalar median);
                  ("max_cases", Scalar max_cases);
                  ("total_cases", Scalar total);
                  ("correlation", Matrix m)]), w'') /\
    console w''
    = console w' ++ analysis_report days mean median max_cases total m /\
    forall d, days = Some d -> 0 <= d.
Proof.
  intros H Hrun Hnd Hty HT' Hdate Hfits.
  destruct (clean_dataset_returns lib w df T df' w' H Hrun)
    as (T0 & Tm & HT & _ & _ & Hget).
  assert (T0 = T') as -> by congruence.
  destruct (clean_frame_columns _ _ _ HT) as [_ Hcols].
  specialize (Hcols "new_deaths"). rewrite Hnd in Hcols.
  destruct Hcols as (nd' & Hnd' & _ & Hty'). simpl in Hty'.
  rewrite <- Hty' in Hty.
  destruct (perform_analysis_cleaned lib w' df' T' nd' date Hget
              (clean_frame_cleaned lib T T' HT) Hnd' Hty Hdate Hfits)
    as (days & mean & median & max_cases & total & m & Hana & Hdays).
  exists days, mean, median, max_cases, total, m. eexists.
  unfold run. rewrite Hana. repeat split. exact Hdays.
Qed.

Lemma analysis_of_cleaned_table_witness :
  exists days mean median max_cases total m w'',
    run (perform_analysis iso_lib 3%nat)
        (snd (run (clean_dataset iso_lib 0%nat) (loaded missing_rate)))
    = (Ret (Some [("mean_cases", Scalar mean);
                  ("median_cases", Scalar median);
                  ("max_cases", Scalar max_cases);
                  ("total_cases", Scalar total);
                  ("correlation", Matrix m)]), w'') /\
    console w''
    = console (snd (run (clean_dataset iso_lib 0%nat) (loaded missing_rate)))
      ++ analysis_report days mean median max_cases total m /\
    forall d, days = Some d -> 0 <= d.
Proof.
  apply (analysis_of_cleaned_table iso_lib (loaded missing_rate) 0%nat
           missing_rate 3%nat
           (snd (run (clean_dataset iso_lib 0%nat) (loaded missing_rate)))
           (SFloat [None; Some (1 # 1)])
           (cleaned_of iso_lib missing_rate)
           (SDatetime [Some 1609459200000000000; Some 1609545600000000000])).
  - reflexivity.
  - apply run_returns. reflexivity.
  - reflexivity.
  - right. reflexivity.
  - reflexivity.
  - reflexivity.
  - apply (span_fits_within _ 1609459200000000000 1609545600000000000).
    + reflexivity.
    + vm_compute. discriminate.
Defined.

(** Dates too far apart: the subtraction of line 117 raises, and the
    Analyzer returns nothing. *)
Example analysis_wide_dates :
  fst (run (perform_analysis iso_lib 3%nat)
           (snd (run (clean_dataset iso_lib 0%nat) (loaded wide_dates))))
  = Ret None /\
  last (console
          (snd (run (perform_analysis iso_lib 3%nat)
                    (snd (run (clean_dataset iso_lib 0%nat) (loaded wide_dates))))))
  = Some (ErrorLine "Error performing analysis" ValueError).
Proof. split; vm_compute; reflexivity. Qed.

(** X5. On a table the Cleaner returns that has no new_deaths column,
    the Analyzer prints its header and the KeyError of line 114, which
    says that ['new_deaths'] is not in the index, nothing else, and
    returns no result; the statistics it had computed by then are not
    printed. *)
Theorem analysis_needs_new_deaths lib w df T df' w' :
  heap w !! df = Some T ->
  run (clean_dataset lib df) w = (Ret df', w') ->
  frame_get "new_deaths" T = None ->
  run (perform_analysis lib df') w'
  = (Ret None,
     mkWorld (heap w')
             (console w' ++ [Text "--- Basic Analysis ---";
                             ErrorLine "Error performing analysis"
                               (KeyError "['new_deaths'] not in index")])
             (dirs w') (disk w')).
Proof.
  intros H Hrun Hnd.
  destruct (clean_dataset_returns lib w df T df' w' H Hrun)
    as (T' & Tm & HT & _ & _ & Hget).
  destruct (clean_frame_columns _ _ _ HT) as [_ Hcols].
  specialize (Hcols "new_deaths"). rewrite Hnd in Hcols.
  destruct (cleaned_statistics T' (clean_frame_cleaned lib T T' HT))
    as (nc & tcs & date & mean & median & ncs &
        Hnc & Htcs & Hdate & Hmean & Hmedian & _).
  destruct w' as [h c d k]. cbn [heap console dirs disk] in *.
  unfold run, perform_analysis, analysis_body. run_all.
  rewrite Hmean. run_all. rewrite Hmedian. run_all.
  rewrite Hcols. run_all. rewrite <- !app_assoc. reflexivity.
Qed.

Lemma analysis_needs_new_deaths_witness :
  run (perform_analysis iso_lib 3%nat)
      (snd (run (clean_dataset iso_lib 0%nat) (loaded world_france)))
  = (Ret None,
     mkWorld (heap (snd (run (clean_dataset iso_lib 0%nat) (loaded world_france))))
             (console (snd (run (clean_dataset iso_lib 0%nat) (loaded world_france)))
              ++ [Text "--- Basic Analysis ---";
                  ErrorLine "Error performing analysis"
                    (KeyError "['new_deaths'] not in index")])
             (dirs (snd (run (clean_dataset iso_lib 0%nat) (loaded world_france))))
             (disk (snd (run (clean_dataset iso_lib 0%nat) (loaded world_france))))).
Proof.
  exact (analysis_needs_new_deaths iso_lib (loaded world_france) 0%nat
           world_france 3%nat _ eq_refl
           (run_returns (clean_dataset iso_lib 0%nat) (loaded world_france)
                        3%nat eq_refl)
           eq_refl).
Defined.

(** X6. The statistics of a table the Cleaner returned are never
    negative: whenever the Analyzer returns a result for such a table,
    each of mean_cases, median_cases, max_cases and total_cases is a
    number that is not negative, or NaN. *)
Theorem analysis_statistics_nonnegative lib w df T df' w' r w'' :
  heap w !! df = Some T ->
  run (clean_dataset lib df) w = (Ret df', w') ->
  run (perform_analysis lib df') w' = (Ret (Some r), w'') ->
  exists mean median max_cases total m,
    r = [("mean_cases", Scalar mean);
         ("median_cases", Scalar median);
         ("max_cases", Scalar max_cases);
         ("total_cases", Scalar total);
         ("correlation", Matrix m)] /\
    Forall (fun v => v = None \/ nonneg v) [mean; median; max_cases; total].
Proof.
  intros H Hrun Hana.
  destruct (clean_dataset_returns lib w df T df' w' H Hrun)
    as (T' & Tm & HT & _ & _ & Hget).
  destruct (cleaned_statistics T' (clean_frame_cleaned lib T T' HT))
    as (nc & tcs & date & mean & median & ncs &
        Hnc & Htcs & Hdate & Hmean & Hmedian & _ & Hpos1 & Hpos2 & Hmax1 & Hmax2).
  pose proof (analysis_body_run lib w' df') as Hbody.
  unfold run, perform_analysis, try_except in Hana.
  destruct (analysis_body lib df' w') as [[res|e|c] w1].
  - injection Hana as -> <-.
    destruct Hbody as (_ & _ & _ & T0 & nc0 & tcs0 & nd0 & mean0 & median0 & m &
                       HT0 & Hnc0 & Htcs0 & _ & Hmean0 & Hmedian0 & _ & Hr).
    injection Hr as ->.
    assert (T0 = T') as -> by congruence.
    assert (nc0 = nc) as -> by congruence.
    assert (tcs0 = tcs) as -> by congruence.
    assert (mean0 = option_map VFloat mean) as -> by congruence.
    assert (median0 = option_map VFloat median) as -> by congruence.
    eexists _, _, _, _, _. split; [reflexivity|].
    constructor; [|constructor; [|constructor; [|constructor; [|constructor]]]];
      try assumption.
    + destruct mean as [q|]; [right; simpl; auto | left; reflexivity].
    + destruct median as [q|]; [right; simpl; auto | left; reflexivity].
  - discriminate.
  - contradiction.
Qed.

Lemma analysis_statistics_nonnegative_witness :
  exists mean median max_cases total m,
    [("mean_cases", Scalar (Some (VFloat (12 # 2))));
     ("median_cases", Scalar (Some (VFloat (12 # 2))));
     ("max_cases", Scalar (Some (VFloat (7 # 1))));
     ("total_cases", Scalar (Some (VFloat (50 # 1))));
     ("correlation",
      Matrix [[Some (1 # 1); Some (1 # 1)]; [Some (1 # 1); Some (1 # 1)]])]
    = [("mean_cases", Scalar mean);
       ("median_cases", Scalar median);
       ("max_cases", Scalar max_cases);
       ("total_cases", Scalar total);
       ("correlation", Matrix m)] /\
    Forall (fun v => v = None \/ nonneg v) [mean; median; max_cases; total].
Proof.
  exact (analysis_statistics_nonnegative iso_lib (loaded missing_rate) 0%nat
           missing_rate 3%nat
           (snd (run (clean_dataset iso_lib 0%nat) (loaded missing_rate)))
           _
           (snd (run (perform_analysis iso_lib 3%nat)
                     (snd (run (clean_dataset iso_lib 0%nat) (loaded missing_rate)))))
           eq_refl
           (run_returns (clean_dataset iso_lib 0%nat) (loaded missing_rate)
                        3%nat eq_refl)
           (run_returns (perform_analysis iso_lib 3%nat)
                        (snd (run (clean_dataset iso_lib 0%nat) (loaded missing_rate)))
                        _ eq_refl)).
Defined.

(** * More of the Visualizer: which charts are saved, and what they show *)

Lemma makedirs_in (dir : string) k :
  dir ∈ (if bool_decide (dir ∈ k) then k else k ++ [dir]).
Proof.
  destruct (bool_decide (dir ∈ k)) eqn:E.
  - apply bool_decide_eq_true in E. exact E.
  - apply elem_of_app. right. left.
Qed.

Ltac charts_leaf :=
  first [ exists []; split; [rewrite app_nil_r; reflexivity|]
        | eexists; split; [rewrite <- ?app_assoc; reflexivity|] ];
  split; [reflexivity|];
  split; [first [intros _; reflexivity | intros Hshort; simpl in Hshort; lia]|];
  split; [first [intros Hne; exfalso; apply Hne; reflexivity
                | intros _; apply makedirs_in]|];
  split; [first [simpl; lia | split; [reflexivity | apply last_snoc]]|];
  split; [intros ch Hch; simpl in Hch;
          first [discriminate Hch | injection Hch as <-; reflexivity]|];
  intros ch Hch; simpl in Hch;
  first [discriminate Hch
        | injection Hch as <-; eexists _, _;
          repeat split; first [reflexivity | eassumption]].

(** The body of the Visualizer, chart by chart: the charts saved are
    the first ones of the three, the month column is assigned between the
    second and the third, and the first and the third chart show the
    groups of the frame. *)
Lemma visualizations_body_charts env w df T :
  heap w !! df = Some T ->
  match visualizations_body env df w with
  | (o, w') =>
      exists new,
        disk w' = disk w ++ new /\
        map file new = take (length new) chart_files /\
        ((length new < 2)%nat -> heap w' = heap w) /\
        (new <> [] -> "covid_visualizations" ∈ dirs w') /\
        match o with
        | Ret _ => length new = 3%nat /\ last (console w') = Some success_line
        | Raise _ => (length new < 3)%nat
        | Exit _ => False
        end /\
        (forall ch, new !! 0%nat = Some ch ->
           frame_groupby "date" "new_cases" series_sum T = Ok (points ch)) /\
        (forall ch, new !! 2%nat = Some ch ->
           exists date month,
             frame_get "date" T = Some date /\
             dt_to_period_M date = Ok month /\
             heap w' = <[df := frame_set "month" month T]> (heap w) /\
             frame_groupby "month" "new_cases" series_mean
               (frame_set "month" month T) = Ok (points ch))
  end.
Proof.
  destruct w as [h c d k]. cbn [heap console dirs disk]. intros H.
  assert (Hlt : (df < length h)%nat) by (eapply lookup_lt_Some; eauto).
  unfold visualizations_body. viz_all.
  destruct (makedirs_error env "covid_visualizations") as [e|]; viz_all;
    [charts_leaf|].
  destruct (frame_groupby "date" "new_cases" series_sum T) as [g1|e] eqn:Hg1;
    viz_all; [|charts_leaf].
  destruct (plot_error env (mkChart _ g1)) as [e|]; viz_all; [charts_leaf|].
  destruct (savefig_error env (mkChart _ g1)) as [e|]; viz_all; [charts_leaf|].
  destruct (top_countries T) as [top|e] eqn:Htop; viz_all; [|charts_leaf].
  rewrite bar_plot_run. destruct top as [|p0 top]; viz_all; [charts_leaf|].
  destruct (plot_error env (mkChart _ (p0 :: top))) as [e|]; viz_all; [charts_leaf|].
  destruct (mapM (fun p => format_float (snd p)) (p0 :: top)) as [labels|e];
    viz_all; [|charts_leaf].
  destruct (savefig_error env (mkChart _ (p0 :: top))) as [e|]; viz_all; [charts_leaf|].
  destruct (frame_get "date" T) as [date|] eqn:Hdate; viz_all; [|charts_leaf].
  destruct (dt_to_period_M date) as [month|e] eqn:Hmonth; viz_all; [|charts_leaf].
  rewrite (list_lookup_insert_eq h df _ Hlt). viz_all.
  destruct (frame_groupby "month" "new_cases" series_mean _) as [g3|e] eqn:Hg3;
    viz_all; [|charts_leaf].
  destruct (plot_error env (mkChart _ g3)) as [e|]; viz_all; [charts_leaf|].
  destruct (savefig_error env (mkChart _ g3)) as [e|]; viz_all; charts_leaf.
Qed.

(** X7. The Visualizer never raises and never leaves the process,
    whatever the file system and the plotting library do.  The charts it
    saves are the first ones of global_new_cases.png,
    top_10_countries_total_cases.png and monthly_trend.png, in this order:
    once a step has raised, no later chart is saved.  A chart is saved
    only after the output directory was made, the table is left as it was
    unless the first two charts were saved, and the last line printed is
    the success message when the three charts were saved and the
    diagnostic of the exception otherwise. *)
Theorem create_visualizations_charts env w df T :
  heap w !! df = Some T ->
  exists w' new,
    run (create_visualizations env df) w = (Ret tt, w') /\
    disk w' = disk w ++ new /\
    map file new = take (length new) chart_files /\
    ((length new < 2)%nat -> heap w' = heap w) /\
    (new <> [] -> "covid_visualizations" ∈ dirs w') /\
    (length new = 3%nat /\ last (console w') = Some success_line \/
     (length new < 3)%nat /\
     exists e,
       last (console w') = Some (ErrorLine "Error creating visualizations" e)).
Proof.
  intros H. pose proof (visualizations_body_charts env w df T H) as Hbody.
  unfold run, create_visualizations, try_except.
  destruct (visualizations_body env df w) as [[[]|e|c] w1];
    destruct Hbody as (new & Hdisk & Hfiles & Hheap & Hdirs & Ho & _).
  - exists w1, new. repeat (split; [reflexivity || assumption|]). left. exact Ho.
  - eexists _, new. split; [reflexivity|]. destruct w1; simpl in *.
    repeat (split; [assumption|]). right. split; [assumption|].
    exists e. apply last_snoc.
  - contradiction.
Qed.

Lemma create_visualizations_charts_witness :
  exists w' new,
    run (create_visualizations fine_env 3%nat) world_france_analysed = (Ret tt, w') /\
    disk w' = disk world_france_analysed ++ new /\
    map file new = take (length new) chart_files /\
    ((length new < 2)%nat -> heap w' = heap world_france_analysed) /\
    (new <> [] -> "covid_visualizations" ∈ dirs w') /\
    (length new = 3%nat /\ last (console w') = Some success_line \/
     (length new < 3)%nat /\
     exists e,
       last (console w') = Some (ErrorLine "Error creating visualizations" e)).
Proof.
  exact (create_visualizations_charts fine_env world_france_analysed 3%nat
           france_only eq_refl).
Defined.

Lemma groupby_agg_Ok agg key val g :
  groupby_agg agg key val = Ok g -> grouped agg key val g.
Proof.
  unfold groupby_agg. intros H.
  assert (Hg : map fst g = group_keys key /\
               forall k v, (k, v) ∈ g ->
                           agg (series_filter (key_mask k key) val) = Ok v).
  { revert g H. induction (group_keys key) as [|k0 ks IH]; intros g H.
    - injection H as <-. split; [reflexivity|]. intros k v Hin. inversion Hin.
    - rewrite mapM_Result_cons in H.
      destruct (agg (series_filter (key_mask k0 key) val)) as [v0|] eqn:H0;
        [|discriminate].
      simpl in H. destruct (mapM _ ks) as [g'|]; [|discriminate].
      injection H as <-. destruct (IH g' eq_refl) as [Hfst Hagg].
      split; [simpl; rewrite Hfst; reflexivity|].
      intros k v [[= -> ->]|Hin]%elem_of_cons; auto. }
  destruct Hg as [Hfst Hagg]. unfold grouped. rewrite Hfst.
  split; [apply group_keys_NoDup|].
  split; [apply isort_sorted; [apply value_leb_total | apply value_leb_trans]|].
  split; [apply group_keys_elem_of | exact Hagg].
Qed.

Lemma frame_groupby_Ok by_ val agg T g :
  frame_groupby by_ val agg T = Ok g ->
  exists key v,
    frame_get by_ T = Some key /\ frame_get val T = Some v /\ grouped agg key v g.
Proof.
  unfold frame_groupby. intros H.
  destruct (frame_get by_ T) as [key|]; [|discriminate].
  destruct (frame_get val T) as [v|]; [|discriminate].
  exists key, v. auto using groupby_agg_Ok.
Qed.

(** The position of a chart among the saved ones, from its file. *)
Lemma chart_position (new : list Chart) ch i :
  map file new = take (length new) chart_files ->
  ch ∈ new -> chart_files !! i = Some (file ch) -> new !! i = Some ch.
Proof.
  intros Hfiles Hin Hi.
  apply list_elem_of_lookup in Hin as [j Hj].
  assert (Hfj : chart_files !! j = Some (file ch)).
  { assert (map file new !! j = Some (file ch)) as Hm
      by (rewrite list_lookup_fmap, Hj; reflexivity).
    rewrite Hfiles in Hm. apply lookup_take_Some in Hm as [Hm _]. exact Hm. }
  assert (i = j) as ->; [|exact Hj].
  destruct i as [|[|[|i]]]; destruct j as [|[|[|j]]]; simpl in *;
    try reflexivity; try discriminate; congruence.
Qed.

(** X8. What the two line charts show, whenever they are saved.  The
    chart global_new_cases.png has one point per date of the table, each
    date once and in ascending order, with the sum of new_cases over the
    rows of that date.  The chart monthly_trend.png has one point per
    month of the dates, each month once and in ascending order, with the
    mean of new_cases over the rows of that month. *)
Theorem visualizer_line_charts env w df T :
  heap w !! df = Some T ->
  exists w' new,
    run (create_visualizations env df) w = (Ret tt, w') /\
    disk w' = disk w ++ new /\
    (forall ch, ch ∈ new -> file ch = "covid_visualizations/global_new_cases.png" ->
       exists date nc,
         frame_get "date" T = Some date /\
         frame_get "new_cases" T = Some nc /\
         grouped series_sum date nc (points ch)) /\
    (forall ch, ch ∈ new -> file ch = "covid_visualizations/monthly_trend.png" ->
       exists date month nc,
         frame_get "date" T = Some date /\
         dt_to_period_M date = Ok month /\
         frame_get "new_cases" T = Some nc /\
         grouped series_mean month nc (points ch)).
Proof.
  intros H. pose proof (visualizations_body_charts env w df T H) as Hbody.
  assert (Hpost : forall w1 new,
            map file new = take (length new) chart_files ->
            (forall ch, new !! 0%nat = Some ch ->
               frame_groupby "date" "new_cases" series_sum T = Ok (points ch)) ->
            (forall ch, new !! 2%nat = Some ch ->
               exists date month,
                 frame_get "date" T = Some date /\
                 dt_to_period_M date = Ok month /\
                 heap w1 = <[df := frame_set "month" month T]> (heap w) /\
                 frame_groupby "month" "new_cases" series_mean
                   (frame_set "month" month T) = Ok (points ch)) ->
            (forall ch, ch ∈ new ->
               file ch = "covid_visualizations/global_new_cases.png" ->
               exists date nc,
                 frame_get "date" T = Some date /\
                 frame_get "new_cases" T = Some nc /\
                 grouped series_sum date nc (points ch)) /\
            (forall ch, ch ∈ new ->
               file ch = "covid_visualizations/monthly_trend.png" ->
               exists date month nc,
                 frame_get "date" T = Some date /\
                 dt_to_period_M date = Ok month /\
                 frame_get "new_cases" T = Some nc /\
                 grouped series_mean month nc (points ch))).
  { intros w1 new Hfiles H0 H2. split.
    - intros ch Hin Hfile.
      assert (Hpos : new !! 0%nat = Some ch)
        by (apply chart_position; [assumption..|rewrite Hfile; reflexivity]).
      apply H0, frame_groupby_Ok in Hpos. exact Hpos.
    - intros ch Hin Hfile.
      assert (Hpos : new !! 2%nat = Some ch)
        by (apply chart_position; [assumption..|rewrite Hfile; reflexivity]).
      destruct (H2 ch Hpos) as (date & month & Hdate & Hmonth & _ & Hg).
      apply frame_groupby_Ok in Hg as (key & nc & Hkey & Hnc & Hg).
      rewrite frame_get_set_same in Hkey. injection Hkey as <-.
      rewrite frame_get_set_other in Hnc by discriminate.
      exists date, month, nc. auto. }
  unfold run, create_visualizations, try_except.
  destruct (visualizations_body env df w) as [[[]|e|c] w1];
    destruct Hbody as (new & Hdisk & Hfiles & _ & _ & Ho & H0 & H2).
  - exists w1, new. split; [reflexivity|]. split; [assumption|].
    exact (Hpost w1 new Hfiles H0 H2).
  - eexists _, new. split; [reflexivity|].
    split; [destruct w1; simpl in *; assumption|].
    exact (Hpost w1 new Hfiles H0 H2).
  - contradiction.
Qed.

Lemma visualizer_line_charts_witness :
  exists w' new,
    run (create_visualizations fine_env 3%nat) world_france_analysed = (Ret tt, w') /\
    disk w' = disk world_france_analysed ++ new /\
    (forall ch, ch ∈ new -> file ch = "covid_visualizations/global_new_cases.png" ->
       exists date nc,
         frame_get "date" france_only = Some date /\
         frame_get "new_cases" france_only = Some nc /\
         grouped series_sum date nc (points ch)) /\
    (forall ch, ch ∈ new -> file ch = "covid_visualizations/monthly_trend.png" ->
       exists date month nc,
         frame_get "date" france_only = Some date /\
         dt_to_period_M date = Ok month /\
         frame_get "new_cases" france_only = Some nc /\
         grouped series_mean month nc (points ch)).
Proof.
  exact (visualizer_line_charts fine_env world_france_analysed 3%nat
           france_only eq_refl).
Defined.

(** ** The Visualizer on a cleaned table *)

Lemma mapM_Result_all {A B} (f : A -> Result B) l :
  (forall x, x ∈ l -> exists y, f x = Ok y) -> exists l', mapM f l = Ok l'.
Proof.
  induction l as [|x l IH]; intros H; [eexists; reflexivity|].
  rewrite mapM_Result_cons.
  destruct (H x) as [y ->]; [left|].
  destruct IH as [l' ->]; [|eauto].
  intros z Hz. apply H. right. exact Hz.
Qed.

Lemma groupby_agg_total agg key val :
  (forall k, exists v, agg (series_filter (key_mask k key) val) = Ok v) ->
  exists g, groupby_agg agg key val = Ok g.
Proof.
  intros H. unfold groupby_agg. apply mapM_Result_all.
  intros k _. destruct (H k) as [v ->]. eexists. reflexivity.
Qed.

(** The sum and the mean of some rows of a column of counts. *)
Lemma count_sum m s :
  clip_lower 0 s = Ok s -> exists v, series_sum (series_filter m s) = Ok v.
Proof. destruct s; simpl; intros H; try discriminate; eauto. destruct (omap id _); eauto. Qed.

Lemma count_mean m s :
  clip_lower 0 s = Ok s -> Forall nonneg (cells s) ->
  exists v, series_mean (series_filter m s) = Ok v.
Proof.
  unfold series_mean.
  destruct s as [l|l|l|l|l]; simpl; intros Hclip Hnn; try discriminate; eauto.
  destruct l as [|c l].
  - rewrite mask_filter_nil_r. simpl. eauto.
  - inversion Hnn as [|? ? Hc _]. destruct c; contradiction.
Qed.

Lemma count_group_max key val k :
  Forall nonneg (cells val) ->
  format_float (group_max key val k) = Ok (group_max key val k).
Proof.
  intros Hnn. apply format_float_number, count_max.
  rewrite cells_series_filter. apply mask_filter_Forall, Hnn.
Qed.

Lemma top_countries_nonempty T loc k top :
  frame_get "location" T = Some loc -> Some k ∈ cells loc ->
  top_countries T = Ok top -> top <> [].
Proof.
  intros Hloc Hk Htop.
  destruct (top_countries_Ok T top Htop) as (loc0 & tc & Hloc0 & _ & ->).
  assert (loc0 = loc) as -> by congruence.
  apply group_keys_elem_of in Hk.
  intros Hnil. apply (f_equal length) in Hnil.
  rewrite length_take in Hnil. unfold sort_values_desc in Hnil.
  rewrite (Permutation_length (isort_perm desc_leb _)), length_map in Hnil.
  destruct (group_keys loc); [inversion Hk | simpl in Hnil; lia].
Qed.

Lemma visualizations_body_complete env w df T g1 top labels date month g3 :
  heap w !! df = Some T ->
  makedirs_error env "covid_visualizations" = None ->
  (forall c, plot_error env c = None) ->
  (forall c, savefig_error env c = None) ->
  frame_groupby "date" "new_cases" series_sum T = Ok g1 ->
  top_countries T = Ok top ->
  top <> [] ->
  mapM (fun p => format_float (snd p)) top = Ok labels ->
  frame_get "date" T = Some date ->
  dt_to_period_M date = Ok month ->
  frame_groupby "month" "new_cases" series_mean (frame_set "month" month T) = Ok g3 ->
  visualizations_body env df w
  = (Ret tt,
     mkWorld (<[df := frame_set "month" month T]> (heap w))
             (console w ++ [Text "Generating visualizations...";
                            Text "Generating global new cases trend chart...";
                            Text "Generating top 10 countries chart...";
                            Text "Generating monthly trend chart...";
                            success_line])
             (if bool_decide ("covid_visualizations" ∈ dirs w)
              then dirs w else dirs w ++ ["covid_visualizations"])
             (disk w ++ [mkChart "covid_visualizations/global_new_cases.png" g1;
                         mkChart "covid_visualizations/top_10_countries_total_cases.png" top;
                         mkChart "covid_visualizations/monthly_trend.png" g3])).
Proof.
  destruct w as [h c d k]. cbn [heap console dirs disk].
  intros H Hmk Hplot Hsave Hg1 Htop Hne Hlabels Hdate Hmonth Hg3.
  assert (Hlt : (df < length h)%nat) by (eapply lookup_lt_Some; eauto).
  unfold visualizations_body, success_line. viz_all.
  rewrite Hmk. viz_all. rewrite Hg1. viz_all.
  rewrite !Hplot, !Hsave. viz_all.
  rewrite Htop. viz_all. rewrite bar_plot_run.
  destruct top as [|p0 top]; [congruence|]. viz_all.
  rewrite !Hplot. viz_all. rewrite Hlabels. viz_all.
  rewrite !Hsave. viz_all. rewrite Hmonth. viz_all.
  rewrite (list_lookup_insert_eq h df _ Hlt). viz_all.
  rewrite Hg3. viz_all. rewrite !Hplot, !Hsave. viz_all.
  rewrite <- !app_assoc. reflexivity.
Qed.

(** The Visualizer on a cleaned frame in which some row names a
    location, when nothing of the file system and of the plotting
    library raises. *)
Lemma create_visualizations_cleaned env w df T loc k :
  heap w !! df = Some T ->
  cleaned T ->
  frame_get "location" T = Some loc ->
  Some k ∈ cells loc ->
  makedirs_error env "covid_visualizations" = None ->
  (forall c, plot_error env c = None) ->
  (forall c, savefig_error env c = None) ->
  exists g1 top g3 month w',
    create_visualizations env df w = (Ret tt, w') /\
    top_countries T = Ok top /\ top <> [] /\
    heap w' = <[df := frame_set "month" month T]> (heap w) /\
    disk w' = disk w ++ [mkChart "covid_visualizations/global_new_cases.png" g1;
                         mkChart "covid_visualizations/top_10_countries_total_cases.png" top;
                         mkChart "covid_visualizations/monthly_trend.png" g3] /\
    last (console w') = Some success_line.
Proof.
  intros Hget [_ (date & Hdate & _) _ (tcs & Htcs & _ & Hnn1)
               (nc & Hnc & Hclip & Hnn2)] Hloc Hk Hmk Hplot Hsave.
  assert (Hg1 : exists g1, frame_groupby "date" "new_cases" series_sum T = Ok g1).
  { unfold frame_groupby. rewrite Hdate, Hnc. apply groupby_agg_total.
    intros k0. apply count_sum, Hclip. }
  destruct Hg1 as [g1 Hg1].
  destruct (top_countries_total T loc tcs Hloc Htcs) as [top Htop].
  pose proof (top_countries_nonempty T loc k top Hloc Hk Htop) as Hne.
  assert (Hlabels : exists labels,
            mapM (fun p => format_float (snd p)) top = Ok labels).
  { apply mapM_Result_all. intros p Hp.
    destruct (top_countries_Ok T top Htop) as (loc0 & tc0 & Hloc0 & Htc0 & Heq).
    assert (tc0 = tcs) as -> by congruence.
    rewrite Heq in Hp. apply elem_of_take in Hp as (i & Hi & _).
    assert (Hin : p ∈ sort_values_desc
                        (map (fun k => (k, group_max loc0 tcs k)) (group_keys loc0)))
      by (apply list_elem_of_lookup; eauto).
    unfold sort_values_desc in Hin. rewrite (isort_perm desc_leb) in Hin.
    apply list_elem_of_In, in_map_iff in Hin as (k0 & <- & _). simpl.
    eexists. apply count_group_max, Hnn1. }
  destruct Hlabels as [labels Hlabels].
  set (month := SPeriod (map (option_map to_period_M) date)).
  assert (Hg3 : exists g3,
            frame_groupby "month" "new_cases" series_mean
              (frame_set "month" month T) = Ok g3).
  { unfold frame_groupby.
    rewrite frame_get_set_same, frame_get_set_other, Hnc by discriminate.
    apply groupby_agg_total. intros k0. apply count_mean; assumption. }
  destruct Hg3 as [g3 Hg3].
  exists g1, top, g3, month. eexists.
  unfold create_visualizations, try_except.
  rewrite (visualizations_body_complete env w df T g1 top labels
             (SDatetime date) month g3 Hget Hmk Hplot Hsave Hg1 Htop Hne Hlabels
             Hdate eq_refl Hg3).
  split; [reflexivity|]. cbn [disk console heap].
  split; [exact Htop|]. split; [exact Hne|].
  split; [reflexivity|]. split; [reflexivity|].
  rewrite last_app. reflexivity.
Qed.

(** X9. On a table the Cleaner returned in which some row names a
    location, and with a file system and a plotting library that do not
    raise, the Visualizer saves the three charts, in the order of
    [chart_files]; it ends on the success message, and the table has its
    month column.  (Of a table without rows the bars are never drawn.) *)
Theorem visualizations_of_cleaned_table lib env w df T df' w' w2 T' loc k :
  heap w !! df = Some T ->
  run (clean_dataset lib df) w = (Ret df', w') ->
  heap w' !! df' = Some T' ->
  frame_get "location" T' = Some loc ->
  Some k ∈ cells loc ->
  heap w2 !! df' = heap w' !! df' ->
  makedirs_error env "covid_visualizations" = None ->
  (forall c, plot_error env c = None) ->
  (forall c, savefig_error env c = None) ->
  exists c1 c2 c3 w3,
    run (create_visualizations env df') w2 = (Ret tt, w3) /\
    disk w3 = disk w2 ++ [c1; c2; c3] /\
    map file [c1; c2; c3] = chart_files /\
    last (console w3) = Some success_line /\
    exists T3 month, heap w3 !! df' = Some T3 /\ frame_get "month" T3 = Some month.
Proof.
  intros H Hrun HT' Hloc Hk Hw2 Hmk Hplot Hsave.
  destruct (clean_dataset_returns lib w df T df' w' H Hrun)
    as (T0 & Tm & HT & _ & _ & Hget).
  assert (T0 = T') as -> by congruence.
  rewrite Hget in Hw2.
  destruct (create_visualizations_cleaned env w2 df' T' loc k Hw2
              (clean_frame_cleaned lib T T' HT) Hloc Hk Hmk Hplot Hsave)
    as (g1 & top & g3 & month & w3 & Hviz & _ & _ & Hheap & Hdisk & Hlast).
  eexists _, _, _, w3. split; [exact Hviz|]. split; [exact Hdisk|].
  split; [reflexivity|]. split; [exact Hlast|].
  exists (frame_set "month" month T'), month.
  split; [|apply frame_get_set_same].
  rewrite Hheap. apply list_lookup_insert_eq. eapply lookup_lt_Some, Hw2.
Qed.

Lemma visualizations_of_cleaned_table_witness :
  exists c1 c2 c3 w3,
    run (create_visualizations fine_env 3%nat) world_france_analysed = (Ret tt, w3) /\
    disk w3 = disk world_france_analysed ++ [c1; c2; c3] /\
    map file [c1; c2; c3] = chart_files /\
    last (console w3) = Some success_line /\
    exists T3 month, heap w3 !! 3%nat = Some T3 /\ frame_get "month" T3 = Some month.
Proof.
  apply (visualizations_of_cleaned_table iso_lib fine_env (loaded world_france)
           0%nat world_france 3%nat world_france_cleaned world_france_analysed
           france_only (SObject [Some "France"]) (VStr "France")).
  - reflexivity.
  - apply run_returns. reflexivity.
  - reflexivity.
  - reflexivity.
  - simpl. left.
  - reflexivity.
  - reflexivity.
  - reflexivity.
  - reflexivity.
Defined.

(** A cleaned table without rows: the line chart is saved, the bars are
    not drawn, and the table gets no month column. *)
Example visualizations_of_aggregates_only :
  let w := snd (run (clean_dataset iso_lib 0%nat) (loaded aggregates_only)) in
  let w' := snd (run (create_visualizations fine_env 3%nat) w) in
  disk w' = [mkChart "covid_visualizations/global_new_cases.png" []] /\
  last (console w') = Some (ErrorLine "Error creating visualizations" IndexError) /\
  heap w' = heap w.
Proof. repeat split; vm_compute; reflexivity. Qed.

(** C9. For every cleaned table, the top-10 result of the Visualizer (the
    value of [top_countries], computed at lines 177 and 178) is a ranking
    of the locations by the greatest total_cases of each: one entry per
    location, each with the maximum of its location over all its rows,
    sorted with the greatest first, ten entries, or as many as there are
    locations when these are fewer, and no location left out has more
    than one that is in; it is computed whenever the table has a
    location column.  The Visualizer saves under [top10_file] nothing but
    such a ranking of the table, and it does save one, as its second
    chart and with an entry in it, whenever some row names a location and
    nothing of the file system and of the plotting library raises. *)
Theorem visualizer_top10_ranking lib env w0 df0 T0 df w1 w :
  heap w0 !! df0 = Some T0 ->
  wf_frame T0 = true ->
  run (clean_dataset lib df0) w0 = (Ret df, w1) ->
  heap w !! df = heap w1 !! df ->
  exists T,
    heap w1 !! df = Some T /\
    (forall r, top_countries T = Ok r -> ranking T r) /\
    (forall loc, frame_get "location" T = Some loc ->
                 exists r, top_countries T = Ok r) /\
    exists w' new,
      run (create_visualizations env df) w = (Ret tt, w') /\
      disk w' = disk w ++ new /\
      (forall ch, ch ∈ new -> file ch = top10_file -> ranking T (points ch)) /\
      (forall loc k,
         frame_get "location" T = Some loc ->
         Some k ∈ cells loc ->
         makedirs_error env "covid_visualizations" = None ->
         (forall c, plot_error env c = None) ->
         (forall c, savefig_error env c = None) ->
         exists ch,
           new !! 1%nat = Some ch /\ file ch = top10_file /\ points ch <> []).
Proof.
  intros H0 Hwf Hclean Hw.
  destruct (clean_dataset_returns lib w0 df0 T0 df w1 H0 Hclean)
    as (T & Tm & HT & _ & _ & H1).
  exists T. split; [exact H1|].
  assert (Hrank : forall r, top_countries T = Ok r -> ranking T r)
    by (intros r; apply (top_countries_spec lib T0); assumption).
  split; [exact Hrank|]. split.
  - intros loc Hloc.
    destruct (clean_frame_cleaned lib T0 T HT) as [_ _ _ (tc & Htc & _) _].
    eapply top_countries_total; eauto.
  - rewrite H1 in Hw.
    destruct (create_visualizations_run env w df T Hw)
      as (w' & Hrun & _ & new & Hdisk & Hnew).
    exists w', new. repeat (split; [assumption|]). split.
    + intros ch Hch Hfile. auto.
    + intros loc k Hloc Hk Hmk Hplot Hsave.
      destruct (create_visualizations_cleaned env w df T loc k Hw
                  (clean_frame_cleaned lib T0 T HT) Hloc Hk Hmk Hplot Hsave)
        as (g1 & top & g3 & month & w'' & Hrun' & _ & Hne & _ & Hdisk' & _).
      unfold run in Hrun. rewrite Hrun in Hrun'. injection Hrun' as <-.
      rewrite Hdisk in Hdisk'. apply app_inv_head in Hdisk'. subst new.
      eexists. split; [reflexivity|]. split; [reflexivity | exact Hne].
Qed.

Lemma visualizer_top10_ranking_witness :
  exists T,
    heap (snd (run (clean_dataset iso_lib 0%nat) (loaded twelve_locations))) !! 3%nat
    = Some T /\
    (forall r, top_countries T = Ok r -> ranking T r) /\
    (forall loc, frame_get "location" T = Some loc ->
                 exists r, top_countries T = Ok r) /\
    exists w' new,
      run (create_visualizations fine_env 3%nat)
          (snd (run (clean_dataset iso_lib 0%nat) (loaded twelve_locations)))
      = (Ret tt, w') /\
      disk w'
      = disk (snd (run (clean_dataset iso_lib 0%nat) (loaded twelve_locations)))
        ++ new /\
      (forall ch, ch ∈ new -> file ch = top10_file -> ranking T (points ch)) /\
      (forall loc k,
         frame_get "location" T = Some loc ->
         Some k ∈ cells loc ->
         makedirs_error fine_env "covid_visualizations" = None ->
         (forall c, plot_error fine_env c = None) ->
         (forall c, savefig_error fine_env c = None) ->
         exists ch,
           new !! 1%nat = Some ch /\ file ch = top10_file /\ points ch <> []).
Proof.
  exact (visualizer_top10_ranking iso_lib fine_env (loaded twelve_locations)
           0%nat twelve_locations 3%nat _ _ eq_refl eq_refl
           (run_returns (clean_dataset iso_lib 0%nat) (loaded twelve_locations)
                        3%nat eq_refl)
           eq_refl).
Defined.

(** * The Loader and the exit status of the script *)

Lemma load_dataset_run net u w :
  load_dataset net u w
  = match load_result net u with
    | inr T =>
        (Ret (length (heap w)),
         mkWorld (heap w ++ [T])
                 (console w ++ [Text "Loading dataset..."; loaded_line T])
                 (dirs w) (disk w))
    | inl e =>
        (Exit 1,
         mkWorld (heap w) (console w ++ Text "Loading dataset..." :: load_diagnostic e)
                 (dirs w) (disk w))
    end.
Proof.
  destruct w as [h c d k].
  unfold load_dataset, load_body, load_result, load_get, load_read_csv, loaded_line.
  destruct (requests_get net u 30) as [status text|msg|msg];
    cbv beta iota zeta delta
      [mbind mret LoadM_bind LoadM_ret run_load load_raise load_print
       load_new_frame shape fst snd print new_frame heap console dirs disk].
  - destruct (status =? 200); cbv beta iota zeta delta [negb run_load].
    + destruct (pd_read_csv net text) as [T| |msg];
        cbv beta iota zeta delta [run_load load_handler load_diagnostic];
        run_steps; rewrite <- ?app_assoc; reflexivity.
    + unfold load_handler, load_diagnostic. run_steps.
      rewrite <- ?app_assoc. reflexivity.
  - unfold load_handler, load_diagnostic. run_steps.
    rewrite <- ?app_assoc. reflexivity.
  - unfold load_handler, load_diagnostic. run_steps.
    rewrite <- ?app_assoc. reflexivity.
Qed.

Lemma perform_analysis_returns lib w df :
  exists res w',
    perform_analysis lib df w = (Ret res, w') /\
    heap w' = heap w /\ dirs w' = dirs w /\ disk w' = disk w.
Proof.
  pose proof (analysis_body_run lib w df) as Hbody.
  unfold perform_analysis, try_except.
  destruct (analysis_body lib df w) as [[res|e|c] w1].
  - destruct Hbody as (Hh & Hd & Hk & _). eauto 6.
  - destruct Hbody as (Hh & Hd & Hk). eexists _, _.
    split; [reflexivity|]. destruct w1. auto.
  - contradiction.
Qed.

(** The script stage by stage, from what the Loader and the Cleaner end
    in. *)
Lemma main_run net lib env w :
  match load_result net url with
  | inl e =>
      main net lib env w
      = (Exit 1,
         mkWorld (heap w) (console w ++ Text "Loading dataset..." :: load_diagnostic e)
                 (dirs w) (disk w))
  | inr T =>
      match clean_frame lib T with
      | Err e =>
          exists w1,
            main net lib env w = (Exit 1, w1) /\
            dirs w1 = dirs w /\ disk w1 = disk w
      | Ok T' =>
          exists Tm res w1 w2 w3,
            clean_dataset lib (length (heap w)) (snd (load_dataset net url w))
            = (Ret (length (heap w) + 3)%nat, w1) /\
            heap w1 = heap w ++ [T; T; Tm; T'] /\
            perform_analysis lib (length (heap w) + 3)%nat w1 = (Ret res, w2) /\
            heap w2 = heap w1 /\ disk w2 = disk w /\
            create_visualizations env (length (heap w) + 3)%nat w2 = (Ret tt, w3) /\
            main net lib env w = (Ret ((length (heap w) + 3)%nat, res), w3)
      end
  end.
Proof.
  unfold main. cbv beta iota zeta delta [mbind M_bind mret M_ret].
  rewrite load_dataset_run.
  destruct (load_result net url) as [e|T]; [reflexivity|].
  set (w0 := mkWorld (heap w ++ [T]) _ _ _). cbn [snd].
  assert (H0 : heap w0 !! length (heap w) = Some T) by apply lookup_last.
  pose proof (clean_dataset_run lib w0 (length (heap w)) T H0) as Hclean.
  destruct (clean_frame lib T) as [T'|e].
  - destruct Hclean as [Tm Hclean].
    assert (Hlen : (length (heap w0) + 2 = length (heap w) + 3)%nat)
      by (unfold w0; cbn [heap]; rewrite length_app; simpl; lia).
    rewrite Hlen in Hclean. rewrite Hclean.
    set (w1 := mkWorld (heap w0 ++ [T; Tm; T']) _ _ _).
    destruct (perform_analysis_returns lib w1 (length (heap w) + 3)%nat)
      as (res & w2 & Hana & Hh2 & Hd2 & Hk2).
    rewrite Hana.
    assert (H2 : heap w2 !! (length (heap w) + 3)%nat = Some T').
    { rewrite Hh2. unfold w1, w0. cbn [heap]. rewrite <- app_assoc.
      rewrite lookup_app_r by lia.
      replace (length (heap w) + 3 - length (heap w))%nat with 3%nat by lia.
      reflexivity. }
    destruct (create_visualizations_run env w2 _ T' H2) as (w3 & Hviz & _).
    unfold run in Hviz. rewrite Hviz.
    exists Tm, res, w1, w2, w3. repeat split; auto.
    unfold w1, w0. cbn [heap]. rewrite <- app_assoc. reflexivity.
  - destruct Hclean as [junk Hclean]. rewrite Hclean.
    eexists. split; [reflexivity|]. split; reflexivity.
Qed.

(** X10. The Loader never raises.  It returns only when the server
    answered with status 200 and the text was parsed: the table is then
    stored at a reference that was not in use, and the line printed after
    "Loading dataset..." tells its numbers of rows and of columns.  In
    every other case it leaves the process with status 1 and creates no
    table.  It makes no directory and saves no figure. *)
Theorem load_dataset_returns_or_exits net u w :
  dirs (snd (run (load_dataset net u) w)) = dirs w /\
  disk (snd (run (load_dataset net u) w)) = disk w /\
  match fst (run (load_dataset net u) w) with
  | Ret df =>
      exists text T,
        requests_get net u 30 = Response 200 text /\
        pd_read_csv net text = Parsed T /\
        df = length (heap w) /\
        heap (snd (run (load_dataset net u) w)) = heap w ++ [T] /\
        console (snd (run (load_dataset net u) w))
        = console w ++ [Text "Loading dataset..."; loaded_line T]
  | Exit c =>
      c = 1 /\
      heap (snd (run (load_dataset net u) w)) = heap w /\
      ~ (exists text T,
           requests_get net u 30 = Response 200 text /\
           pd_read_csv net text = Parsed T)
  | Raise _ => False
  end.
Proof.
  unfold run. rewrite load_dataset_run. unfold load_result.
  destruct (requests_get net u 30) as [status text|msg|msg].
  - destruct (status =? 200) eqn:Es.
    + apply Z.eqb_eq in Es. subst status.
      destruct (pd_read_csv net text) as [T| |msg] eqn:Hcsv; cbn.
      * repeat split. exists text, T. auto.
      * repeat split. intros (text' & T' & [= <-] & Hp). congruence.
      * repeat split. intros (text' & T' & [= <-] & Hp). congruence.
    + apply Z.eqb_neq in Es. cbn. repeat split.
      intros (text' & T' & [= -> _] & _). congruence.
  - cbn. repeat split. intros (text' & T' & [=] & _).
  - cbn. repeat split. intros (text' & T' & [=] & _).
Qed.

(** X11. When the server answers the URL of the dataset with a status
    other than 200, the script prints the status in the diagnostic of
    the Loader and leaves the process with status 1: nothing is parsed,
    no table is created, nothing is cleaned, analysed or drawn. *)
Theorem main_bad_status net lib env w status text :
  requests_get net url 30 = Response status text ->
  status <> 200 ->
  run (main net lib env) w
  = (Exit 1,
     mkWorld (heap w)
             (console w
              ++ [Text "Loading dataset...";
                  Text ("Error loading dataset: <urlopen error URL returned status code "
                        +:+ pretty status +:+ ">");
                  Text "Please check your internet connection or try again later."])
             (dirs w) (disk w)).
Proof.
  intros Hget Hstatus. pose proof (main_run net lib env w) as Hmain.
  unfold load_result in Hmain. rewrite Hget in Hmain.
  apply Z.eqb_neq in Hstatus. rewrite Hstatus in Hmain.
  unfold run. rewrite Hmain. reflexivity.
Qed.

Lemma main_bad_status_witness :
  run (main (serving 404 "Not Found" world_france) iso_lib fine_env) start
  = (Exit 1,
     mkWorld (heap start)
             (console start
              ++ [Text "Loading dataset...";
                  Text ("Error loading dataset: <urlopen error URL returned status code "
                        +:+ pretty 404 +:+ ">");
                  Text "Please check your internet connection or try again later."])
             (dirs start) (disk start)).
Proof.
  apply (main_bad_status (serving 404 "Not Found" world_france) iso_lib fine_env
           start 404 "Not Found").
  - reflexivity.
  - lia.
Defined.

(** X12. The exit status of the script.  The script never ends in an
    uncaught exception.  It leaves the process, with status 1, exactly
    when the Loader or the Cleaner does, and then no directory was made
    and no chart was saved; otherwise it runs to its end, whatever the
    Analyzer and the Visualizer meet, and the table it ends with is the
    one the Cleaner returned. *)
Theorem main_exit_status net lib env w :
  match fst (run (main net lib env) w) with
  | Ret (df, res) =>
      exists df0 w0 w1,
        run (load_dataset net url) w = (Ret df0, w0) /\
        run (clean_dataset lib df0) w0 = (Ret df, w1)
  | Exit c =>
      c = 1 /\
      dirs (snd (run (main net lib env) w)) = dirs w /\
      disk (snd (run (main net lib env) w)) = disk w /\
      (fst (run (load_dataset net url) w) = Exit 1 \/
       exists df0 w0,
         run (load_dataset net url) w = (Ret df0, w0) /\
         fst (run (clean_dataset lib df0) w0) = Exit 1)
  | Raise _ => False
  end.
Proof.
  pose proof (main_run net lib env w) as Hmain.
  pose proof (load_dataset_run net url w) as Hload.
  unfold run. destruct (load_result net url) as [e|T].
  - rewrite Hmain, Hload. cbn. auto.
  - set (w0 := mkWorld (heap w ++ [T]) _ _ _) in Hload.
    assert (H0 : heap w0 !! length (heap w) = Some T) by apply lookup_last.
    pose proof (clean_dataset_run lib w0 (length (heap w)) T H0) as Hclean.
    destruct (clean_frame lib T) as [T'|e].
    + destruct Hmain as (Tm & res & w1 & w2 & w3 & Hc & _ & _ & _ & _ & _ & ->).
      cbn. rewrite Hload in Hc |- *. eauto.
    + destruct Hmain as (w1 & -> & Hd & Hk). cbn.
      repeat (split; [reflexivity || assumption|]).
      right. exists (length (heap w)), w0. split; [exact Hload|].
      destruct Hclean as [junk ->]. reflexivity.
Qed.

(** * A run of the whole script *)

(** X13. A full run.  When the server answers with status 200 and a
    text that is parsed as a table the Cleaner accepts, when in the
    cleaned table some row names a location, new_deaths is a numeric
    column and the dates are no further apart than a [Timedelta] can
    tell, and when nothing of the file system and of the plotting library
    raises, the script runs to its end: it returns the cleaned table
    with the statistics, the three charts are on the disk after it, in
    the order of [chart_files], and its last line is the success message
    of the Visualizer. *)
Theorem main_full_run net lib env w text T df1 w1 T' date loc k nd :
  requests_get net url 30 = Response 200 text ->
  pd_read_csv net text = Parsed T ->
  run (clean_dataset lib 0%nat) (loaded T) = (Ret df1, w1) ->
  heap w1 !! df1 = Some T' ->
  frame_get "date" T' = Some date ->
  span_fits date ->
  frame_get "location" T' = Some loc ->
  Some k ∈ cells loc ->
  frame_get "new_deaths" T' = Some nd ->
  dtype_of nd = int64 \/ dtype_of nd = float64 ->
  makedirs_error env "covid_visualizations" = None ->
  (forall c, plot_error env c = None) ->
  (forall c, savefig_error env c = None) ->
  exists df r w' c1 c2 c3,
    run (main net lib env) w = (Ret (df, Some r), w') /\
    map fst r = ["mean_cases"; "median_cases"; "max_cases"; "total_cases";
                 "correlation"] /\
    disk w' = disk w ++ [c1; c2; c3] /\
    map file [c1; c2; c3] = chart_files /\
    last (console w') = Some success_line.
Proof.
  intros Hget Hcsv Hclean HT' Hdate Hfits Hloc Hk Hnd Hty Hmk Hplot Hsave.
  destruct (clean_dataset_returns lib (loaded T) 0%nat T df1 w1 eq_refl Hclean)
    as (T0 & Tm0 & HT & _ & _ & HT0).
  assert (T0 = T') as -> by congruence.
  pose proof (main_run net lib env w) as Hmain.
  unfold load_result in Hmain. rewrite Hget, Hcsv in Hmain. cbn in Hmain.
  rewrite HT in Hmain.
  destruct Hmain as (Tm & res & wc & wa & wv & _ & Hhc & Hana & Hha & Hka & Hviz & Hmain).
  pose proof (clean_frame_cleaned lib T T' HT) as Hcleaned.
  assert (Hc : heap wc !! (length (heap w) + 3)%nat = Some T').
  { rewrite Hhc, lookup_app_r by lia.
    replace (length (heap w) + 3 - length (heap w))%nat with 3%nat by lia.
    reflexivity. }
  destruct (perform_analysis_cleaned lib wc _ T' nd date Hc Hcleaned Hnd Hty
              Hdate Hfits)
    as (days & mean & median & max_cases & total & m & Hana' & _).
  rewrite Hana in Hana'. injection Hana' as -> Hwa.
  assert (Ha : heap wa !! (length (heap w) + 3)%nat = Some T')
    by (rewrite Hha; exact Hc).
  destruct (create_visualizations_cleaned env wa _ T' loc k Ha Hcleaned Hloc Hk
              Hmk Hplot Hsave)
    as (g1 & top & g3 & month & wv' & Hviz' & _ & _ & _ & Hdisk & Hlast).
  rewrite Hviz in Hviz'. injection Hviz' as <-.
  eexists _, _, wv, _, _, _. split; [exact Hmain|].
  split; [reflexivity|]. rewrite <- Hka. split; [exact Hdisk|].
  split; [reflexivity | exact Hlast].
Qed.

Lemma main_full_run_witness :
  exists df r w' c1 c2 c3,
    run (main (serving 200 "csv" twelve_locations) iso_lib fine_env) start
    = (Ret (df, Some r), w') /\
    map fst r = ["mean_cases"; "median_cases"; "max_cases"; "total_cases";
                 "correlation"] /\
    disk w' = disk start ++ [c1; c2; c3] /\
    map file [c1; c2; c3] = chart_files /\
    last (console w') = Some success_line.
Proof.
  apply (main_full_run (serving 200 "csv" twelve_locations) iso_lib fine_env start
           "csv" twelve_locations 3%nat
           (snd (run (clean_dataset iso_lib 0%nat) (loaded twelve_locations)))
           (cleaned_of iso_lib twelve_locations)
           (SDatetime
              [Some 1609459200000000000; Some 1612137600000000000;
               Some 1609459200000000000; Some 1609459200000000000;
               Some 1609459200000000000; Some 1609459200000000000;
               Some 1609459200000000000; Some 1609459200000000000;
               Some 1609459200000000000; Some 1609459200000000000;
               Some 1609459200000000000; Some 1609459200000000000;
               Some 1609459200000000000])
           (SObject [Some "France"; Some "France"; Some "Spain"; Some "Italy";
                     Some "India"; Some "Japan"; Some "Nepal"; Some "Kenya";
                     Some "Ghana"; Some "Fiji"; Some "Samoa";
                     Some "Chile"; Some "Peru"])
           (VStr "France")
           (SInt [1; 2; 1; 1; 9; 0; 0; 0; 0; 0; 0; 1; 1])).
  - reflexivity.
  - reflexivity.
  - apply run_returns. reflexivity.
  - reflexivity.
  - reflexivity.
  - apply (span_fits_within _ 1609459200000000000 1612137600000000000).
    + reflexivity.
    + vm_compute. discriminate.
  - reflexivity.
  - simpl. left.
  - reflexivity.
  - left. reflexivity.
  - reflexivity.
  - reflexivity.
  - reflexivity.
Defined.

(** * Edges: a table without rows, a table without locations *)

Lemma cells_nil s : cells s = [] -> numbers s = Ok [] \/ dtype_of s = datetime64 \/ dtype_of s = period_M.
Proof.
  destruct s as [l|l|l|l|l]; simpl; intros H; apply map_eq_nil in H; subst l; auto.
Qed.

Lemma cells_nil_max s : cells s = [] -> series_max s = None.
Proof. unfold series_max. intros ->. reflexivity. Qed.

Lemma cells_nil_days l : cells (SDatetime l) = [] -> date_range_days (SDatetime l) = Ok None.
Proof. simpl. intros H. apply map_eq_nil in H. subst l. reflexivity. Qed.

(** X14. When the Cleaner keeps no row (no row of the raw table has a
    continent and a valid date), the Analyzer still succeeds, if the raw
    table has a numeric new_deaths column: the mean, the median and the
    two maxima it returns and prints are NaN, and so is the number of
    days covered. *)
Theorem analysis_of_empty_table lib w df T df' w' T' nd :
  heap w !! df = Some T ->
  wf_frame T = true ->
  run (clean_dataset lib df) w = (Ret df', w') ->
  heap w' !! df' = Some T' ->
  index T' = [] ->
  frame_get "new_deaths" T = Some nd ->
  dtype_of nd = int64 \/ dtype_of nd = float64 ->
  exists m w'',
    run (perform_analysis lib df') w'
    = (Ret (Some [("mean_cases", Scalar None);
                  ("median_cases", Scalar None);
                  ("max_cases", Scalar None);
                  ("total_cases", Scalar None);
                  ("correlation", Matrix m)]), w'') /\
    console w'' = console w' ++ analysis_report None None None None None m.
Proof.
  intros H Hwf Hrun Hget Hidx Hnd Hty.
  destruct (clean_dataset_returns lib w df T df' w' H Hrun)
    as (T0 & Tm & HT & _ & _ & Hget0).
  assert (T0 = T') as -> by congruence.
  pose proof (clean_frame_wf lib T T' Hwf HT) as Hwf'.
  assert (Hnil : forall n s, frame_get n T' = Some s -> cells s = []).
  { intros n s Hs. apply length_zero_iff_nil.
    rewrite (wf_frame_get T' n s Hwf' Hs), Hidx. reflexivity. }
  destruct (clean_frame_columns _ _ _ HT) as [_ Hcols].
  specialize (Hcols "new_deaths"). rewrite Hnd in Hcols.
  destruct Hcols as (nd' & Hnd' & _ & Hty'). simpl in Hty'. rewrite <- Hty' in Hty.
  destruct (clean_frame_cleaned lib T T' HT)
    as [_ (date & Hdate & _) _ (tcs & Htcs & _ & _) (nc & Hnc & Hclip & _)].
  destruct (count_corr_cells nc Hclip) as (ncs & Hncs).
  destruct (numeric_corr_cells nd' Hty) as [nds Hnds].
  assert (Hnum : numbers nc = Ok []).
  { destruct (cells_nil nc (Hnil _ _ Hnc)) as [Hn|[Hn|Hn]]; [exact Hn|..];
      destruct nc; discriminate. }
  assert (Hcorr : corr lib nc nd'
                  = Ok [[pearson lib (complete_pairs ncs ncs);
                         pearson lib (complete_pairs ncs nds)];
                        [pearson lib (complete_pairs nds ncs);
                         pearson lib (complete_pairs nds nds)]])
    by (unfold corr; rewrite Hncs, Hnds; reflexivity).
  assert (Hmean : series_mean nc = Ok None)
    by (unfold series_mean; rewrite Hnum; reflexivity).
  assert (Hmedian : series_median nc = Ok None)
    by (unfold series_median; rewrite Hnum; reflexivity).
  pose proof (analysis_body_complete lib w' df' T' nc tcs nd' (SDatetime date)
                None None _ None Hget Hnc Htcs Hnd' Hdate Hmean Hmedian Hcorr
                (cells_nil_days date (Hnil _ _ Hdate)) eq_refl eq_refl) as Hbody.
  rewrite (cells_nil_max nc (Hnil _ _ Hnc)),
          (cells_nil_max tcs (Hnil _ _ Htcs)) in Hbody.
  specialize (Hbody eq_refl eq_refl).
  eexists _, _. unfold run, perform_analysis, try_except. rewrite Hbody.
  split; reflexivity.
Qed.

Lemma analysis_of_empty_table_witness :
  exists m w'',
    run (perform_analysis iso_lib 3%nat)
        (snd (run (clean_dataset iso_lib 0%nat) (loaded aggregates_only)))
    = (Ret (Some [("mean_cases", Scalar None);
                  ("median_cases", Scalar None);
                  ("max_cases", Scalar None);
                  ("total_cases", Scalar None);
                  ("correlation", Matrix m)]), w'') /\
    console w''
    = console (snd (run (clean_dataset iso_lib 0%nat) (loaded aggregates_only)))
      ++ analysis_report None None None None None m.
Proof.
  apply (analysis_of_empty_table iso_lib (loaded aggregates_only) 0%nat
           aggregates_only 3%nat
           (snd (run (clean_dataset iso_lib 0%nat) (loaded aggregates_only)))
           (mkFrame []
              [("continent", SObject []); ("location", SObject []);
               ("date", SDatetime []); ("total_cases", SInt []);
               ("new_cases", SInt []); ("new_deaths", SInt [])])
           (SInt [1; 0])).
  - reflexivity.
  - reflexivity.
  - apply run_returns. reflexivity.
  - reflexivity.
  - reflexivity.
  - reflexivity.
  - left. reflexivity.
Defined.

(** X15. On a table the Cleaner returned that has no location column,
    and with a file system and a plotting library that do not raise, the
    Visualizer saves the chart global_new_cases.png and no other: the
    ranking raises the KeyError of location, which is printed, and neither
    the bar chart nor the monthly chart is drawn; the table is left
    without a month column, as it was. *)
Theorem visualizations_without_location lib env w df T df' w' w2 :
  heap w !! df = Some T ->
  run (clean_dataset lib df) w = (Ret df', w') ->
  frame_get "location" T = None ->
  heap w2 !! df' = heap w' !! df' ->
  makedirs_error env "covid_visualizations" = None ->
  (forall c, plot_error env c = None) ->
  (forall c, savefig_error env c = None) ->
  exists c1 w3,
    run (create_visualizations env df') w2 = (Ret tt, w3) /\
    heap w3 = heap w2 /\
    disk w3 = disk w2 ++ [c1] /\
    file c1 = "covid_visualizations/global_new_cases.png" /\
    console w3
    = console w2 ++ [Text "Generating visualizations...";
                     Text "Generating global new cases trend chart...";
                     Text "Generating top 10 countries chart...";
                     ErrorLine "Error creating visualizations" (KeyError "location")].
Proof.
  intros H Hrun Hloc Hw2 Hmk Hplot Hsave.
  destruct (clean_dataset_returns lib w df T df' w' H Hrun)
    as (T' & Tm & HT & _ & _ & Hget).
  rewrite Hget in Hw2.
  destruct (clean_frame_columns _ _ _ HT) as [_ Hcols].
  specialize (Hcols "location"). rewrite Hloc in Hcols.
  destruct (clean_frame_cleaned lib T T' HT)
    as [_ (date & Hdate & _) _ _ (nc & Hnc & Hclip & _)].
  assert (Hg1 : exists g1, frame_groupby "date" "new_cases" series_sum T' = Ok g1).
  { unfold frame_groupby. rewrite Hdate, Hnc. apply groupby_agg_total.
    intros k. apply count_sum, Hclip. }
  destruct Hg1 as [g1 Hg1].
  assert (Htop : top_countries T' = Err (KeyError "location"))
    by (unfold top_countries, frame_groupby; rewrite Hcols; reflexivity).
  destruct w2 as [h c d k]. cbn [heap console dirs disk] in *.
  eexists (mkChart _ g1), _.
  unfold run, create_visualizations, visualizations_body. viz_all.
  rewrite Hmk. viz_all. rewrite Hg1. viz_all.
  rewrite !Hplot, !Hsave. viz_all. rewrite Htop. viz_all.
  split; [reflexivity|]. cbn [heap console dirs disk].
  rewrite <- !app_assoc. repeat split; reflexivity.
Qed.

Lemma visualizations_without_location_witness :
  exists c1 w3,
    run (create_visualizations fine_env 3%nat)
        (snd (run (clean_dataset iso_lib 0%nat) (loaded two_days_no_location)))
    = (Ret tt, w3) /\
    heap w3 = heap (snd (run (clean_dataset iso_lib 0%nat) (loaded two_days_no_location))) /\
    disk w3
    = disk (snd (run (clean_dataset iso_lib 0%nat) (loaded two_days_no_location)))
      ++ [c1] /\
    file c1 = "covid_visualizations/global_new_cases.png" /\
    console w3
    = console (snd (run (clean_dataset iso_lib 0%nat) (loaded two_days_no_location)))
      ++ [Text "Generating visualizations...";
          Text "Generating global new cases trend chart...";
          Text "Generating top 10 countries chart...";
          ErrorLine "Error creating visualizations" (KeyError "location")].
Proof.
  apply (visualizations_without_location iso_lib fine_env
           (loaded two_days_no_location) 0%nat two_days_no_location 3%nat
           (snd (run (clean_dataset iso_lib 0%nat) (loaded two_days_no_location)))
           (snd (run (clean_dataset iso_lib 0%nat) (loaded two_days_no_location)))).
  - reflexivity.
  - apply run_returns. reflexivity.
  - reflexivity.
  - reflexivity.
  - reflexivity.
  - reflexivity.
  - reflexivity.
Defined.
